(** * Vision Board AI: the service layer and the UI state of the mood-board app

    A shallow embedding of [services/geminiService.ts] (the gateway to the
    generative model) and of the state handlers of [App.tsx], with the
    properties of the specification proved or refuted on them.

    Conventions of the embedding.
    - A JavaScript string is a [string]; one character of the model stands
      for one UTF-16 code unit.  The prompt constants that contain characters
      outside Latin-1 are stored by their UTF-8 bytes: they are only ever
      concatenated and compared, never measured or trimmed.
    - [string | null] and optional fields are [option].
    - A promise is modelled by its outcome: [Returned v] when it resolves,
      [Threw e] when it rejects; [try]/[catch] is a match on the outcome.
    - The reply of the external model is an input of each function. *)

From Stdlib Require Import String Ascii List Bool Arith ZArith QArith Lia.
From Stdlib Require Import DecimalString.
From Stdlib Require Import Floats.PrimFloat Floats.FloatOps Floats.SpecFloat.
Import ListNotations.

Set Warnings "-register-all,-inexact-float".

Local Close Scope Q_scope.
Local Open Scope nat_scope.
Local Open Scope list_scope.
Local Open Scope string_scope.

(* ===================================================================== *)
(** ** Built-ins of the language that the code calls *)
(* ===================================================================== *)

Module JS.

(** The double quote, for the string constants that contain one. *)
Definition dq : string := String (ascii_of_nat 34) EmptyString.
(** The line feed of a template literal that spans lines. *)
Definition nl : string := String (ascii_of_nat 10) EmptyString.

(** [WhiteSpace] and [LineTerminator] of ECMAScript among the code units
    below 256: TAB, LF, VT, FF, CR, SP and NBSP.  This is the class [\s] of
    a regular expression and the class [String.prototype.trim] strips. *)
Definition isWhiteSpace (c : ascii) : bool :=
  match nat_of_ascii c with
  | 9 | 10 | 11 | 12 | 13 | 32 | 160 => true
  | _ => false
  end.

Fixpoint trimStart (s : string) : string :=
  match s with
  | EmptyString => EmptyString
  | String c r => if isWhiteSpace c then trimStart r else s
  end.

Fixpoint trimEnd (s : string) : string :=
  match s with
  | EmptyString => EmptyString
  | String c r =>
      match trimEnd r with
      | EmptyString => if isWhiteSpace c then EmptyString else String c EmptyString
      | r' => String c r'
      end
  end.

(** [s.trim()] *)
Definition trim (s : string) : string := trimEnd (trimStart s).

Fixpoint take (n : nat) (s : string) : string :=
  match n, s with
  | S n', String c r => String c (take n' r)
  | _, _ => EmptyString
  end.

Fixpoint drop (n : nat) (s : string) : string :=
  match n, s with
  | S n', String _ r => drop n' r
  | _, _ => s
  end.

(** [s.substring(start, end)] on non-negative integers: both indices are
    clamped to the length and swapped when [start > end]. *)
Definition substring (start end_ : nat) (s : string) : string :=
  let a := Nat.min start (String.length s) in
  let b := Nat.min end_ (String.length s) in
  take (Nat.max a b - Nat.min a b) (drop (Nat.min a b) s).

(** [s.startsWith(p)] *)
Fixpoint startsWith (p s : string) : bool :=
  match p, s with
  | EmptyString, _ => true
  | String a p', String b s' => Ascii.eqb a b && startsWith p' s'
  | String _ _, EmptyString => false
  end.

(** [s.includes(p)] *)
Fixpoint includes (p s : string) : bool :=
  startsWith p s ||
  match s with
  | EmptyString => false
  | String _ r => includes p r
  end.

(** Truthiness of a string: every string but the empty one. *)
Definition truthy (s : string) : bool :=
  match s with EmptyString => false | String _ _ => true end.

(** Truthiness of [string | undefined]. *)
Definition truthy_opt (o : option string) : bool :=
  match o with Some s => truthy s | None => false end.

(** [a || b] on strings, the left one possibly undefined. *)
Definition or_else (o : option string) (d : string) : string :=
  match o with
  | Some s => if truthy s then s else d
  | None => d
  end.

(** The messages of the [TypeError]s that reading a property of [undefined]
    and iterating over [undefined] throw.  ECMAScript leaves their wording
    to the engine; this is the wording of V8, for the source as written. *)
Definition cannotRead (property : string) : string :=
  "Cannot read properties of undefined (reading '" ++ property ++ "')".

Definition notIterable (name : string) : string := name ++ " is not iterable".

(** What a JavaScript [throw] throws: an [Error] with its message (a
    [TypeError] is one), or any other value ([error instanceof Error] tells
    them apart). *)
Inductive thrown : Type :=
| ErrorObject (message : string)
| OtherValue.

(** The outcome of a call or of an awaited promise. *)
Inductive outcome (A : Type) : Type :=
| Returned (a : A)
| Threw (e : thrown).
Arguments Returned {A} a.
Arguments Threw {A} e.

Definition bind {A B} (o : outcome A) (k : A -> outcome B) : outcome B :=
  match o with
  | Returned a => k a
  | Threw e => Threw e
  end.

(** [throw new Error(msg)] *)
Definition throwError {A} (msg : string) : outcome A := Threw (ErrorObject msg).

End JS.

Notation "x <- c ;; k" := (JS.bind c (fun x => k))
  (at level 61, c at next level, right associativity).


(* ===================================================================== *)
(** ** [JSON.parse] *)
(* ===================================================================== *)

(** The built-in parser that [parseJsonFromMarkdown] calls, after the JSON
    grammar of ECMA-404: a recursive descent over the text.  A syntax error
    is [None].  A number is kept exactly, as [mantissa * 10 ^ exponent]; an
    object keeps its members in the order of the text. *)
Module JSON.

Inductive value : Type :=
| Null
| Bool (b : bool)
| Number (mantissa exponent : Z)
| Str (units : list N)
| Array (items : list value)
| Object (members : list (list N * value)).

(** JSON's own white space: TAB, LF, CR and SP. *)
Definition isSpace (c : ascii) : bool :=
  match nat_of_ascii c with
  | 9 | 10 | 13 | 32 => true
  | _ => false
  end.

Fixpoint skip_ws (s : string) : string :=
  match s with
  | String c r => if isSpace c then skip_ws r else s
  | EmptyString => EmptyString
  end.

Definition isDigit (c : ascii) : bool :=
  let n := nat_of_ascii c in Nat.leb 48 n && Nat.leb n 57.

Definition hexval (c : ascii) : option N :=
  let n := nat_of_ascii c in
  if Nat.leb 48 n && Nat.leb n 57 then Some (N.of_nat (n - 48))
  else if Nat.leb 65 n && Nat.leb n 70 then Some (N.of_nat (n - 55))
  else if Nat.leb 97 n && Nat.leb n 102 then Some (N.of_nat (n - 87))
  else None.

Definition hex4 (a b c d : ascii) : option N :=
  match hexval a, hexval b, hexval c, hexval d with
  | Some x, Some y, Some z, Some w => Some (((x * 16 + y) * 16 + z) * 16 + w)%N
  | _, _, _, _ => None
  end.

(** The code unit a one-letter escape stands for. *)
Definition escape (c : ascii) : option N :=
  match nat_of_ascii c with
  | 34 => Some 34%N   (* quotation mark *)
  | 92 => Some 92%N   (* reverse solidus *)
  | 47 => Some 47%N   (* solidus *)
  | 98 => Some 8%N    (* b, backspace *)
  | 102 => Some 12%N  (* f, form feed *)
  | 110 => Some 10%N  (* n, line feed *)
  | 114 => Some 13%N  (* r, carriage return *)
  | 116 => Some 9%N   (* t, tab *)
  | _ => None
  end.

Definition cons_units (u : N) (r : option (list N * string)) : option (list N * string) :=
  match r with
  | Some (us, rest) => Some (u :: us, rest)
  | None => None
  end.

(** The characters of a string literal after its opening quote, up to and
    with the closing one. *)
Fixpoint parse_chars (s : string) : option (list N * string) :=
  match s with
  | EmptyString => None
  | String c r =>
      match nat_of_ascii c with
      | 34 => Some ([], r)
      | 92 =>
          match r with
          | String e r1 =>
              if Ascii.eqb e "u" then
                match r1 with
                | String h1 (String h2 (String h3 (String h4 r2))) =>
                    match hex4 h1 h2 h3 h4 with
                    | Some u => cons_units u (parse_chars r2)
                    | None => None
                    end
                | _ => None
                end
              else
                match escape e with
                | Some u => cons_units u (parse_chars r1)
                | None => None
                end
          | EmptyString => None
          end
      | n => if Nat.ltb n 32 then None else cons_units (N.of_nat n) (parse_chars r)
      end
  end.

Fixpoint span_digits (s : string) : string * string :=
  match s with
  | String c r =>
      if isDigit c then let (d, rest) := span_digits r in (String c d, rest)
      else (EmptyString, s)
  | EmptyString => (EmptyString, EmptyString)
  end.

Fixpoint Z_of_digits (acc : Z) (s : string) : Z :=
  match s with
  | String c r => Z_of_digits (acc * 10 + Z.of_nat (nat_of_ascii c - 48)) r
  | EmptyString => acc
  end.

Definition parse_fraction (s : string) : option (string * string) :=
  match s with
  | String "." r =>
      match span_digits r with
      | (EmptyString, _) => None
      | (d, rest) => Some (d, rest)
      end
  | _ => Some (EmptyString, s)
  end.

Definition parse_exponent (s : string) : option (Z * string) :=
  let digits (neg : bool) (r : string) :=
    match span_digits r with
    | (EmptyString, _) => None
    | (d, rest) => Some (if neg then (- Z_of_digits 0 d)%Z else Z_of_digits 0 d, rest)
    end in
  match s with
  | String c r =>
      if Ascii.eqb c "e" || Ascii.eqb c "E" then
        match r with
        | String "+" r1 => digits false r1
        | String "-" r1 => digits true r1
        | _ => digits false r
        end
      else Some (0%Z, s)
  | EmptyString => Some (0%Z, s)
  end.

(** An optional minus sign; the integer part, a single zero or digits that do
    not start with zero; an optional fraction, a point and digits; an
    optional exponent, e or E, a sign and digits. *)
Definition parse_number (s : string) : option (value * string) :=
  let (neg, s1) := match s with String "-" r => (true, r) | _ => (false, s) end in
  match span_digits s1 with
  | (EmptyString, _) => None
  | (String "0" (String _ _), _) => None
  | (ip, s2) =>
      match parse_fraction s2 with
      | None => None
      | Some (fp, s3) =>
          match parse_exponent s3 with
          | None => None
          | Some (e, s4) =>
              let m := Z_of_digits 0 (ip ++ fp) in
              Some (Number (if neg then (- m)%Z else m)
                           (e - Z.of_nat (String.length fp))%Z, s4)
          end
      end
  end.

(** A value, the elements of an array after its bracket or a comma, and the
    members of an object after its brace or a comma.  The fuel is an upper
    bound on the calls, which the length of the text gives: at least one
    character is read between two calls of the same function. *)
Fixpoint parse_value (fuel : nat) (s : string) : option (value * string) :=
  match fuel with
  | 0 => None
  | S f =>
      match skip_ws s with
      | EmptyString => None
      | String c r as t =>
          if Ascii.eqb c "{" then
            match skip_ws r with
            | String "}" r1 => Some (Object [], r1)
            | _ =>
                match parse_members f r with
                | Some (ms, r1) => Some (Object ms, r1)
                | None => None
                end
            end
          else if Ascii.eqb c "[" then
            match skip_ws r with
            | String "]" r1 => Some (Array [], r1)
            | _ =>
                match parse_elements f r with
                | Some (vs, r1) => Some (Array vs, r1)
                | None => None
                end
            end
          else if Nat.eqb (nat_of_ascii c) 34 then
            match parse_chars r with
            | Some (us, r1) => Some (Str us, r1)
            | None => None
            end
          else if JS.startsWith "true" t then Some (Bool true, JS.drop 4 t)
          else if JS.startsWith "false" t then Some (Bool false, JS.drop 5 t)
          else if JS.startsWith "null" t then Some (Null, JS.drop 4 t)
          else parse_number t
      end
  end
with parse_elements (fuel : nat) (s : string) : option (list value * string) :=
  match fuel with
  | 0 => None
  | S f =>
      match parse_value f s with
      | None => None
      | Some (v, r) =>
          match skip_ws r with
          | String "," r1 =>
              match parse_elements f r1 with
              | Some (vs, r2) => Some (v :: vs, r2)
              | None => None
              end
          | String "]" r1 => Some ([v], r1)
          | _ => None
          end
      end
  end
with parse_members (fuel : nat) (s : string) : option (list (list N * value) * string) :=
  match fuel with
  | 0 => None
  | S f =>
      match skip_ws s with
      | String c r =>
          if Nat.eqb (nat_of_ascii c) 34 then
            match parse_chars r with
            | None => None
            | Some (k, r1) =>
                match skip_ws r1 with
                | String ":" r2 =>
                    match parse_value f r2 with
                    | None => None
                    | Some (v, r3) =>
                        match skip_ws r3 with
                        | String "," r4 =>
                            match parse_members f r4 with
                            | Some (ms, r5) => Some ((k, v) :: ms, r5)
                            | None => None
                            end
                        | String "}" r4 => Some ([(k, v)], r4)
                        | _ => None
                        end
                    end
                | _ => None
                end
            end
          else None
      | EmptyString => None
      end
  end.

(** [JSON.parse(text)]: one value between optional white space. *)
Definition parse (text : string) : option value :=
  match parse_value (2 * String.length text + 2) text with
  | Some (v, r) =>
      match skip_ws r with
      | EmptyString => Some v
      | String _ _ => None
      end
  | None => None
  end.

(** Truthiness of a parsed value.  A number is falsy when the double it is
    rounded to is zero: when it is zero, or at most [2^-1075] in magnitude
    (half of the least subnormal, which rounds to even). *)
Definition truthy (v : value) : bool :=
  match v with
  | Null => false
  | Bool b => b
  | Number m e =>
      if (m =? 0)%Z then false
      else if (0 <=? e)%Z then true
      else (10 ^ (- e) <? Z.abs m * 2 ^ 1075)%Z
  | Str us => match us with [] => false | _ :: _ => true end
  | Array _ => true
  | Object _ => true
  end.

End JSON.


(* ===================================================================== *)
(** ** The gateway: [services/geminiService.ts] *)
(* ===================================================================== *)

Module Service.

(** *** The shapes of a request and of a reply

    The types of the SDK are not part of the repository.  A reply is
    modelled with the fields the code reads: [promptFeedback?.blockReason],
    [candidates], [candidates[0].content.parts], and
    [candidates?.[0]?.groundingMetadata?.groundingChunks] with each chunk's
    [web?.title] and [web?.uri].  The content of a candidate and the parts
    of a content may be missing, as every field of a reply may in the SDK.
    A part exposes the two fields the loops test, [text] and [inlineData],
    each present or not. *)

Record Blob : Type := { data : string; mimeType : string }.

Record Part : Type := { text : option string; inlineData : option Blob }.

Record Content : Type := { parts : option (list Part) }.

Record Web : Type := { title : option string; uri : option string }.

Record GroundingChunk : Type := { web : option Web }.

Record GroundingMetadata : Type := { groundingChunks : option (list GroundingChunk) }.

Record Candidate : Type :=
  { content : option Content; groundingMetadata : option GroundingMetadata }.

Record PromptFeedback : Type := { blockReason : option string }.

Record GenerateContentResponse : Type :=
  { promptFeedback : option PromptFeedback;
    candidates : option (list Candidate) }.

Inductive Modality : Type := IMAGE | TEXT.

Inductive Tool : Type := googleSearch.

Inductive Contents : Type :=
| OfParts (ps : list Part)
| OfText (prompt : string).

Inductive Config : Type :=
| responseModalities (ms : list Modality)
| tools (ts : list Tool).

(** The argument of [ai.models.generateContent]. *)
Record Request : Type := { model : string; contents : Contents; config : Config }.

(** A function of the service awaits [generateContent] once: it is the
    request it sends and what it makes of the outcome of that call. *)
Record remote (A : Type) : Type :=
  { request : Request;
    settle : JS.outcome GenerateContentResponse -> JS.outcome A }.
Arguments request {A} r.
Arguments settle {A} r o.

Definition imagePart (base64 mime : string) : Part :=
  {| text := None; inlineData := Some {| data := base64; mimeType := mime |} |}.

Definition textPart (t : string) : Part :=
  {| text := Some t; inlineData := None |}.

(** *** The results, from [types.ts] *)

Record ColorInfo : Type := { hex : string; name : string; role : string }.

Record GeneratedResult : Type :=
  { imageUrl : option string; resultText : option string; colors : list ColorInfo }.

(** [details] is what [JSON.parse] gave: the code does not check it against
    the interface [ElementDetails]. *)
Record ElementDetailsResult : Type :=
  { elementImageUrl : string; details : JSON.value }.

Record SimilarItem : Type := { itemTitle : string; itemUri : string }.

(** The two fields of [ElementDetails] that the service reads.  The tag is a
    string at run time: the [switch] has a [default] for any other value. *)
Record ElementDetails : Type := { elementType : string; elementName : string }.

(** *** [parseJsonFromMarkdown] *)

Definition fence : string := "```".

(** Whether the end of the pattern, white space and then the closing fence,
    matches at the head of [s].  A backquote is no white space: the greedy
    run of white space has one way to succeed. *)
Definition closes (s : string) : bool := JS.startsWith fence (JS.trimStart s).

(** The second group, lazy and not empty: the shortest prefix of [s] after
    which the end of the pattern matches. *)
Fixpoint lazy_body (s : string) : option string :=
  match s with
  | EmptyString => None
  | String c r =>
      if closes r then Some (String c EmptyString)
      else match lazy_body r with
           | Some b => Some (String c b)
           | None => None
           end
  end.

(** The greedy white space before the second group: the longest run is
    tried first, then each shorter one. *)
Fixpoint greedy_space (s : string) : option string :=
  match s with
  | String c r =>
      if JS.isWhiteSpace c then
        match greedy_space r with
        | Some b => Some b
        | None => lazy_body s
        end
      else lazy_body s
  | EmptyString => lazy_body s
  end.

(** After the opening fence: the optional first group is tried present,
    then absent. *)
Definition after_fence (s : string) : option string :=
  if JS.startsWith "json" s then
    match greedy_space (JS.drop 4 s) with
    | Some b => Some b
    | None => greedy_space s
    end
  else greedy_space s.

(** [text.match(re)] for the pattern of the source, an opening fence, an
    optional [json], white space, a lazy non-empty body, white space and a
    closing fence: the second group of the leftmost match, by the
    backtracking order of the language. *)
Fixpoint match_fenced (text : string) : option string :=
  let here := if JS.startsWith fence text then after_fence (JS.drop 3 text) else None in
  match here with
  | Some b => Some b
  | None =>
      match text with
      | String _ r => match_fenced r
      | EmptyString => None
      end
  end.

Definition jsonString (text : string) : string :=
  match match_fenced text with
  | Some m2 => if JS.truthy m2 then JS.trim m2 else JS.trim text
  | None => JS.trim text
  end.

(** The parsed value, or [null] when [JSON.parse] throws. *)
Definition parseJsonFromMarkdown (text : string) : JSON.value :=
  match JSON.parse (jsonString text) with
  | Some v => v
  | None => JSON.Null
  end.

(** *** [callGeminiModel] *)

Definition blocked (response : GenerateContentResponse) : option string :=
  match promptFeedback response with
  | Some fb =>
      match blockReason fb with
      | Some reason => if JS.truthy reason then Some reason else None
      | None => None
      end
  | None => None
  end.

Definition NO_RESPONSE : string :=
  "The AI did not return a response. It may have been filtered for safety reasons.".

(** What [callGeminiModel] makes of a reply, as the loop of its caller gets
    it: the parts of the first candidate, unless the reply names a block
    reason or has no candidate.  The content of a candidate and the parts
    of a content are optional in the SDK and read unguarded: without
    content, [candidates[0].content.parts] throws a [TypeError]; without
    parts, [callGeminiModel] returns [undefined] and the [for ... of] loop
    that every caller runs next over [parts] throws one, in the same [try]
    block. *)
Definition firstParts (response : GenerateContentResponse) : JS.outcome (list Part) :=
  match blocked response with
  | Some reason => JS.throwError ("Request was blocked due to: " ++ reason)
  | None =>
      match candidates response with
      | None | Some [] => JS.throwError NO_RESPONSE
      | Some (c :: _) =>
          match content c with
          | None => JS.throwError (JS.cannotRead "parts")
          | Some body =>
              match parts body with
              | None => JS.throwError (JS.notIterable "parts")
              | Some ps => JS.Returned ps
              end
          end
      end
  end.

Definition callGeminiModel (model : string) (contents : list Part)
  (config : list Modality) : remote (list Part) :=
  {| request := {| model := model; contents := OfParts contents;
                   config := responseModalities config |};
     settle := fun reply => response <- reply ;; firstParts response |}.

(** The [catch] clause that every function of the service ends with. *)
Definition rethrow {A} (prefix unknown : string) (o : JS.outcome A) : JS.outcome A :=
  match o with
  | JS.Returned a => JS.Returned a
  | JS.Threw (JS.ErrorObject message) => JS.throwError (prefix ++ message)
  | JS.Threw JS.OtherValue => JS.throwError unknown
  end.

(** [`data:${part.inlineData.mimeType};base64,${base64ImageBytes}`] *)
Definition dataUrl (b : Blob) : string :=
  "data:" ++ mimeType b ++ ";base64," ++ data b.

(** *** [generateMoodboard] *)

Definition IMAGE_MODEL : string := "gemini-2.5-flash-image".

(** The body of the loop over the parts that [generateMoodboard] and
    [generateCompositeImage] share: a part with a truthy [text] sets the
    text, any other part with [inlineData] sets the image. *)
Definition scanPart (acc : option string * option string) (part : Part)
  : option string * option string :=
  let (imageUrl, txt) := acc in
  if JS.truthy_opt (text part) then (imageUrl, text part)
  else match inlineData part with
       | Some b => (Some (dataUrl b), txt)
       | None => acc
       end.

Definition scanParts (ps : list Part) : option string * option string :=
  fold_left scanPart ps (None, None).

Definition NO_IMAGE : string :=
  "The AI did not return an image. It may have been filtered for safety reasons or the prompt was unclear.".

Definition MOODBOARD_PREFIX : string := "Failed to generate mood board: ".

Definition generateMoodboard (base64ImageData mimeType prompt : string)
  : remote GeneratedResult :=
  let call := callGeminiModel IMAGE_MODEL
                [imagePart base64ImageData mimeType; textPart prompt] [IMAGE; TEXT] in
  {| request := request call;
     settle := fun reply =>
       rethrow MOODBOARD_PREFIX
         "An unknown error occurred while communicating with the AI."
         (ps <- settle call reply ;;
          let (imageUrl, txt) := scanParts ps in
          if negb (JS.truthy_opt imageUrl) then JS.throwError NO_IMAGE
          else JS.Returned {| imageUrl := imageUrl; resultText := txt; colors := [] |}) |}.

(** *** [getElementDetails] *)

(** The instructions of an element-details request: the text part of its contents. *)
Definition ELEMENT_DETAILS_PROMPT : string :=
  String.concat JS.nl [
   "Your response MUST contain two parts in this order:";
   "1. An IMAGE part: a new, photorealistic image.";
   "2. A TEXT part: a single, valid JSON object with no other text or markdown fences.";
   EmptyString;
   "---";
   "IMAGE PART REQUIREMENTS:";
   "CONTEXT: A bright red circular marker (•) indicates the exact element to analyze in the user-provided image.";
   "TASK: Create a new, photorealistic image of ONLY the marked element.";
   EmptyString;
   "IMAGE SPECIFICATIONS:";
   "• SUBJECT: Isolate ONLY the element marked by the red dot. Exclude all other objects. Show the full, uncropped item.";
   "• PRESENTATION: Use a uniform light gray (#f0f0f0) background, soft studio lighting with subtle shadows, and the most informative viewing angle (usually 3/4 perspective).";
   "• SCALE: The element should fill 70-80% of the frame.";
   "• QUALITY: High detail, photorealistic rendering, product photography standard.";
   EmptyString;
   "---";
   "TEXT PART REQUIREMENTS:";
   "ROLE: You are a specialized product analyst.";
   "TASK: Provide a detailed analysis of the marked element as a single, valid JSON object, following this exact schema:";
   EmptyString;
   "{";
   "  " ++ JS.dq ++ "elementType" ++ JS.dq ++ ": " ++ JS.dq ++ "product" ++ JS.dq ++ " | " ++ JS.dq ++ "design_element" ++ JS.dq ++ " | " ++ JS.dq ++ "architectural_feature" ++ JS.dq ++ " | " ++ JS.dq ++ "fashion_item" ++ JS.dq ++ " | " ++ JS.dq ++ "food_item" ++ JS.dq ++ " | " ++ JS.dq ++ "other" ++ JS.dq ++ ",";
   "  " ++ JS.dq ++ "name" ++ JS.dq ++ ": " ++ JS.dq ++ "Specific name or title of the element" ++ JS.dq ++ ",";
   "  " ++ JS.dq ++ "category" ++ JS.dq ++ ": " ++ JS.dq ++ "Broad classification" ++ JS.dq ++ ",";
   "  " ++ JS.dq ++ "subcategory" ++ JS.dq ++ ": " ++ JS.dq ++ "Specific classification" ++ JS.dq ++ ",";
   "  " ++ JS.dq ++ "style" ++ JS.dq ++ ": {";
   "    " ++ JS.dq ++ "primary" ++ JS.dq ++ ": " ++ JS.dq ++ "Main style designation" ++ JS.dq ++ ",";
   "    " ++ JS.dq ++ "secondary" ++ JS.dq ++ ": [" ++ JS.dq ++ "Additional style attributes" ++ JS.dq ++ "],";
   "    " ++ JS.dq ++ "era" ++ JS.dq ++ ": " ++ JS.dq ++ "Time period or design movement" ++ JS.dq;
   "  },";
   "  " ++ JS.dq ++ "materials" ++ JS.dq ++ ": {";
   "    " ++ JS.dq ++ "primary" ++ JS.dq ++ ": " ++ JS.dq ++ "Main material or medium" ++ JS.dq ++ ",";
   "    " ++ JS.dq ++ "secondary" ++ JS.dq ++ ": [" ++ JS.dq ++ "Additional materials if applicable" ++ JS.dq ++ "],";
   "    " ++ JS.dq ++ "finish" ++ JS.dq ++ ": " ++ JS.dq ++ "Surface treatment or texture" ++ JS.dq;
   "  },";
   "  " ++ JS.dq ++ "colors" ++ JS.dq ++ ": {";
   "    " ++ JS.dq ++ "dominant" ++ JS.dq ++ ": " ++ JS.dq ++ "#HEX code" ++ JS.dq ++ ",";
   "    " ++ JS.dq ++ "accent" ++ JS.dq ++ ": [" ++ JS.dq ++ "#HEX code array of other colors" ++ JS.dq ++ "],";
   "    " ++ JS.dq ++ "colorScheme" ++ JS.dq ++ ": " ++ JS.dq ++ "Monochrome" ++ JS.dq;
   "  },";
   "  " ++ JS.dq ++ "dimensions" ++ JS.dq ++ ": {";
   "    " ++ JS.dq ++ "estimated" ++ JS.dq ++ ": true,";
   "    " ++ JS.dq ++ "scale" ++ JS.dq ++ ": " ++ JS.dq ++ "Medium" ++ JS.dq ++ ",";
   "    " ++ JS.dq ++ "proportions" ++ JS.dq ++ ": " ++ JS.dq ++ "Description of proportional relationships" ++ JS.dq;
   "  },";
   "  " ++ JS.dq ++ "description" ++ JS.dq ++ ": {";
   "    " ++ JS.dq ++ "overview" ++ JS.dq ++ ": " ++ JS.dq ++ "Comprehensive 2-3 sentence description" ++ JS.dq ++ ",";
   "    " ++ JS.dq ++ "distinctiveFeatures" ++ JS.dq ++ ": [" ++ JS.dq ++ "Array of notable characteristics" ++ JS.dq ++ "],";
   "    " ++ JS.dq ++ "functionality" ++ JS.dq ++ ": " ++ JS.dq ++ "Primary purpose or use case" ++ JS.dq ++ ",";
   "    " ++ JS.dq ++ "condition" ++ JS.dq ++ ": " ++ JS.dq ++ "New" ++ JS.dq;
   "  },";
   "  " ++ JS.dq ++ "market" ++ JS.dq ++ ": {";
   "    " ++ JS.dq ++ "estimatedValue" ++ JS.dq ++ ": " ++ JS.dq ++ "Price range or value assessment" ++ JS.dq ++ ",";
   "    " ++ JS.dq ++ "availability" ++ JS.dq ++ ": " ++ JS.dq ++ "Common" ++ JS.dq ++ ",";
   "    " ++ JS.dq ++ "brands" ++ JS.dq ++ ": [" ++ JS.dq ++ "Similar or actual brands/manufacturers" ++ JS.dq ++ "],";
   "    " ++ JS.dq ++ "whereToBuy" ++ JS.dq ++ ": [" ++ JS.dq ++ "Suggested retailers or sources" ++ JS.dq ++ "]";
   "  },";
   "  " ++ JS.dq ++ "culturalContext" ++ JS.dq ++ ": {";
   "    " ++ JS.dq ++ "origin" ++ JS.dq ++ ": " ++ JS.dq ++ "Geographic or cultural source" ++ JS.dq ++ ",";
   "    " ++ JS.dq ++ "significance" ++ JS.dq ++ ": " ++ JS.dq ++ "Cultural or historical importance if any" ++ JS.dq ++ ",";
   "    " ++ JS.dq ++ "modernRelevance" ++ JS.dq ++ ": " ++ JS.dq ++ "Current trends or applications" ++ JS.dq;
   "  },";
   "  " ++ JS.dq ++ "technicalDetails" ++ JS.dq ++ ": {";
   "    " ++ JS.dq ++ "constructionMethod" ++ JS.dq ++ ": " ++ JS.dq ++ "How it's made or assembled" ++ JS.dq ++ ",";
   "    " ++ JS.dq ++ "qualityIndicators" ++ JS.dq ++ ": [" ++ JS.dq ++ "Signs of quality or craftsmanship" ++ JS.dq ++ "],";
   "    " ++ JS.dq ++ "maintenance" ++ JS.dq ++ ": " ++ JS.dq ++ "Care or upkeep requirements" ++ JS.dq;
   "  },";
   "  " ++ JS.dq ++ "recommendations" ++ JS.dq ++ ": {";
   "    " ++ JS.dq ++ "similarItems" ++ JS.dq ++ ": [" ++ JS.dq ++ "3-5 related products or alternatives" ++ JS.dq ++ "],";
   "    " ++ JS.dq ++ "styling" ++ JS.dq ++ ": " ++ JS.dq ++ "How to use, wear, or incorporate" ++ JS.dq ++ ",";
   "    " ++ JS.dq ++ "occasions" ++ JS.dq ++ ": [" ++ JS.dq ++ "Appropriate contexts for use" ++ JS.dq ++ "]";
   "  },";
   "  " ++ JS.dq ++ "metadata" ++ JS.dq ++ ": {";
   "    " ++ JS.dq ++ "confidence" ++ JS.dq ++ ": 0.95,";
   "    " ++ JS.dq ++ "analysisTimestamp" ++ JS.dq ++ ": " ++ JS.dq ++ "2024-01-01T12:00:00Z" ++ JS.dq ++ ",";
   "    " ++ JS.dq ++ "elementPosition" ++ JS.dq ++ ": " ++ JS.dq ++ "Center" ++ JS.dq ++ ",";
   "    " ++ JS.dq ++ "imageQuality" ++ JS.dq ++ ": " ++ JS.dq ++ "High" ++ JS.dq;
   "  }";
   "}" ].

(** The body of the loop of [getElementDetails]: a part with a truthy [text]
    sets the details to what [parseJsonFromMarkdown] returns for it. *)
Definition scanDetail (acc : option string * JSON.value) (part : Part)
  : option string * JSON.value :=
  let (imageUrl, det) := acc in
  match text part with
  | Some t =>
      if JS.truthy t then (imageUrl, parseJsonFromMarkdown t)
      else match inlineData part with
           | Some b => (Some (dataUrl b), det)
           | None => acc
           end
  | None =>
      match inlineData part with
      | Some b => (Some (dataUrl b), det)
      | None => acc
      end
  end.

Definition scanDetails (ps : list Part) : option string * JSON.value :=
  fold_left scanDetail ps (None, JSON.Null).

Definition NO_ELEMENT_IMAGE : string :=
  "The AI failed to generate an image for the selected element.".

Definition INVALID_DETAILS : string :=
  "The AI failed to provide valid details for the selected element. The response was not valid JSON.".

Definition DETAILS_PREFIX : string := "Failed to get element details: ".

Definition getElementDetails (base64ImageDataWithMarker mimeType : string)
  : remote ElementDetailsResult :=
  let call := callGeminiModel IMAGE_MODEL
                [imagePart base64ImageDataWithMarker mimeType;
                 textPart ELEMENT_DETAILS_PROMPT] [IMAGE; TEXT] in
  {| request := request call;
     settle := fun reply =>
       rethrow DETAILS_PREFIX
         "An unknown error occurred while getting element details."
         (ps <- settle call reply ;;
          let (imageUrl, det) := scanDetails ps in
          match imageUrl with
          | None => JS.throwError NO_ELEMENT_IMAGE
          | Some url =>
              if negb (JS.truthy url) then JS.throwError NO_ELEMENT_IMAGE
              else if negb (JSON.truthy det) then JS.throwError INVALID_DETAILS
              else JS.Returned {| elementImageUrl := url; details := det |}
          end) |}.

(** *** [enhanceImageTo8K] *)

Definition ENHANCE_PROMPT : string :=
  "Upscale this image to a photorealistic 8K resolution. Increase detail, sharpness, and clarity. Do not change the content, composition, or colors of the original image. Return only the enhanced image.".

(** The loop returns at the first part that has [inlineData]. *)
Fixpoint firstImage (ps : list Part) : option string :=
  match ps with
  | [] => None
  | part :: rest =>
      match inlineData part with
      | Some b => Some (dataUrl b)
      | None => firstImage rest
      end
  end.

Definition enhanceImageTo8K (base64ImageData mimeType : string) : remote string :=
  let call := callGeminiModel IMAGE_MODEL
                [imagePart base64ImageData mimeType; textPart ENHANCE_PROMPT]
                [IMAGE; TEXT] in
  {| request := request call;
     settle := fun reply =>
       rethrow "Failed to enhance image: "
         "An unknown error occurred while enhancing the image."
         (ps <- settle call reply ;;
          match firstImage ps with
          | Some url => JS.Returned url
          | None =>
              JS.throwError
                "The AI did not return an enhanced image. It may have been filtered."
          end) |}.

(** *** [findSimilarItems] *)

Definition commerceQuery (n : string) : string :=
  "Find the product named " ++ JS.dq ++ n ++ JS.dq ++
  " on e-commerce websites like Amazon, Myntra, H&M, or other relevant online stores. Prioritize direct shopping links.".

Definition locationQuery (n : string) : string :=
  "Find the location of the building or landmark known as " ++ JS.dq ++ n ++ JS.dq ++
  " on Google Maps. Provide a direct link to the location.".

Definition recipeQuery (n : string) : string :=
  "Find recipes for " ++ JS.dq ++ n ++ JS.dq ++
  " from Zomato, food wikis, or popular recipe blogs.".

Definition artQuery (n : string) : string :=
  "Find similar artwork or designs to " ++ JS.dq ++ n ++ JS.dq ++
  " on Pinterest, Behance, or Dribbble.".

Definition genericQuery (n : string) : string :=
  "Find more information and relevant links for " ++ JS.dq ++ n ++ JS.dq ++ ".".

(** The [switch] on [details.elementType]. *)
Definition similarPrompt (d : ElementDetails) : string :=
  let n := elementName d in
  let t := elementType d in
  if String.eqb t "fashion_item" then commerceQuery n
  else if String.eqb t "product" then commerceQuery n
  else if String.eqb t "architectural_feature" then locationQuery n
  else if String.eqb t "food_item" then recipeQuery n
  else if String.eqb t "design_element" then artQuery n
  else genericQuery n.

(** [response.candidates?.[0]?.groundingMetadata?.groundingChunks] *)
Definition chunksOf (response : GenerateContentResponse) : option (list GroundingChunk) :=
  match candidates response with
  | Some (c :: _) =>
      match groundingMetadata c with
      | Some gm => groundingChunks gm
      | None => None
      end
  | Some [] | None => None
  end.

(** [{ title: chunk.web?.title || 'Untitled', uri: chunk.web?.uri || '' }] *)
Definition toItem (chunk : GroundingChunk) : SimilarItem :=
  match web chunk with
  | Some w => {| itemTitle := JS.or_else (title w) "Untitled";
                 itemUri := JS.or_else (uri w) EmptyString |}
  | None => {| itemTitle := "Untitled"; itemUri := EmptyString |}
  end.

Definition itemsOf (response : GenerateContentResponse) : list SimilarItem :=
  match chunksOf response with
  | Some (c :: cs) => filter (fun item => JS.truthy (itemUri item)) (map toItem (c :: cs))
  | Some [] | None => []
  end.

Definition SIMILAR_PREFIX : string := "Failed to find similar items: ".

Definition findSimilarItems (d : ElementDetails) : remote (list SimilarItem) :=
  {| request := {| model := "gemini-2.5-flash"; contents := OfText (similarPrompt d);
                   config := tools [googleSearch] |};
     settle := fun reply =>
       rethrow SIMILAR_PREFIX
         "An unknown error occurred while searching for similar items."
         (response <- reply ;; JS.Returned (itemsOf response)) |}.

(** *** [generateCompositeImage] *)

Definition TEXT_INSTEAD (textResponse : string) : string :=
  "The AI returned text instead of an image. Response: " ++ JS.dq ++
  JS.substring 0 150 textResponse ++ "..." ++ JS.dq.

Definition NO_COMPOSITE : string :=
  "The AI did not return a composite image. The response was empty or filtered.".

Definition COMPOSITE_PREFIX : string := "Failed to generate composite image: ".

Definition generateCompositeImage
  (primaryImageBase64 primaryImageMimeType
   secondaryImageBase64 secondaryImageMimeType prompt : string) : remote string :=
  let call := callGeminiModel IMAGE_MODEL
                [imagePart primaryImageBase64 primaryImageMimeType;
                 imagePart secondaryImageBase64 secondaryImageMimeType;
                 textPart prompt] [IMAGE; TEXT] in
  {| request := request call;
     settle := fun reply =>
       rethrow COMPOSITE_PREFIX
         "An unknown error occurred while generating the composite image."
         (ps <- settle call reply ;;
          let (imageUrl, textResponse) := scanParts ps in
          if JS.truthy_opt imageUrl then
            match imageUrl with
            | Some url => JS.Returned url
            | None => JS.throwError NO_COMPOSITE
            end
          else if JS.truthy_opt textResponse then
            match textResponse with
            | Some t => JS.throwError (TEXT_INSTEAD t)
            | None => JS.throwError NO_COMPOSITE
            end
          else JS.throwError NO_COMPOSITE) |}.

End Service.


(* ===================================================================== *)
(** ** The state of the page and its handlers: [App.tsx] *)
(* ===================================================================== *)

Module App.

(** A [File] of the browser: its name, its media type ([file.type]) and its
    content. *)
Record File : Type := { fileName : string; fileType : string; fileContent : string }.

(** The cells of [useState] in [App], in the order of the source. *)
Record AppState : Type :=
  { primaryImageFile : option File;
    primaryImagePreview : option string;
    secondaryImageFile : option File;
    secondaryImagePreview : option string;
    imageType : string;
    customImageType : string;
    userPrompt : string;
    generatedResult : option Service.GeneratedResult;
    isLoading : bool;
    error : option string;
    elementDetailsResult : option Service.ElementDetailsResult;
    isElementLoading : bool;
    elementError : option string;
    clickPosition : option (float * float);
    isEnhancing : bool;
    enhancementError : option string;
    similarItems : option (list Service.SimilarItem);
    isFindingSimilar : bool;
    findSimilarError : option string;
    compositeResultUrl : option string;
    isGeneratingComposite : bool;
    compositeError : option string }.

(** The setters of the cells: each replaces one cell and keeps the others. *)
Definition setPrimaryImageFile (v : option File) (st : AppState) : AppState :=
  Build_AppState v (primaryImagePreview st) (secondaryImageFile st)
    (secondaryImagePreview st) (imageType st) (customImageType st)
    (userPrompt st) (generatedResult st) (isLoading st) (error st)
    (elementDetailsResult st) (isElementLoading st) (elementError st)
    (clickPosition st) (isEnhancing st) (enhancementError st)
    (similarItems st) (isFindingSimilar st) (findSimilarError st)
    (compositeResultUrl st) (isGeneratingComposite st) (compositeError st).

Definition setPrimaryImagePreview (v : option string) (st : AppState) : AppState :=
  Build_AppState (primaryImageFile st) v (secondaryImageFile st)
    (secondaryImagePreview st) (imageType st) (customImageType st)
    (userPrompt st) (generatedResult st) (isLoading st) (error st)
    (elementDetailsResult st) (isElementLoading st) (elementError st)
    (clickPosition st) (isEnhancing st) (enhancementError st)
    (similarItems st) (isFindingSimilar st) (findSimilarError st)
    (compositeResultUrl st) (isGeneratingComposite st) (compositeError st).

Definition setSecondaryImageFile (v : option File) (st : AppState) : AppState :=
  Build_AppState (primaryImageFile st) (primaryImagePreview st) v
    (secondaryImagePreview st) (imageType st) (customImageType st)
    (userPrompt st) (generatedResult st) (isLoading st) (error st)
    (elementDetailsResult st) (isElementLoading st) (elementError st)
    (clickPosition st) (isEnhancing st) (enhancementError st)
    (similarItems st) (isFindingSimilar st) (findSimilarError st)
    (compositeResultUrl st) (isGeneratingComposite st) (compositeError st).

Definition setSecondaryImagePreview (v : option string) (st : AppState) : AppState :=
  Build_AppState (primaryImageFile st) (primaryImagePreview st)
    (secondaryImageFile st) v (imageType st) (customImageType st)
    (userPrompt st) (generatedResult st) (isLoading st) (error st)
    (elementDetailsResult st) (isElementLoading st) (elementError st)
    (clickPosition st) (isEnhancing st) (enhancementError st)
    (similarItems st) (isFindingSimilar st) (findSimilarError st)
    (compositeResultUrl st) (isGeneratingComposite st) (compositeError st).

Definition setImageType (v : string) (st : AppState) : AppState :=
  Build_AppState (primaryImageFile st) (primaryImagePreview st)
    (secondaryImageFile st) (secondaryImagePreview st) v (customImageType st)
    (userPrompt st) (generatedResult st) (isLoading st) (error st)
    (elementDetailsResult st) (isElementLoading st) (elementError st)
    (clickPosition st) (isEnhancing st) (enhancementError st)
    (similarItems st) (isFindingSimilar st) (findSimilarError st)
    (compositeResultUrl st) (isGeneratingComposite st) (compositeError st).

Definition setCustomImageType (v : string) (st : AppState) : AppState :=
  Build_AppState (primaryImageFile st) (primaryImagePreview st)
    (secondaryImageFile st) (secondaryImagePreview st) (imageType st) v
    (userPrompt st) (generatedResult st) (isLoading st) (error st)
    (elementDetailsResult st) (isElementLoading st) (elementError st)
    (clickPosition st) (isEnhancing st) (enhancementError st)
    (similarItems st) (isFindingSimilar st) (findSimilarError st)
    (compositeResultUrl st) (isGeneratingComposite st) (compositeError st).

Definition setUserPrompt (v : string) (st : AppState) : AppState :=
  Build_AppState (primaryImageFile st) (primaryImagePreview st)
    (secondaryImageFile st) (secondaryImagePreview st) (imageType st)
    (customImageType st) v (generatedResult st) (isLoading st) (error st)
    (elementDetailsResult st) (isElementLoading st) (elementError st)
    (clickPosition st) (isEnhancing st) (enhancementError st)
    (similarItems st) (isFindingSimilar st) (findSimilarError st)
    (compositeResultUrl st) (isGeneratingComposite st) (compositeError st).

Definition setGeneratedResult (v : option Service.GeneratedResult) (st : AppState) : AppState :=
  Build_AppState (primaryImageFile st) (primaryImagePreview st)
    (secondaryImageFile st) (secondaryImagePreview st) (imageType st)
    (customImageType st) (userPrompt st) v (isLoading st) (error st)
    (elementDetailsResult st) (isElementLoading st) (elementError st)
    (clickPosition st) (isEnhancing st) (enhancementError st)
    (similarItems st) (isFindingSimilar st) (findSimilarError st)
    (compositeResultUrl st) (isGeneratingComposite st) (compositeError st).

Definition setIsLoading (v : bool) (st : AppState) : AppState :=
  Build_AppState (primaryImageFile st) (primaryImagePreview st)
    (secondaryImageFile st) (secondaryImagePreview st) (imageType st)
    (customImageType st) (userPrompt st) (generatedResult st) v (error st)
    (elementDetailsResult st) (isElementLoading st) (elementError st)
    (clickPosition st) (isEnhancing st) (enhancementError st)
    (similarItems st) (isFindingSimilar st) (findSimilarError st)
    (compositeResultUrl st) (isGeneratingComposite st) (compositeError st).

Definition setError (v : option string) (st : AppState) : AppState :=
  Build_AppState (primaryImageFile st) (primaryImagePreview st)
    (secondaryImageFile st) (secondaryImagePreview st) (imageType st)
    (customImageType st) (userPrompt st) (generatedResult st) (isLoading st) v
    (elementDetailsResult st) (isElementLoading st) (elementError st)
    (clickPosition st) (isEnhancing st) (enhancementError st)
    (similarItems st) (isFindingSimilar st) (findSimilarError st)
    (compositeResultUrl st) (isGeneratingComposite st) (compositeError st).

Definition setElementDetailsResult (v : option Service.ElementDetailsResult) (st : AppState) : AppState :=
  Build_AppState (primaryImageFile st) (primaryImagePreview st)
    (secondaryImageFile st) (secondaryImagePreview st) (imageType st)
    (customImageType st) (userPrompt st) (generatedResult st) (isLoading st)
    (error st) v (isElementLoading st) (elementError st) (clickPosition st)
    (isEnhancing st) (enhancementError st) (similarItems st)
    (isFindingSimilar st) (findSimilarError st) (compositeResultUrl st)
    (isGeneratingComposite st) (compositeError st).

Definition setIsElementLoading (v : bool) (st : AppState) : AppState :=
  Build_AppState (primaryImageFile st) (primaryImagePreview st)
    (secondaryImageFile st) (secondaryImagePreview st) (imageType st)
    (customImageType st) (userPrompt st) (generatedResult st) (isLoading st)
    (error st) (elementDetailsResult st) v (elementError st)
    (clickPosition st) (isEnhancing st) (enhancementError st)
    (similarItems st) (isFindingSimilar st) (findSimilarError st)
    (compositeResultUrl st) (isGeneratingComposite st) (compositeError st).

Definition setElementError (v : option string) (st : AppState) : AppState :=
  Build_AppState (primaryImageFile st) (primaryImagePreview st)
    (secondaryImageFile st) (secondaryImagePreview st) (imageType st)
    (customImageType st) (userPrompt st) (generatedResult st) (isLoading st)
    (error st) (elementDetailsResult st) (isElementLoading st) v
    (clickPosition st) (isEnhancing st) (enhancementError st)
    (similarItems st) (isFindingSimilar st) (findSimilarError st)
    (compositeResultUrl st) (isGeneratingComposite st) (compositeError st).

Definition setClickPosition (v : option (float * float)) (st : AppState) : AppState :=
  Build_AppState (primaryImageFile st) (primaryImagePreview st)
    (secondaryImageFile st) (secondaryImagePreview st) (imageType st)
    (customImageType st) (userPrompt st) (generatedResult st) (isLoading st)
    (error st) (elementDetailsResult st) (isElementLoading st)
    (elementError st) v (isEnhancing st) (enhancementError st)
    (similarItems st) (isFindingSimilar st) (findSimilarError st)
    (compositeResultUrl st) (isGeneratingComposite st) (compositeError st).

Definition setIsEnhancing (v : bool) (st : AppState) : AppState :=
  Build_AppState (primaryImageFile st) (primaryImagePreview st)
    (secondaryImageFile st) (secondaryImagePreview st) (imageType st)
    (customImageType st) (userPrompt st) (generatedResult st) (isLoading st)
    (error st) (elementDetailsResult st) (isElementLoading st)
    (elementError st) (clickPosition st) v (enhancementError st)
    (similarItems st) (isFindingSimilar st) (findSimilarError st)
    (compositeResultUrl st) (isGeneratingComposite st) (compositeError st).

Definition setEnhancementError (v : option string) (st : AppState) : AppState :=
  Build_AppState (primaryImageFile st) (primaryImagePreview st)
    (secondaryImageFile st) (secondaryImagePreview st) (imageType st)
    (customImageType st) (userPrompt st) (generatedResult st) (isLoading st)
    (error st) (elementDetailsResult st) (isElementLoading st)
    (elementError st) (clickPosition st) (isEnhancing st) v (similarItems st)
    (isFindingSimilar st) (findSimilarError st) (compositeResultUrl st)
    (isGeneratingComposite st) (compositeError st).

Definition setSimilarItems (v : option (list Service.SimilarItem)) (st : AppState) : AppState :=
  Build_AppState (primaryImageFile st) (primaryImagePreview st)
    (secondaryImageFile st) (secondaryImagePreview st) (imageType st)
    (customImageType st) (userPrompt st) (generatedResult st) (isLoading st)
    (error st) (elementDetailsResult st) (isElementLoading st)
    (elementError st) (clickPosition st) (isEnhancing st)
    (enhancementError st) v (isFindingSimilar st) (findSimilarError st)
    (compositeResultUrl st) (isGeneratingComposite st) (compositeError st).

Definition setIsFindingSimilar (v : bool) (st : AppState) : AppState :=
  Build_AppState (primaryImageFile st) (primaryImagePreview st)
    (secondaryImageFile st) (secondaryImagePreview st) (imageType st)
    (customImageType st) (userPrompt st) (generatedResult st) (isLoading st)
    (error st) (elementDetailsResult st) (isElementLoading st)
    (elementError st) (clickPosition st) (isEnhancing st)
    (enhancementError st) (similarItems st) v (findSimilarError st)
    (compositeResultUrl st) (isGeneratingComposite st) (compositeError st).

Definition setFindSimilarError (v : option string) (st : AppState) : AppState :=
  Build_AppState (primaryImageFile st) (primaryImagePreview st)
    (secondaryImageFile st) (secondaryImagePreview st) (imageType st)
    (customImageType st) (userPrompt st) (generatedResult st) (isLoading st)
    (error st) (elementDetailsResult st) (isElementLoading st)
    (elementError st) (clickPosition st) (isEnhancing st)
    (enhancementError st) (similarItems st) (isFindingSimilar st) v
    (compositeResultUrl st) (isGeneratingComposite st) (compositeError st).

Definition setCompositeResultUrl (v : option string) (st : AppState) : AppState :=
  Build_AppState (primaryImageFile st) (primaryImagePreview st)
    (secondaryImageFile st) (secondaryImagePreview st) (imageType st)
    (customImageType st) (userPrompt st) (generatedResult st) (isLoading st)
    (error st) (elementDetailsResult st) (isElementLoading st)
    (elementError st) (clickPosition st) (isEnhancing st)
    (enhancementError st) (similarItems st) (isFindingSimilar st)
    (findSimilarError st) v (isGeneratingComposite st) (compositeError st).

Definition setIsGeneratingComposite (v : bool) (st : AppState) : AppState :=
  Build_AppState (primaryImageFile st) (primaryImagePreview st)
    (secondaryImageFile st) (secondaryImagePreview st) (imageType st)
    (customImageType st) (userPrompt st) (generatedResult st) (isLoading st)
    (error st) (elementDetailsResult st) (isElementLoading st)
    (elementError st) (clickPosition st) (isEnhancing st)
    (enhancementError st) (similarItems st) (isFindingSimilar st)
    (findSimilarError st) (compositeResultUrl st) v (compositeError st).

Definition setCompositeError (v : option string) (st : AppState) : AppState :=
  Build_AppState (primaryImageFile st) (primaryImagePreview st)
    (secondaryImageFile st) (secondaryImagePreview st) (imageType st)
    (customImageType st) (userPrompt st) (generatedResult st) (isLoading st)
    (error st) (elementDetailsResult st) (isElementLoading st)
    (elementError st) (clickPosition st) (isEnhancing st)
    (enhancementError st) (similarItems st) (isFindingSimilar st)
    (findSimilarError st) (compositeResultUrl st) (isGeneratingComposite st) v.

(** The state of the first render. *)
Definition initial : AppState :=
  {| primaryImageFile := None; primaryImagePreview := None;
     secondaryImageFile := None; secondaryImagePreview := None;
     imageType := "FASHION/OUTFIT"; customImageType := EmptyString;
     userPrompt := EmptyString;
     generatedResult := None; isLoading := false; error := None;
     elementDetailsResult := None; isElementLoading := false;
     elementError := None; clickPosition := None;
     isEnhancing := false; enhancementError := None;
     similarItems := None; isFindingSimilar := false; findSimilarError := None;
     compositeResultUrl := None; isGeneratingComposite := false;
     compositeError := None |}.

(** Setters called one after the other. *)
Definition run (setters : list (AppState -> AppState)) (st : AppState) : AppState :=
  fold_left (fun s f => f s) setters st.

(** *** What a handler does

    A handler is the script of its effects: runs of setters, and the calls
    whose result comes from outside the page, each with the rest of the
    handler as a function of that result.  A handler reads the cells of the
    render it was created in, so it is a function of that state. *)

(** The calls on the 2D context of the off-screen canvas. *)
Inductive CanvasOp : Type :=
| SetSize (width height : float)
| DrawImage (dx dy : float)
| BeginPath
| Arc (x y radius startAngle endAngle : float) (counterclockwise : bool)
| FillStyle (colour : string)
| Fill
| LineWidth (w : float)
| StrokeStyle (colour : string)
| Stroke.

Inductive Task : Type :=
| Done
| Update (f : AppState -> AppState) (next : Task)
| CreateObjectURL (file : File) (next : string -> Task)
| FileToBase64 (file : File) (next : JS.outcome string -> Task)
| GenerateContent (req : Service.Request)
    (next : JS.outcome Service.GenerateContentResponse -> Task)
| GetContext2D (next : bool -> Task)
| LoadImage (src : string) (next : option (float * float) -> Task)
| Draw (ops : list CanvasOp) (next : Task)
| ToDataURL (mime : string) (next : string -> Task).

(** What lies outside the page: the file reader, the model behind the
    service, and the canvas ([context2d] is false when [getContext] returns
    null; [loadImage] gives the natural size of the image, or nothing when
    [onerror] fires; [encode] is the base64 payload of [toDataURL]). *)
Record Env : Type :=
  { readFile : File -> JS.outcome string;
    generateContent : Service.Request -> JS.outcome Service.GenerateContentResponse;
    context2d : bool;
    loadImage : string -> option (float * float);
    encode : string -> string }.

(** The page and the object URLs the browser has handed out, newest first. *)
Record World : Type := { app : AppState; objectURLs : list (string * File) }.

(** [URL.createObjectURL] returns a URL that is new at every call; here it
    is numbered by the URLs handed out before. *)
Definition freshUrl (w : World) : string :=
  "blob:" ++ NilEmpty.string_of_uint (Nat.to_uint (List.length (objectURLs w))).

(** The file an object URL refers to. *)
Fixpoint resolve (urls : list (string * File)) (url : string) : option File :=
  match urls with
  | [] => None
  | (u, f) :: rest => if String.eqb u url then Some f else resolve rest url
  end.

(** What can be observed of a handler from outside: a request to the model,
    with the state the page shows when it is sent, and the drawing on the
    off-screen canvas. *)
Inductive Event : Type :=
| Sent (req : Service.Request) (shown : AppState)
| Drawn (ops : list CanvasOp).

Fixpoint exec (env : Env) (t : Task) (w : World) : World * list Event :=
  match t with
  | Done => (w, [])
  | Update f next => exec env next {| app := f (app w); objectURLs := objectURLs w |}
  | CreateObjectURL file next =>
      let url := freshUrl w in
      exec env (next url) {| app := app w; objectURLs := (url, file) :: objectURLs w |}
  | FileToBase64 file next => exec env (next (readFile env file)) w
  | GenerateContent req next =>
      let (w', trace) := exec env (next (generateContent env req)) w in
      (w', Sent req (app w) :: trace)
  | GetContext2D next => exec env (next (context2d env)) w
  | LoadImage src next => exec env (next (loadImage env src)) w
  | Draw ops next =>
      let (w', trace) := exec env next w in (w', Drawn ops :: trace)
  | ToDataURL mime next => exec env (next (encode env mime)) w
  end.

(** A handler of the render that shows [app w], run to its end. *)
Definition fire (env : Env) (handler : AppState -> Task) (w : World) : World * list Event :=
  exec env (handler (app w)) w.

(** *** The handlers *)

(** The fixed instructions of a mood-board request, a template literal of 184 lines. *)
Definition DEFAULT_MOODBOARD_PROMPT : string :=
  String.concat JS.nl [
   "You are an expert visual analyst and mood board designer who creates clean, informative, and beautifully organized collages that break down any image into its component parts with shopping information and style insights.";
   EmptyString;
   "YOUR EXACT MISSION: Create a mood board that looks EXACTLY like a high-end fashion magazine's shopping page or a professional interior designer's client presentation board - clean, organized, shoppable, and annotated with personality.";
   EmptyString;
   "══════════════════════════════════════════════════════════════════════";
   "UNIVERSAL ANALYSIS FRAMEWORK - WORKS FOR ANY IMAGE TYPE";
   "══════════════════════════════════════════════════════════════════════";
   EmptyString;
   "STEP 1: IDENTIFY WHAT YOU'RE LOOKING AT";
   "Look at the image and categorize it:";
   "- FASHION/OUTFIT → Extract garments, accessories, shoes";
   "- INTERIOR/ROOM → Extract furniture, decor, materials  ";
   "- PRODUCT → Extract components, packaging, details";
   "- LANDSCAPE/SCENE → Extract elements, colors, mood components";
   "- FOOD → Extract ingredients, plating, styling elements";
   "- ARTWORK → Extract techniques, colors, compositional elements";
   EmptyString;
   "STEP 2: EXTRACT REAL ELEMENTS (CRITICAL - NO INVENTING!)";
   "Create an inventory of ONLY things actually visible:";
   "- Main subject (centered, largest)";
   "- Individual components (8-12 items maximum)";
   "- Colors and textures";
   "- Patterns and details";
   "- Any text or branding visible";
   EmptyString;
   "STEP 3: CREATE THE MOOD BOARD COLLAGE";
   EmptyString;
   "EXACT VISUAL STYLE TO FOLLOW:";
   EmptyString;
   "BACKGROUND:";
   "- Soft, neutral background (#F5F5F0 to #FAFAF8)";
   "- Subtle paper texture (like craft paper or canvas)";
   "- Light beige/cream tones";
   EmptyString;
   "LAYOUT STRUCTURE:";
   "- CENTER: A clean, precise CUTOUT of the main subject (e.g., the person and their outfit, the piece of furniture). This cutout should be the focal point and occupy 40% of the canvas.";
   "  - The cutout MUST have clean edges, removing the original background entirely.";
   "  - Place this cutout on the mood board with a subtle drop shadow to make it pop.";
   "  ";
   "- SURROUNDING ELEMENTS: Individual items arranged around center";
   "  - Each item in its own " ++ JS.dq ++ "frame" ++ JS.dq ++ ":";
   "    * White polaroid-style borders OR";
   "    * Taped corners with washi tape effect OR  ";
   "    * Clean cutouts with soft shadows";
   "  - Vary sizes (some bigger, some smaller)";
   "  - Slight rotation (5-15 degrees) for organic feel";
   "  - Overlapping is okay but maintain clarity";
   EmptyString;
   "ANNOTATION STYLE:";
   "- Hand-drawn arrows (curved, playful) pointing to elements";
   "- Handwritten-style labels in black or dark gray";
   "- Mix of fonts:";
   "  - Clean sans-serif for product names/brands";
   "  - Casual handwriting for descriptions";
   "  - Small typed font for sources/prices";
   EmptyString;
   "REQUIRED ANNOTATIONS FOR EACH ELEMENT:";
   "- Item name/type";
   "- Brand (if identifiable) or style descriptor";
   "- Source: Where to buy (store name or " ++ JS.dq ++ "Similar at: [store]" ++ JS.dq ++ ")";
   "- One distinctive feature (material, color, special detail)";
   "- Price range indicator ($, $$, $$$) if applicable";
   EmptyString;
   "DECORATIVE ELEMENTS (SPARINGLY):";
   "- Small doodles: stars (☆), hearts (♡), arrows (→)";
   "- Washi tape strips on corners";
   "- Subtle geometric shapes (circles, triangles) as accents";
   "- Tiny sketches showing construction/detail";
   "- Color swatches as small squares/circles";
   EmptyString;
   "STEP 4: INFORMATION OVERLAY";
   EmptyString;
   "Add these information zones to your collage:";
   EmptyString;
   "COLOR PALETTE BAR:";
   "- 5 circular color swatches extracted from image";
   "- Hex codes below each";
   "- Small label: " ++ JS.dq ++ "Color Story" ++ JS.dq ++ " or " ++ JS.dq ++ "Palette" ++ JS.dq;
   EmptyString;
   "KEY DETAILS BOX (semi-transparent white):";
   "For FASHION:";
   "- Occasion: Work/Casual/Formal/Weekend";
   "- Season: Spring/Summer/Fall/Winter/Trans-seasonal  ";
   "- Style: Minimalist/Romantic/Edgy/Classic/Trendy";
   "- Price Range: Budget-friendly/Mid-range/Investment";
   EmptyString;
   "For INTERIORS:";
   "- Style: Scandinavian/Industrial/Bohemian/Modern/Traditional";
   "- Room Type: Living/Bedroom/Kitchen/Office";
   "- Mood: Cozy/Minimal/Luxe/Eclectic/Fresh";
   "- Budget Level: DIY/Affordable/Mid-range/High-end";
   EmptyString;
   "For PRODUCTS:";
   "- Category: Tech/Beauty/Home/Fashion/Food";
   "- Target User: Professional/Student/Parent/Enthusiast";
   "- Quality Tier: Entry/Standard/Premium/Luxury";
   "- Key Feature: What makes it special";
   EmptyString;
   "SHOPPING LIST CORNER:";
   "- Bullet points of items with sources";
   "- Quick " ++ JS.dq ++ "Get the Look" ++ JS.dq ++ " or " ++ JS.dq ++ "Shop This Style" ++ JS.dq ++ " header";
   "- Website names or store locations";
   EmptyString;
   "STYLE NOTES (handwritten appearance):";
   "- 2-3 observations about the overall aesthetic";
   "- Tips for recreating or styling";
   "- Trend connections or timeless elements";
   EmptyString;
   "SPECIFIC RULES BY IMAGE TYPE:";
   EmptyString;
   "FOR FASHION/OUTFITS:";
   "- Show garments as flat lays or on invisible mannequin";
   "- Include texture close-ups for fabrics";
   "- Add sizing/fit notes (oversized, fitted, true to size)";
   "- Specify occasions suitable for outfit";
   EmptyString;
   "FOR INTERIORS:";
   "- Include material swatches";
   "- Show furniture from best angle";
   "- Add dimensions estimates (small/medium/large space)";
   "- Note lighting considerations";
   EmptyString;
   "FOR PRODUCTS:";
   "- Show multiple angles if relevant";
   "- Include packaging if visible";
   "- Add use-case scenarios";
   "- Compare to similar products";
   EmptyString;
   "FOR LANDSCAPE/SCENES:";
   "- Extract mood elements (lighting, atmosphere)";
   "- Identify location markers or style and if a specific real-world location is identifiable, provide its name, approximate GPS coordinates (latitude, longitude), and a clickable Google Maps link in the format https://www.google.com/maps?q=LAT,LONG.";
   "- Create color story from environment";
   "- Note time of day/season if relevant";
   EmptyString;
   "FOR FOOD:";
   "- Identify ingredients";
   "- Note plating techniques";
   "- Include serving suggestions";
   "- Specify cuisine style";
   EmptyString;
   "QUALITY REQUIREMENTS:";
   EmptyString;
   "MUST HAVE:";
   "✓ Clean, organized layout (not chaotic)";
   "✓ Every element labeled with source/brand";
   "✓ Consistent soft color scheme";
   "✓ Professional but approachable aesthetic";
   "✓ All items actually from the source image";
   "✓ Shopping/sourcing information";
   "✓ Color palette with hex codes";
   "✓ Playful but minimal decorative elements";
   EmptyString;
   "MUST AVOID:";
   "✗ Overwhelming effects or filters";
   "✗ Too many decorative elements";
   "✗ Invented items not in image";
   "✗ Messy, cluttered composition";
   "✗ Generic descriptions";
   "✗ Missing source information";
   "✗ Harsh colors or contrasts";
   "✗ Unprofessional appearance";
   EmptyString;
   "OUTPUT COMPOSITION CHECKLIST:";
   "□ Main subject clearly featured in center";
   "□ 6-10 individual elements arranged around it";
   "□ Each element has brand/source label";
   "□ Color palette included (5 colors)";
   "□ Handwritten-style annotations present";
   "□ Clean, magazine-quality presentation";
   "□ Soft, neutral background";
   "□ Shopping sources identified";
   "□ Style/mood descriptors included";
   "□ Overall look is Pinterest-worthy";
   EmptyString;
   "FINAL TONE: ";
   "Create something that looks like it came from:";
   "- A high-end fashion magazine's shopping pages";
   "- A professional interior designer's mood board";
   "- A product stylist's presentation deck";
   "- A creative director's inspiration board";
   EmptyString;
   "The result should be IMMEDIATELY useful for shopping, styling, or recreating the look. Someone should be able to take your mood board and actually go buy the items or recreate the style. Make it clean enough for a client presentation but fun enough for social media sharing.";
   EmptyString;
   "Remember: This is about INFORMATION + AESTHETICS. Every element should be both beautiful AND useful. Think " ++ JS.dq ++ "shoppable inspiration" ++ JS.dq ++ " meets " ++ JS.dq ++ "editorial design." ++ JS.dq ].

Definition resetAllOutputs : AppState -> AppState :=
  run [ setGeneratedResult None;
        setElementDetailsResult None;
        setClickPosition None;
        setError None;
        setElementError None;
        setEnhancementError None;
        setSimilarItems None;
        setFindSimilarError None;
        setCompositeResultUrl None;
        setCompositeError None ].

Definition handlePrimaryImageUpload (file : File) (_ : AppState) : Task :=
  Update (setPrimaryImageFile (Some file))
    (CreateObjectURL file (fun url =>
       Update (run [ setPrimaryImagePreview (Some url);
                     setSecondaryImageFile None;
                     setSecondaryImagePreview None ])
         (Update resetAllOutputs Done))).

Definition handleSecondaryImageUpload (file : File) (_ : AppState) : Task :=
  Update (setSecondaryImageFile (Some file))
    (CreateObjectURL file (fun url =>
       Update (setSecondaryImagePreview (Some url)) Done)).

(** [err instanceof Error ? err.message : fallback] *)
Definition messageOf (e : JS.thrown) (fallback : string) : string :=
  match e with
  | JS.ErrorObject message => message
  | JS.OtherValue => fallback
  end.

(** The header that names the category, before the fixed instructions. *)
Definition categoryHeader (finalImageType : string) : string :=
  "ATTENTION: The uploaded image is categorized as " ++ finalImageType ++
  ". Prioritize the specific rules for this category in your analysis." ++
  JS.nl ++ JS.nl.

Definition finalImageType (st : AppState) : string :=
  if String.eqb (imageType st) "OTHER" && JS.truthy (customImageType st)
  then customImageType st else imageType st.

Definition finalPrompt (st : AppState) : string :=
  let base := categoryHeader (finalImageType st) ++ DEFAULT_MOODBOARD_PROMPT in
  if JS.truthy (JS.trim (userPrompt st))
  then base ++ JS.nl ++ JS.nl ++ "ADDITIONAL USER INSTRUCTIONS: " ++ JS.trim (userPrompt st)
  else base.

Definition handleGenerateMoodboard (st : AppState) : Task :=
  match primaryImageFile st with
  | None => Update (setError (Some "Please upload the primary image first.")) Done
  | Some file =>
      let failed (e : JS.thrown) :=
        Update (setError (Some (messageOf e "Moodboard generation failed.")))
          (Update (setIsLoading false) Done) in
      Update (run [ setIsLoading true;
                    setGeneratedResult None;
                    setElementDetailsResult None;
                    setClickPosition None;
                    setError None;
                    setElementError None;
                    setEnhancementError None;
                    setSimilarItems None;
                    setFindSimilarError None ])
        (FileToBase64 file (fun read =>
           match read with
           | JS.Threw e => failed e
           | JS.Returned base64Data =>
               let call := Service.generateMoodboard base64Data (fileType file)
                             (finalPrompt st) in
               GenerateContent (Service.request call) (fun reply =>
                 match Service.settle call reply with
                 | JS.Returned result =>
                     Update (setGeneratedResult (Some result))
                       (Update (setIsLoading false) Done)
                 | JS.Threw e => failed e
                 end)
           end))
  end.

(** *** [handleImageClick] *)

(** From the displayed image to the original one: the offset of the click
    times the ratio of the natural size to the displayed size, for any
    numbers with a product and a quotient. *)
Section Coordinates.

Variable num : Type.
Variables (mul div : num -> num -> num).

Definition originalCoordinate (offset natural displayed : num) : num :=
  let scale := div natural displayed in
  mul offset scale.

End Coordinates.

(** [Math.max(a, b)] on doubles: NaN when either is, and [+0] above [-0]. *)
Definition Math_max (a b : float) : float :=
  if PrimFloat.is_nan a || PrimFloat.is_nan b then PrimFloat.nan
  else if PrimFloat.ltb a b then b
  else if PrimFloat.ltb b a then a
  else if PrimFloat.get_sign a then b else a.

(** [2 * Math.PI] *)
Definition TWO_PI : float := PrimFloat.mul 2%float 3.141592653589793%float.

(** What the handler reads of the click: the position of the pointer, and
    of [event.currentTarget] the bounding rectangle and the sizes. *)
Record Click : Type :=
  { clientX : float; clientY : float;
    rectLeft : float; rectTop : float;
    naturalWidth : float; naturalHeight : float;
    width : float; height : float }.

Definition MARKER_MIME : string := "image/jpeg".

(** The drawing of [img.onload]: the image, then the red disc with its
    white outline at the original coordinate of the click. *)
Definition markerDrawing (imgWidth imgHeight originalX originalY : float)
  : list CanvasOp :=
  let radius := Math_max 5%float (PrimFloat.mul imgWidth 0.01%float) in
  [ SetSize imgWidth imgHeight;
    DrawImage 0%float 0%float;
    BeginPath;
    Arc originalX originalY radius 0%float TWO_PI false;
    FillStyle "red";
    Fill;
    LineWidth (Math_max 2%float (PrimFloat.mul radius 0.2%float));
    StrokeStyle "white";
    Stroke ].

Definition handleImageClick (event : Click) (st : AppState) : Task :=
  match generatedResult st with
  | None => Done
  | Some shown =>
      match Service.imageUrl shown with
      | None => Done
      | Some url =>
          if negb (JS.truthy url) then Done
          else
            let x := PrimFloat.sub (clientX event) (rectLeft event) in
            let y := PrimFloat.sub (clientY event) (rectTop event) in
            let originalX :=
              originalCoordinate float PrimFloat.mul PrimFloat.div
                x (naturalWidth event) (width event) in
            let originalY :=
              originalCoordinate float PrimFloat.mul PrimFloat.div
                y (naturalHeight event) (height event) in
            Update (run [ setClickPosition (Some (x, y));
                          setIsElementLoading true;
                          setElementDetailsResult None;
                          setElementError None;
                          setSimilarItems None;
                          setFindSimilarError None ])
              (GetContext2D (fun ctx =>
                 if negb ctx then
                   Update (run [ setElementError (Some "Could not process image click.");
                                 setIsElementLoading false ]) Done
                 else
                   LoadImage url (fun loaded =>
                     match loaded with
                     | None =>
                         Update (run [ setElementError
                                         (Some "Could not load image to process click.");
                                       setIsElementLoading false;
                                       setClickPosition None ]) Done
                     | Some (imgWidth, imgHeight) =>
                         Draw (markerDrawing imgWidth imgHeight originalX originalY)
                           (ToDataURL MARKER_MIME (fun base64DataWithMarker =>
                              let call := Service.getElementDetails
                                            base64DataWithMarker MARKER_MIME in
                              GenerateContent (Service.request call) (fun reply =>
                                match Service.settle call reply with
                                | JS.Returned result =>
                                    Update (setElementDetailsResult (Some result))
                                      (Update (setIsElementLoading false) Done)
                                | JS.Threw e =>
                                    Update (setElementError
                                              (Some (messageOf e "Failed to get details.")))
                                      (Update (setIsElementLoading false) Done)
                                end)))
                     end)))
      end
  end.

(** Where the marker is drawn: the centre of the first arc of a trace. *)
Fixpoint arcOf (ops : list CanvasOp) : option (float * float) :=
  match ops with
  | [] => None
  | Arc x y _ _ _ _ :: _ => Some (x, y)
  | _ :: rest => arcOf rest
  end.

Fixpoint markerOf (trace : list Event) : option (float * float) :=
  match trace with
  | [] => None
  | Drawn ops :: rest =>
      match arcOf ops with
      | Some p => Some p
      | None => markerOf rest
      end
  | Sent _ _ :: rest => markerOf rest
  end.

(** The exact value of a finite double, as a rational. *)
Definition exactly (f : float) : option Q :=
  match Prim2SF f with
  | S754_zero _ => Some 0%Q
  | S754_finite s m e =>
      let v := (inject_Z (Z.pos m) * Qpower 2 e)%Q in
      Some (if s then Qopp v else v)
  | S754_infinity _ | S754_nan => None
  end.

End App.


(* ===================================================================== *)
(** ** The vocabulary of the properties, and sample data *)
(* ===================================================================== *)

Import App.

(** Every cell that [resetAllOutputs] clears is empty. *)
Definition outputsCleared (st : AppState) : Prop :=
  generatedResult st = None /\ elementDetailsResult st = None /\
  clickPosition st = None /\ similarItems st = None /\
  compositeResultUrl st = None /\
  error st = None /\ elementError st = None /\ enhancementError st = None /\
  findSimilarError st = None /\ compositeError st = None.

(** The cells that the start of a mood-board generation clears. *)
Definition moodboardOutputsCleared (st : AppState) : Prop :=
  generatedResult st = None /\ elementDetailsResult st = None /\
  clickPosition st = None /\ similarItems st = None /\
  error st = None /\ elementError st = None /\ enhancementError st = None /\
  findSimilarError st = None.

(** The state the page shows once the synchronous part of
    [handleGenerateMoodboard] has run. *)
Definition generating (st : AppState) : AppState :=
  run [ setIsLoading true; setGeneratedResult None; setElementDetailsResult None;
        setClickPosition None; setError None; setElementError None;
        setEnhancementError None; setSimilarItems None; setFindSimilarError None ] st.

(** The request of a mood-board generation. *)
Definition moodboardRequest (base64 mime prompt : string) : Service.Request :=
  {| Service.model := Service.IMAGE_MODEL;
     Service.contents :=
       Service.OfParts [Service.imagePart base64 mime; Service.textPart prompt];
     Service.config := Service.responseModalities [Service.IMAGE; Service.TEXT] |}.

(** Three uploads. *)
Definition outfitFile : File :=
  {| fileName := "look.jpg"; fileType := "image/jpeg"; fileContent := "..." |}.

Definition portraitFile : File :=
  {| fileName := "me.jpg"; fileType := "image/jpeg"; fileContent := "..." |}.

Definition dishFile : File :=
  {| fileName := "dish.jpg"; fileType := "image/jpeg"; fileContent := "..." |}.

(** A page in the mode of the first render, Fashion/Outfit, after both
    uploads and a virtual try-on: the composite is shown. *)
Definition pageWithComposite : World :=
  {| app := setCompositeResultUrl (Some "data:image/png;base64,AAAA")
              (setSecondaryImageFile (Some portraitFile)
                 (setPrimaryImageFile (Some outfitFile) initial));
     objectURLs := [] |}.

(** A page in the mode Food, with a dish uploaded and blank instructions. *)
Definition foodPage : World :=
  {| app := setImageType "FOOD"
              (setUserPrompt "   " (setPrimaryImageFile (Some dishFile) initial));
     objectURLs := [] |}.

(** A reply with one image part and one text part. *)
Definition imageReply : Service.GenerateContentResponse :=
  {| Service.promptFeedback := None;
     Service.candidates :=
       Some [ {| Service.content :=
                   Some {| Service.parts :=
                        Some [ Service.imagePart "QUJD" "image/png";
                               Service.textPart "A warm, rustic board." ] |};
                 Service.groundingMetadata := None |} ] |}.

Definition quietEnv : Env :=
  {| readFile := fun _ => JS.Returned "QUJD";
     generateContent := fun _ => JS.Returned imageReply;
     context2d := true;
     loadImage := fun _ => Some (1024%float, 1024%float);
     encode := fun _ => "QUJD" |}.


(** A page that shows a generated mood board. *)
Definition boardUrl : string := "data:image/png;base64,QUJD".

Definition boardResult : Service.GeneratedResult :=
  {| Service.imageUrl := Some boardUrl;
     Service.resultText := Some "A warm, rustic board.";
     Service.colors := [] |}.

Definition pageWithBoard : World :=
  {| app := setGeneratedResult (Some boardResult) (app foodPage);
     objectURLs := [] |}.

(** A click 49 pixels right of and below the corner of an image of natural
    size 1024 by 1024 that is displayed at 196 by 196. *)
Definition sampleClick : Click :=
  {| clientX := 149%float; clientY := 109%float;
     rectLeft := 100%float; rectTop := 60%float;
     naturalWidth := 1024%float; naturalHeight := 1024%float;
     width := 196%float; height := 196%float |}.

(** The offset of a click in the displayed image. *)
Definition offsetX (event : Click) : float := PrimFloat.sub (clientX event) (rectLeft event).
Definition offsetY (event : Click) : float := PrimFloat.sub (clientY event) (rectTop event).

(** The coordinate [(x*W/w, y*H/h)] of the specification, in doubles. *)
Definition ratioCoordinate (event : Click) : float * float :=
  (PrimFloat.div (PrimFloat.mul (offsetX event) (naturalWidth event)) (width event),
   PrimFloat.div (PrimFloat.mul (offsetY event) (naturalHeight event)) (height event)).

(** The coordinate the code computes: the offset times the rounded ratio. *)
Definition scaledCoordinate (event : Click) : float * float :=
  (PrimFloat.mul (offsetX event) (PrimFloat.div (naturalWidth event) (width event)),
   PrimFloat.mul (offsetY event) (PrimFloat.div (naturalHeight event) (height event))).

(** *** Parts and fenced text *)

(** A part as the loops of the service read it: a text part has a truthy
    [text]; an image part is any other part with [inlineData].  For a part
    with one of the two fields set, as [Service.textPart] and
    [Service.imagePart] build them, these say which one is set. *)
Definition isTextPart (p : Service.Part) : bool := JS.truthy_opt (Service.text p).

Definition isImagePart (p : Service.Part) : bool :=
  negb (isTextPart p) &&
  match Service.inlineData p with Some _ => true | None => false end.

(** The text of the last text part, and the data URL of the last image part. *)
Fixpoint lastText (ps : list Service.Part) : option string :=
  match ps with
  | [] => None
  | p :: rest =>
      match lastText rest with
      | Some t => Some t
      | None => if isTextPart p then Service.text p else None
      end
  end.

Fixpoint lastImage (ps : list Service.Part) : option string :=
  match ps with
  | [] => None
  | p :: rest =>
      match lastImage rest with
      | Some u => Some u
      | None =>
          if isImagePart p then option_map Service.dataUrl (Service.inlineData p)
          else None
      end
  end.

(** A text that is white space only. *)
Fixpoint blank (s : string) : bool :=
  match s with
  | EmptyString => true
  | String c r => JS.isWhiteSpace c && blank r
  end.

(** A text in a fenced code block of Markdown: the opening fence with its
    language tag, the text on lines of its own, the closing fence. *)
Definition fenced (lang s : string) : string :=
  Service.fence ++ lang ++ JS.nl ++ s ++ JS.nl ++ Service.fence.

(** The serialization of an object whose one string holds three backquotes:
    an opening brace, the key [name] in quotes, a colon, the string [a``` b]
    in quotes, a closing brace. *)
Definition backquotedDetails : string :=
  "{" ++ JS.dq ++ "name" ++ JS.dq ++ ":" ++ JS.dq ++ "a``` b" ++ JS.dq ++ "}".

(** The serialization of a plain object. *)
Definition chairDetails : string :=
  "{" ++ JS.dq ++ "elementType" ++ JS.dq ++ ":" ++ JS.dq ++ "product" ++ JS.dq ++ "," ++
  JS.dq ++ "name" ++ JS.dq ++ ":" ++ JS.dq ++ "Eames chair" ++ JS.dq ++ "}".

(** *** Sample replies of the model *)

Definition replyOf (ps : list Service.Part) : Service.GenerateContentResponse :=
  {| Service.promptFeedback := None;
     Service.candidates :=
       Some [ {| Service.content := Some {| Service.parts := Some ps |};
                 Service.groundingMetadata := None |} ] |}.

(** An image and no text. *)
Definition imageOnlyParts : list Service.Part := [ Service.imagePart "QUJD" "image/png" ].

(** A refusal in words, and no image. *)
Definition refusalParts : list Service.Part :=
  [ Service.textPart "I cannot combine these two images." ].

(** An image, and a text that is no JSON. *)
Definition proseParts : list Service.Part :=
  [ Service.imagePart "QUJD" "image/png";
    Service.textPart "Here is the chair you asked about." ].

(** A reply of the grounded search: a chunk with a title, a chunk without
    one, a chunk without a URI and a chunk without a web source. *)
Definition groundedReply : Service.GenerateContentResponse :=
  {| Service.promptFeedback := None;
     Service.candidates :=
       Some [ {| Service.content := Some {| Service.parts := Some [] |};
                 Service.groundingMetadata :=
                   Some {| Service.groundingChunks :=
                     Some [ {| Service.web :=
                                 Some {| Service.title := Some "Eames Lounge Chair";
                                         Service.uri := Some "https://shop.example/eames" |} |};
                            {| Service.web :=
                                 Some {| Service.title := None;
                                         Service.uri := Some "https://shop.example/chair" |} |};
                            {| Service.web :=
                                 Some {| Service.title := Some "No link";
                                         Service.uri := None |} |};
                            {| Service.web := None |} ] |} |} ] |}.

Definition towerDetails : Service.ElementDetails :=
  {| Service.elementType := "architectural_feature";
     Service.elementName := "Eiffel Tower" |}.

(** What the items returned for a reply owe to its grounding chunks: every
    item has a URI that is not empty and is the URI of a chunk; and every
    chunk with a URI that is not empty is kept, under its title, or under
    [Untitled] when it has none. *)
Definition itemsFollowChunks
  (response : Service.GenerateContentResponse) (items : list Service.SimilarItem) : Prop :=
  (forall item, In item items ->
     Service.itemUri item <> EmptyString /\
     exists cs chunk w,
       Service.chunksOf response = Some cs /\ In chunk cs /\
       Service.web chunk = Some w /\ Service.uri w = Some (Service.itemUri item)) /\
  (forall cs chunk w u,
     Service.chunksOf response = Some cs -> In chunk cs ->
     Service.web chunk = Some w -> Service.uri w = Some u -> u <> EmptyString ->
     (Service.title w = None ->
        In {| Service.itemTitle := "Untitled"; Service.itemUri := u |} items) /\
     (forall tl, Service.title w = Some tl -> tl <> EmptyString ->
        In {| Service.itemTitle := tl; Service.itemUri := u |} items)).


(* ===================================================================== *)
(** ** More built-ins: [split] and the decimal form of a number *)
(* ===================================================================== *)

Module Text.

(** [s.split(sep)] for a separator of one character: the pieces between
    the separators, one piece more than there are separators. *)
Fixpoint split (sep : ascii) (s : string) : list string :=
  match s with
  | EmptyString => [EmptyString]
  | String c r =>
      if Ascii.eqb c sep then EmptyString :: split sep r
      else match split sep r with
           | piece :: pieces => String c piece :: pieces
           | [] => [String c EmptyString]
           end
  end.

(** [pieces[0]] of a split, which always exists. *)
Definition first (pieces : list string) : string :=
  match pieces with
  | piece :: _ => piece
  | [] => EmptyString
  end.

(** [pieces[1]], undefined when there is no separator. *)
Definition second (pieces : list string) : option string := nth_error pieces 1.

(** A non-negative integer in a template literal: its decimal digits. *)
Definition decimal (n : N) : string := NilEmpty.string_of_uint (N.to_uint n).

(** [url.split(';')[0].split('/')[1] || 'png']: the extension of a
    download, read off the media type of a data URL. *)
Definition fileType (url : string) : string :=
  JS.or_else (second (split "/" (first (split ";" url)))) "png".

End Text.


(* ===================================================================== *)
(** ** The other handlers of [App.tsx] *)
(* ===================================================================== *)

Module Page.

(** [imageTypes]: the label and the value of each button of the selector. *)
Definition imageTypes : list (string * string) :=
  [ ("Fashion/Outfit", "FASHION/OUTFIT");
    ("Product", "PRODUCT");
    ("Interior/Room", "INTERIOR/ROOM");
    ("Landscape/Scene", "LANDSCAPE/SCENE");
    ("Food", "FOOD");
    ("Artwork", "ARTWORK");
    ("Other", "OTHER") ].

Inductive UploaderConfigItem : Type :=
| WithSecondary (primaryLabel secondaryLabel : string)
| WithoutSecondary (primaryLabel : string).

Definition showSecondary (item : UploaderConfigItem) : bool :=
  match item with
  | WithSecondary _ _ => true
  | WithoutSecondary _ => false
  end.

(** [uploaderConfig], the table of the upload slots by image type. *)
Definition uploaderConfig : list (string * UploaderConfigItem) :=
  [ ("FASHION/OUTFIT", WithSecondary "1. Upload Look Image" "2. Upload Your Photo");
    ("PRODUCT", WithSecondary "1. Upload Product Image" "2. Upload Background Image");
    ("INTERIOR/ROOM", WithoutSecondary "1. Upload Image");
    ("LANDSCAPE/SCENE", WithoutSecondary "1. Upload Image");
    ("FOOD", WithoutSecondary "1. Upload Image");
    ("ARTWORK", WithoutSecondary "1. Upload Image");
    ("OTHER", WithoutSecondary "1. Upload Image") ].

(** The entry of the table under a key, if the table has that key. *)
Fixpoint configOf (table : list (string * UploaderConfigItem)) (key : string)
  : option UploaderConfigItem :=
  match table with
  | [] => None
  | (k, item) :: rest => if String.eqb k key then Some item else configOf rest key
  end.

(** The names that the object literal inherits from [Object.prototype]:
    under them [uploaderConfig[key]] is a function or an object, not
    undefined. *)
Definition inheritedNames : list string :=
  [ "constructor"; "hasOwnProperty"; "isPrototypeOf"; "propertyIsEnumerable";
    "toLocaleString"; "toString"; "valueOf"; "__proto__";
    "__defineGetter__"; "__defineSetter__"; "__lookupGetter__"; "__lookupSetter__" ].

Definition inherited (key : string) : bool := existsb (String.eqb key) inheritedNames.

(** The truth value of [uploaderConfig[key].showSecondary]: that of the
    entry for a key of the table; false for an inherited name, whose value
    has no such property; and [None] for any other key, for which
    [uploaderConfig[key]] is undefined and reading the property throws a
    [TypeError]. *)
Definition showSecondaryAt (key : string) : option bool :=
  match configOf uploaderConfig key with
  | Some item => Some (showSecondary item)
  | None => if inherited key then Some false else None
  end.

(** [handleImageTypeChange].  Reading [showSecondary] of an undefined entry
    throws before any setter runs: the handler is then [None].  The entry of
    the new type is read only when the current one shows a second slot. *)
Definition handleImageTypeChange (newType : string) (st : AppState) : option Task :=
  match showSecondaryAt (imageType st) with
  | None => None
  | Some currentShowsSecondary =>
      if currentShowsSecondary then
        match showSecondaryAt newType with
        | None => None
        | Some newShowsSecondary =>
            if negb newShowsSecondary then
              Some (Update (run [ setSecondaryImageFile None;
                                  setSecondaryImagePreview None ])
                      (Update (setImageType newType) Done))
            else Some (Update (setImageType newType) Done)
        end
      else Some (Update (setImageType newType) Done)
  end.

(** The instructions of a virtual try-on, the template literal of the branch [FASHION/OUTFIT]. *)
Definition FASHION_PROMPT : string :=
  String.concat JS.nl [
   "You will receive exactly TWO images:";
   "IMAGE 1 = STYLE REFERENCE (the outfit to copy onto the user)";
   "IMAGE 2 = USER IMAGE (the person whose face and body must be preserved)";
   EmptyString;
   "CORE INSTRUCTIONS";
   "STEP 1: EXTRACT FROM STYLE REFERENCE (IMAGE 1)";
   "COPY THESE ELEMENTS ONLY:";
   EmptyString;
   "All clothing items (shirts, pants, jackets, dresses, etc.)";
   "Accessories (watches, jewelry, bags, hats, sunglasses, belts)";
   "Footwear (shoes, boots, sneakers)";
   "Colors, patterns, textures, and styling details";
   EmptyString;
   "IGNORE COMPLETELY:";
   EmptyString;
   "The reference person's face";
   "The reference person's body shape";
   "The reference person's pose";
   "The reference background";
   EmptyString;
   EmptyString;
   "STEP 2: PRESERVE FROM USER IMAGE (IMAGE 2)";
   "KEEP EXACTLY AS IS - DO NOT MODIFY:";
   EmptyString;
   "Face (all facial features, skin tone, expression, beard, facial hair)";
   "Body structure (height, build, body proportions)";
   "Natural hair (color, style, length)";
   "All identifying characteristics";
   EmptyString;
   "CRITICAL: The person in the final image MUST be immediately recognizable as the same person from IMAGE 2. Their face is the anchor—never alter it.";
   EmptyString;
   "STEP 3: CREATE NEW ELEMENTS";
   "POSE:";
   "Generate a natural model pose that complements the outfit style. DO NOT copy the pose from either input image. Choose a stance that showcases the clothing effectively (examples: hands in pockets for casual, confident standing for formal, relaxed posture for streetwear).";
   "BACKGROUND:";
   "City street scene with these EXACT specifications:";
   EmptyString;
   "Time: Overcast daytime (NOT evening, NOT golden hour)";
   "Lighting: Natural diffused light, neutral white balance (5500K-6500K color temperature)";
   "Composition: Clean urban street, modern architecture blurred in background";
   "Depth: Shallow depth of field—sharp focus on person, background softly blurred";
   "Population: Empty or minimal (no crowds, no visible faces of other people)";
   "Atmosphere: Professional fashion photography aesthetic";
   EmptyString;
   EmptyString;
   "EXECUTION PRIORITY";
   "Priority 1: USER'S FACE from Image 2 → Must be 100% preserved";
   "Priority 2: USER'S BODY STRUCTURE from Image 2 → Must maintain proportions";
   "Priority 3: CLOTHING from Image 1 → Transfer accurately onto user's body";
   "Priority 4: BACKGROUND → Create specified city street scene";
   "Priority 5: POSE → Generate complementary stance (ignore both input poses)";
   EmptyString;
   "OUTPUT REQUIREMENTS";
   "Produce ONE image where:";
   "✓ The person is immediately recognizable as the user from IMAGE 2";
   "✓ The person is wearing the complete outfit from IMAGE 1";
   "✓ The person is in a NEW pose (not copied from either input)";
   "✓ Background is overcast daytime city street (well-lit, neutral tones, not crowded)";
   "✓ Professional photography quality (sharp subject, blurred background)";
   "✓ Natural lighting that flatters both the person and the outfit";
   "✓ No distortions, artifacts, or unnatural features";
   EmptyString;
   "WHAT YOU ARE DOING";
   "This is a virtual try-on transformation:";
   EmptyString;
   "Take the OUTFIT from IMAGE 1 (the style reference)";
   "Put it on the USER from IMAGE 2 (preserving their face and body)";
   "Place them in a professional city street setting with overcast natural light";
   "Create a model-quality photo showcasing the styled look";
   EmptyString;
   "The user from IMAGE 2 should look like themselves wearing the outfit from IMAGE 1 in a fashion photoshoot." ].

(** The instructions of a product staging, the template literal of the branch [PRODUCT]. *)
Definition PRODUCT_PROMPT : string :=
  String.concat JS.nl [
   "**PRODUCT STAGING TASK**";
   "You are a professional product photographer. You will receive two images: IMAGE 1 (a background scene) and IMAGE 2 (a product).";
   "Your job is to place the product from IMAGE 2 into the background from IMAGE 1.";
   "**RULES:**";
   "1.  **Cut out product:** Perfectly isolate the product from IMAGE 2.";
   "2.  **Place realistically:** Place the product into IMAGE 1. Make lighting, shadows, and perspective look natural.";
   "3.  **Plausible scale:** Ensure the product is a realistic size for the scene.";
   "4.  **Output:** Provide ONLY the final composite photo. Do not output the original images." ].

(** The prompt of a composite by image type, empty for the other types. *)
Definition compositePrompt (imageType : string) : string :=
  if String.eqb imageType "FASHION/OUTFIT" then FASHION_PROMPT
  else if String.eqb imageType "PRODUCT" then PRODUCT_PROMPT
  else EmptyString.

(** [handleGenerateComposite], [None] when the entry of the current type is
    undefined and reading [showSecondary] throws. *)
Definition handleGenerateComposite (st : AppState) : option Task :=
  match showSecondaryAt (imageType st) with
  | None => None
  | Some currentShowsSecondary =>
      if negb currentShowsSecondary then Some Done
      else
        match primaryImageFile st, secondaryImageFile st with
        | Some primary, Some secondary =>
            let failed (e : JS.thrown) :=
              Update (setCompositeError
                        (Some (messageOf e "Composite image generation failed.")))
                (Update (setIsGeneratingComposite false) Done) in
            Some
              (Update (run [ setIsGeneratingComposite true;
                             setCompositeResultUrl None;
                             setCompositeError None ])
                 (if JS.truthy (compositePrompt (imageType st)) then
                    FileToBase64 primary (fun read1 =>
                      match read1 with
                      | JS.Threw e => failed e
                      | JS.Returned primaryImageBase64 =>
                          FileToBase64 secondary (fun read2 =>
                            match read2 with
                            | JS.Threw e => failed e
                            | JS.Returned secondaryImageBase64 =>
                                let call :=
                                  Service.generateCompositeImage
                                    primaryImageBase64 (fileType primary)
                                    secondaryImageBase64 (fileType secondary)
                                    (compositePrompt (imageType st)) in
                                GenerateContent (Service.request call) (fun reply =>
                                  match Service.settle call reply with
                                  | JS.Returned resultUrl =>
                                      Update (setCompositeResultUrl (Some resultUrl))
                                        (Update (setIsGeneratingComposite false) Done)
                                  | JS.Threw e => failed e
                                  end)
                            end)
                      end)
                  else Update (setIsGeneratingComposite false) Done))
        | _, _ =>
            Some (Update (setCompositeError (Some "Please upload both images first."))
                    Done)
        end
  end.

(** *** [handleEnhanceImage] *)

(** What a handler does outside the state: a request to the model, and a
    click on a download link. *)
Inductive Effect : Type :=
| Requested (req : Service.Request)
| Downloaded (href download : string).

(** [meta.split(':')[1].split(';')[0]], where [meta] is the data URL up to
    its first comma; [None] when [meta] has no colon and the second [split]
    is called on undefined. *)
Definition mimeTypeOf (imageUrl : string) : option string :=
  let meta := Text.first (Text.split "," imageUrl) in
  match Text.second (Text.split ":" meta) with
  | Some rest => Some (Text.first (Text.split ";" rest))
  | None => None
  end.

(** [imageUrl.split(',')[1]], undefined when the URL has no comma. *)
Definition base64DataOf (imageUrl : string) : option string :=
  Text.second (Text.split "," imageUrl).

(** [handleEnhanceImage], run to its end: the state it leaves and what it
    did outside.  [now] is [Date.now()] at the download; [typeError] is the
    message of the [TypeError] that the engine throws for a call on
    undefined.  The result is [None] in the one case the model does not
    cover: a URL that has a colon and no comma, for which the code sends
    undefined as the data of the image. *)
Definition handleEnhanceImage (env : Env) (now : N) (typeError : string)
  (st : AppState) : option (AppState * list Effect) :=
  match generatedResult st with
  | None => Some (st, [])
  | Some shown =>
      if negb (JS.truthy_opt (Service.imageUrl shown)) then Some (st, [])
      else
        match Service.imageUrl shown with
        | None => Some (st, [])
        | Some imageUrl =>
            let st1 := run [ setIsEnhancing true; setEnhancementError None ] st in
            match mimeTypeOf imageUrl with
            | None =>
                Some (run [ setEnhancementError (Some typeError);
                            setIsEnhancing false ] st1, [])
            | Some mimeType =>
                match base64DataOf imageUrl with
                | None => None
                | Some base64Data =>
                    let call := Service.enhanceImageTo8K base64Data mimeType in
                    match Service.settle call
                            (generateContent env (Service.request call)) with
                    | JS.Returned enhancedImageUrl =>
                        Some (setIsEnhancing false st1,
                              [ Requested (Service.request call);
                                Downloaded enhancedImageUrl
                                  ("creative-collage-8k-" ++ Text.decimal now ++ "." ++
                                   Text.fileType enhancedImageUrl) ])
                    | JS.Threw e =>
                        Some (run [ setEnhancementError
                                      (Some (messageOf e "Failed to enhance image."));
                                    setIsEnhancing false ] st1,
                              [ Requested (Service.request call) ])
                    end
                end
            end
        end
  end.

End Page.


(* ===================================================================== *)
(** ** What the page shows: [components/ResultDisplay.tsx] *)
(* ===================================================================== *)

Module ResultDisplay.

(** The panels under the spinner and the placeholder: the source of the
    mood-board image, the marker of a click in progress, the error of an
    enhancement, and whether the composite panel and the panels of the
    analysis and of the element details are rendered. *)
Record Panels : Type :=
  { boardImage : option string;
    clickMarker : option (float * float);
    enhancementNote : option string;
    compositePanel : bool;
    detailPanels : bool }.

Inductive Screen : Type :=
| Spinner
| Placeholder
| Shown (panels : Panels).

(** [result && result.imageUrl] *)
Definition hasMoodboardResult (st : AppState) : option string :=
  match generatedResult st with
  | Some result =>
      match Service.imageUrl result with
      | Some url => if JS.truthy url then Some url else None
      | None => None
      end
  | None => None
  end.

(** [compositeResultUrl || isGeneratingComposite || compositeError] *)
Definition hasCompositeState (st : AppState) : bool :=
  JS.truthy_opt (compositeResultUrl st) || isGeneratingComposite st ||
  JS.truthy_opt (compositeError st).

(** The component, on the props that [App] passes: the cells of its state. *)
Definition ResultDisplay (st : AppState) : Screen :=
  if isLoading st then Spinner
  else
    match hasMoodboardResult st with
    | None =>
        if negb (hasCompositeState st) then Placeholder
        else Shown {| boardImage := None; clickMarker := None;
                      enhancementNote := None;
                      compositePanel := true; detailPanels := false |}
    | Some url =>
        Shown {| boardImage := Some url;
                 clickMarker := if isElementLoading st then clickPosition st else None;
                 enhancementNote :=
                   if JS.truthy_opt (enhancementError st) then enhancementError st
                   else None;
                 compositePanel := hasCompositeState st;
                 detailPanels := true |}
    end.

(** [handleDownload] of the mood board: nothing without an image, else a
    click on a link to it. *)
Definition handleDownload (now : N) (st : AppState) : list Page.Effect :=
  match hasMoodboardResult st with
  | None => []
  | Some url =>
      [ Page.Downloaded url
          ("creative-collage-" ++ Text.decimal now ++ "." ++ Text.fileType url) ]
  end.

(** [handleDownload] of the composite panel. *)
Definition handleCompositeDownload (now : N) (st : AppState) : list Page.Effect :=
  match compositeResultUrl st with
  | None => []
  | Some url =>
      if JS.truthy url then
        [ Page.Downloaded url
            ("composite-result-" ++ Text.decimal now ++ "." ++ Text.fileType url) ]
      else []
  end.

(** [getSearchContext]: the text of the button and the title of the results,
    by the element type of the details. *)
Definition getSearchContext (details : option Service.ElementDetails) : string * string :=
  match details with
  | None => ("Find Similar", "Similar Items Found Online:")
  | Some d =>
      let t := Service.elementType d in
      if String.eqb t "fashion_item" then ("Shop This Item", "Shopping Links:")
      else if String.eqb t "product" then ("Shop This Item", "Shopping Links:")
      else if String.eqb t "architectural_feature" then ("Locate on Map", "Location on Map:")
      else if String.eqb t "food_item" then ("Find Recipe", "Recipes & Links:")
      else if String.eqb t "design_element"
           then ("Find Similar Art", "Similar Artwork & Inspiration:")
      else ("Find Out More", "Relevant Links:")
  end.

End ResultDisplay.


(* ===================================================================== *)
(** ** More vocabulary and sample data *)
(* ===================================================================== *)

(** The cells of the page by concern: the uploads, the inputs of the form,
    and for each operation its result, its flag and its error. *)
Definition uploadCells (st : AppState) :=
  (primaryImageFile st, primaryImagePreview st,
   secondaryImageFile st, secondaryImagePreview st).

Definition inputCells (st : AppState) :=
  (imageType st, customImageType st, userPrompt st).

Definition moodboardCells (st : AppState) :=
  (generatedResult st, isLoading st, error st).

Definition elementCells (st : AppState) :=
  (elementDetailsResult st, isElementLoading st, elementError st, clickPosition st).

Definition enhanceCells (st : AppState) := (isEnhancing st, enhancementError st).

Definition similarCells (st : AppState) :=
  (similarItems st, isFindingSimilar st, findSimilarError st).

Definition compositeCells (st : AppState) :=
  (compositeResultUrl st, isGeneratingComposite st, compositeError st).

(** The image types with two upload slots. *)
Definition twoImages (imageType : string) : bool :=
  String.eqb imageType "FASHION/OUTFIT" || String.eqb imageType "PRODUCT".

(** The values of the buttons of the selector. *)
Definition imageTypeValues : list string := map snd Page.imageTypes.

(** A character that occurs nowhere in a text. *)
Fixpoint absent (c : ascii) (s : string) : bool :=
  match s with
  | EmptyString => true
  | String d r => negb (Ascii.eqb d c) && absent c r
  end.

(** A reply that names a block reason, though it carries an image. *)
Definition blockedReply : Service.GenerateContentResponse :=
  {| Service.promptFeedback := Some {| Service.blockReason := Some "SAFETY" |};
     Service.candidates :=
       Some [ {| Service.content := Some {| Service.parts := Some imageOnlyParts |};
                 Service.groundingMetadata := None |} ] |}.

(** The parts of a reply: those of the content of its first candidate, and
    none when the reply has no candidate, or the candidate no content, or
    the content no parts. *)
Definition partsOf (response : Service.GenerateContentResponse) : list Service.Part :=
  match Service.candidates response with
  | Some (c :: _) =>
      match Service.content c with
      | Some body => match Service.parts body with Some ps => ps | None => [] end
      | None => []
      end
  | Some [] | None => []
  end.

(** A reply with no candidate and no block reason. *)
Definition noCandidateReply : Service.GenerateContentResponse :=
  {| Service.promptFeedback := None; Service.candidates := Some [] |}.

(** A reply that names a block reason, with the parts given. *)
Definition blockedWith (ps : list Service.Part) : Service.GenerateContentResponse :=
  {| Service.promptFeedback := Some {| Service.blockReason := Some "SAFETY" |};
     Service.candidates :=
       Some [ {| Service.content := Some {| Service.parts := Some ps |};
                 Service.groundingMetadata := None |} ] |}.

(** A reply whose candidate has no content, and one whose content has no
    parts. *)
Definition bareCandidateReply : Service.GenerateContentResponse :=
  {| Service.promptFeedback := None;
     Service.candidates :=
       Some [ {| Service.content := None; Service.groundingMetadata := None |} ] |}.

Definition bareContentReply : Service.GenerateContentResponse :=
  {| Service.promptFeedback := None;
     Service.candidates :=
       Some [ {| Service.content := Some {| Service.parts := None |};
                 Service.groundingMetadata := None |} ] |}.

(** A part that carries both a text and an image. *)
Definition captionedImage : Service.Part :=
  {| Service.text := Some "A chair.";
     Service.inlineData := Some {| Service.data := "QUJD"; Service.mimeType := "image/png" |} |}.

Definition pngBlob : Service.Blob :=
  {| Service.data := "QUJD"; Service.mimeType := "image/png" |}.


(* ===================================================================== *)
(** ** Facts on strings: white space, trimming and the fence *)
(* ===================================================================== *)

Section StringFacts.

#[local] Arguments Ascii.eqb : simpl never.
#[local] Arguments JS.isWhiteSpace : simpl never.

Lemma app_assoc_string (a b c : string) : (a ++ b) ++ c = a ++ (b ++ c).
Proof. induction a as [|x a IH]; simpl; [reflexivity|now rewrite IH]. Qed.

Lemma blank_app (a b : string) : blank (a ++ b) = blank a && blank b.
Proof.
  induction a as [|c a IH]; simpl; [reflexivity|].
  now rewrite IH, andb_assoc.
Qed.

Lemma trimStart_blank_app (u x : string) :
  blank u = true -> JS.trimStart (u ++ x) = JS.trimStart x.
Proof.
  induction u as [|c u IH]; simpl; [reflexivity|].
  intro H. apply andb_true_iff in H as [Hc Hu]. rewrite Hc. now apply IH.
Qed.

Lemma trimStart_blank (u : string) : blank u = true -> JS.trimStart u = EmptyString.
Proof.
  induction u as [|c u IH]; simpl; [reflexivity|].
  intro H. apply andb_true_iff in H as [Hc Hu]. rewrite Hc. now apply IH.
Qed.

Lemma trimEnd_blank (u : string) : blank u = true -> JS.trimEnd u = EmptyString.
Proof.
  induction u as [|c u IH]; simpl; [reflexivity|].
  intro H. apply andb_true_iff in H as [Hc Hu]. now rewrite (IH Hu), Hc.
Qed.

Lemma trimEnd_not_blank (s : string) :
  blank s = false -> exists c r, JS.trimEnd s = String c r.
Proof.
  induction s as [|c s IH]; simpl; [discriminate|].
  intro H. destruct (JS.trimEnd s) as [|c' r'] eqn:E.
  - destruct (JS.isWhiteSpace c) eqn:Hc.
    + simpl in H. destruct (IH H) as (c' & r' & E'). discriminate E'.
    + now exists c, EmptyString.
  - now exists c, (String c' r').
Qed.

Lemma trimEnd_cons (c : ascii) (s : string) :
  blank s = false -> JS.trimEnd (String c s) = String c (JS.trimEnd s).
Proof.
  intro H. destruct (trimEnd_not_blank s H) as (c' & r' & E).
  simpl. now rewrite E.
Qed.

Lemma trimEnd_last (c : ascii) (s : string) :
  JS.isWhiteSpace c = false -> blank s = true ->
  JS.trimEnd (String c s) = String c EmptyString.
Proof.
  intros Hc Hs. simpl. now rewrite (trimEnd_blank s Hs), Hc.
Qed.

Lemma trimEnd_idempotent (s : string) : JS.trimEnd (JS.trimEnd s) = JS.trimEnd s.
Proof.
  induction s as [|c s IH]; [reflexivity|].
  destruct (blank s) eqn:Hs.
  - simpl. rewrite (trimEnd_blank s Hs).
    destruct (JS.isWhiteSpace c) eqn:Hc; simpl; [reflexivity|now rewrite Hc].
  - rewrite (trimEnd_cons c s Hs).
    destruct (trimEnd_not_blank s Hs) as (c' & r' & E).
    simpl. rewrite IH. now rewrite E.
Qed.

Lemma trimEnd_head (c : ascii) (s : string) :
  JS.isWhiteSpace c = false -> exists r, JS.trimEnd (String c s) = String c r.
Proof.
  intro Hc. destruct (blank s) eqn:Hs.
  - exists EmptyString. now apply trimEnd_last.
  - exists (JS.trimEnd s). now apply trimEnd_cons.
Qed.

Lemma trim_idempotent (s : string) : JS.trim (JS.trim s) = JS.trim s.
Proof.
  unfold JS.trim.
  assert (H : JS.trimStart s = EmptyString \/
              exists c r, JS.trimStart s = String c r /\ JS.isWhiteSpace c = false).
  { induction s as [|c s IH]; simpl; [now left|].
    destruct (JS.isWhiteSpace c) eqn:Hc; [exact IH|].
    right. now exists c, s. }
  destruct H as [E|(c & r & E & Hc)]; rewrite E; [reflexivity|].
  destruct (trimEnd_head c r Hc) as (r' & E').
  rewrite E' at 1. simpl JS.trimStart. rewrite Hc. rewrite <- E'.
  apply trimEnd_idempotent.
Qed.

Lemma trim_blank (s : string) : blank s = true -> JS.trim s = EmptyString.
Proof.
  intro H. unfold JS.trim. now rewrite (trimStart_blank s H).
Qed.

(** A white space is no backquote. *)
Lemma space_is_no_backquote (c : ascii) :
  JS.isWhiteSpace c = true -> Ascii.eqb "`" c = false.
Proof.
  intro H. destruct (Ascii.eqb_spec "`" c) as [<-|]; [discriminate H|reflexivity].
Qed.

Lemma startsWith_cons (a b : ascii) (p s : string) :
  JS.startsWith (String a p) (String b s) = Ascii.eqb a b && JS.startsWith p s.
Proof. reflexivity. Qed.

(** A fence that starts in [a] and would end in the white space after [a]
    lies in [a]. *)
Lemma startsWith_fence_app (a : string) (c : ascii) (r : string) :
  JS.isWhiteSpace c = true ->
  JS.startsWith Service.fence (a ++ String c r) = true ->
  JS.startsWith Service.fence a = true.
Proof.
  intros Hc. unfold Service.fence.
  pose proof (space_is_no_backquote c Hc) as Hq.
  destruct a as [|a1 [|a2 [|a3 a]]]; cbn [append];
    rewrite ?startsWith_cons, ?Hq, ?andb_false_r; try discriminate.
  cbn [JS.startsWith]. now rewrite ?startsWith_cons.
Qed.

Lemma includes_cons (p : string) (c : ascii) (s : string) :
  JS.includes p (String c s) = JS.startsWith p (String c s) || JS.includes p s.
Proof. reflexivity. Qed.

Lemma includes_startsWith (p s : string) :
  JS.includes p s = false -> JS.startsWith p s = false.
Proof.
  destruct s; simpl; intro H; now apply orb_false_iff in H as [H _].
Qed.

End StringFacts.

(* ===================================================================== *)
(** ** Properties of the handlers of the page *)
(* ===================================================================== *)

(** The trace of [handleGenerateMoodboard]: nothing when there is no primary
    image or when the file cannot be read, and else one request, sent while
    the page shows the state [generating]. *)
Lemma handleGenerateMoodboard_trace (env : Env) (w : World) :
  snd (fire env handleGenerateMoodboard w) =
  match primaryImageFile (app w) with
  | None => []
  | Some file =>
      match readFile env file with
      | JS.Threw _ => []
      | JS.Returned base64 =>
          [ Sent (moodboardRequest base64 (fileType file) (finalPrompt (app w)))
                 (generating (app w)) ]
      end
  end.
Proof.
  unfold fire, handleGenerateMoodboard.
  destruct (primaryImageFile (app w)) as [file|]; [|reflexivity].
  cbn [exec]. destruct (readFile env file) as [base64|e]; [|reflexivity].
  cbn [exec].
  match goal with
  | |- context [Service.settle ?c ?r] => destruct (Service.settle c r)
  end; reflexivity.
Qed.

(** C2. After [handlePrimaryImageUpload] has run on a file, the primary
    preview is an object URL of exactly that file, the secondary file and its
    preview are null, and the mood board, the element details, the click
    position, the similar items, the composite and every error are cleared. *)
Theorem primary_upload_resets (env : Env) (file : File) (w : World) :
  let w' := fst (fire env (handlePrimaryImageUpload file) w) in
  primaryImageFile (app w') = Some file /\
  (exists url, primaryImagePreview (app w') = Some url /\
               resolve (objectURLs w') url = Some file) /\
  secondaryImageFile (app w') = None /\
  secondaryImagePreview (app w') = None /\
  outputsCleared (app w').
Proof.
  unfold fire, handlePrimaryImageUpload. cbn [exec fst app objectURLs].
  repeat split.
  exists (freshUrl w). split; [reflexivity|].
  cbn [resolve]. now rewrite String.eqb_refl.
Qed.

(** C1, as the specification states it, fails: on a page that shows a
    composite, the request of a new mood-board generation is sent while the
    composite is still shown. *)
Lemma generate_keeps_composite :
  exists req shown,
    In (Sent req shown) (snd (fire quietEnv handleGenerateMoodboard pageWithComposite)) /\
    compositeResultUrl shown = Some "data:image/png;base64,AAAA" /\
    ~ outputsCleared shown.
Proof.
  exists (moodboardRequest "QUJD" "image/jpeg" (finalPrompt (app pageWithComposite))).
  exists (generating (app pageWithComposite)).
  split; [|split].
  - rewrite handleGenerateMoodboard_trace. left. reflexivity.
  - reflexivity.
  - intros (_ & _ & _ & _ & Hc & _). discriminate Hc.
Qed.

(** C1, amended.  Whenever [handleGenerateMoodboard] sends its request, the
    page shows no generated result, no element details, no click position,
    no similar items, and no general, element, enhancement or find-similar
    error; the composite result and the composite error are as they were
    before. *)
Theorem generate_resets_moodboard_outputs
  (env : Env) (w : World) (req : Service.Request) (shown : AppState) :
  In (Sent req shown) (snd (fire env handleGenerateMoodboard w)) ->
  moodboardOutputsCleared shown /\
  compositeResultUrl shown = compositeResultUrl (app w) /\
  compositeError shown = compositeError (app w).
Proof.
  rewrite handleGenerateMoodboard_trace.
  destruct (primaryImageFile (app w)) as [file|]; [|intros []].
  destruct (readFile env file) as [base64|e]; [|intros []].
  intros [E|[]]. injection E as _ <-.
  repeat split.
Qed.

Lemma generate_resets_moodboard_outputs_witness :
  exists req shown,
    In (Sent req shown) (snd (fire quietEnv handleGenerateMoodboard pageWithComposite)) /\
    moodboardOutputsCleared shown /\
    compositeResultUrl shown = Some "data:image/png;base64,AAAA" /\
    compositeError shown = None.
Proof.
  exists (moodboardRequest "QUJD" "image/jpeg" (finalPrompt (app pageWithComposite))).
  exists (generating (app pageWithComposite)).
  assert (I : In (Sent (moodboardRequest "QUJD" "image/jpeg"
                          (finalPrompt (app pageWithComposite)))
                       (generating (app pageWithComposite)))
                 (snd (fire quietEnv handleGenerateMoodboard pageWithComposite))).
  { rewrite handleGenerateMoodboard_trace. left. reflexivity. }
  split; [exact I|].
  exact (generate_resets_moodboard_outputs quietEnv pageWithComposite _ _ I).
Defined.

(** Without instructions of the user, the prompt is the header of the
    category and the fixed instructions, and nothing else. *)
Lemma finalPrompt_plain (st : AppState) :
  JS.trim (userPrompt st) = EmptyString ->
  finalPrompt st = categoryHeader (finalImageType st) ++ DEFAULT_MOODBOARD_PROMPT.
Proof.
  intro E. unfold finalPrompt. now rewrite E.
Qed.

(** C8. For an upload categorized as FOOD with empty or blank instructions
    of the user, [handleGenerateMoodboard] sends one request, whose prompt
    is a header that names the category FOOD followed by the fixed
    instructions of a mood board, with no section of additional user
    instructions. *)
Theorem food_prompt_has_header_and_template
  (env : Env) (w : World) (file : File) (base64 : string) :
  primaryImageFile (app w) = Some file ->
  imageType (app w) = "FOOD" ->
  JS.trim (userPrompt (app w)) = EmptyString ->
  readFile env file = JS.Returned base64 ->
  let prompt := categoryHeader "FOOD" ++ DEFAULT_MOODBOARD_PROMPT in
  snd (fire env handleGenerateMoodboard w) =
    [ Sent (moodboardRequest base64 (fileType file) prompt) (generating (app w)) ] /\
  JS.includes "categorized as FOOD." (categoryHeader "FOOD") = true /\
  JS.includes "ADDITIONAL USER INSTRUCTIONS" prompt = false.
Proof.
  intros Hfile Htype Hblank Hread prompt.
  split; [|split; vm_compute; reflexivity].
  rewrite handleGenerateMoodboard_trace, Hfile, Hread.
  rewrite (finalPrompt_plain _ Hblank).
  unfold finalImageType. rewrite Htype. reflexivity.
Qed.

Lemma food_prompt_has_header_and_template_witness :
  snd (fire quietEnv handleGenerateMoodboard foodPage) =
    [ Sent (moodboardRequest "QUJD" "image/jpeg"
              (categoryHeader "FOOD" ++ DEFAULT_MOODBOARD_PROMPT))
           (generating (app foodPage)) ] /\
  JS.includes "categorized as FOOD." (categoryHeader "FOOD") = true /\
  JS.includes "ADDITIONAL USER INSTRUCTIONS"
    (categoryHeader "FOOD" ++ DEFAULT_MOODBOARD_PROMPT) = false.
Proof.
  apply (food_prompt_has_header_and_template quietEnv foodPage dishFile "QUJD");
    reflexivity.
Defined.

(** The marker of a click on a shown mood board, when the canvas has a
    context and the image loads: the disc is drawn at the offset of the
    click times the ratio of the natural to the displayed size. *)
Lemma handleImageClick_marker
  (env : Env) (w : World) (event : Click)
  (shown : Service.GeneratedResult) (url : string) (size : float * float) :
  generatedResult (app w) = Some shown ->
  Service.imageUrl shown = Some url ->
  JS.truthy url = true ->
  context2d env = true ->
  loadImage env url = Some size ->
  markerOf (snd (fire env (handleImageClick event) w)) = Some (scaledCoordinate event).
Proof.
  intros Hres Hurl Htruthy Hctx Hload.
  unfold fire, handleImageClick. rewrite Hres, Hurl, Htruthy.
  cbn [negb exec]. rewrite Hctx. cbn [negb exec]. rewrite Hload.
  destruct size as [imgWidth imgHeight]. cbn [exec].
  match goal with
  | |- context [exec env ?t ?w0] => destruct (exec env t w0) as [w1 trace]
  end.
  reflexivity.
Qed.

(** In exact arithmetic, scaling by the ratio is the quotient of the
    specification. *)
Lemma originalCoordinate_exact (x n d : Q) :
  ~ (d == 0)%Q ->
  (originalCoordinate Q Qmult Qdiv x n d == x * n / d)%Q.
Proof.
  intro Hd. unfold originalCoordinate. field. exact Hd.
Qed.

(** C5, as the specification states it, fails in double precision: for a
    click at offset 49 on an image of natural width 1024 displayed 196 wide,
    [x*W/w] is 256, and the marker is drawn at 255.99999999999997. *)
Lemma marker_is_not_the_exact_ratio :
  exists mx my q,
    markerOf (snd (fire quietEnv (handleImageClick sampleClick) pageWithBoard))
      = Some (mx, my) /\
    mx <> fst (ratioCoordinate sampleClick) /\
    exactly mx = Some q /\ ~ (q == 49 * 1024 / 196)%Q.
Proof.
  exists (fst (scaledCoordinate sampleClick)), (snd (scaledCoordinate sampleClick)).
  eexists. split; [|split; [|split]].
  - rewrite (handleImageClick_marker quietEnv pageWithBoard sampleClick boardResult
               boardUrl (1024%float, 1024%float)); reflexivity.
  - intro H.
    apply (f_equal (PrimFloat.eqb (fst (scaledCoordinate sampleClick)))) in H.
    vm_compute in H. discriminate H.
  - vm_compute. reflexivity.
  - vm_compute. discriminate.
Qed.

(** C5, amended.  The marker of a click is drawn at the offset of the click
    multiplied by the quotient of the natural size by the displayed size,
    in double precision and in this order: the quotient [W/w] is rounded to
    a double first, and its product with [x] is rounded again (likewise
    [H/h] and [y]).  Evaluated in exact arithmetic, with [w] and [h] not
    zero, the same formula is [x*W/w] and [y*H/h]. *)
Theorem marker_at_scaled_offset :
  (forall (env : Env) (w : World) (event : Click)
          (shown : Service.GeneratedResult) (url : string) (size : float * float),
      generatedResult (app w) = Some shown ->
      Service.imageUrl shown = Some url ->
      JS.truthy url = true ->
      context2d env = true ->
      loadImage env url = Some size ->
      markerOf (snd (fire env (handleImageClick event) w)) =
        Some (PrimFloat.mul (PrimFloat.sub (clientX event) (rectLeft event))
                (PrimFloat.div (naturalWidth event) (width event)),
              PrimFloat.mul (PrimFloat.sub (clientY event) (rectTop event))
                (PrimFloat.div (naturalHeight event) (height event)))) /\
  (forall x y W H w h : Q,
      ~ (w == 0)%Q -> ~ (h == 0)%Q ->
      (originalCoordinate Q Qmult Qdiv x W w == x * W / w)%Q /\
      (originalCoordinate Q Qmult Qdiv y H h == y * H / h)%Q).
Proof.
  split.
  - intros. now apply (handleImageClick_marker env w event shown url size).
  - intros. split; now apply originalCoordinate_exact.
Qed.

Lemma marker_at_scaled_offset_witness :
  markerOf (snd (fire quietEnv (handleImageClick sampleClick) pageWithBoard)) =
    Some (scaledCoordinate sampleClick) /\
  (originalCoordinate Q Qmult Qdiv 49 1024 196 == 49 * 1024 / 196)%Q /\
  (originalCoordinate Q Qmult Qdiv 49 1024 196 == 49 * 1024 / 196)%Q.
Proof.
  split.
  - apply (proj1 marker_at_scaled_offset quietEnv pageWithBoard sampleClick
             boardResult boardUrl (1024%float, 1024%float)); reflexivity.
  - apply (proj2 marker_at_scaled_offset 49 49 1024 1024 196 196)%Q; discriminate.
Defined.

(* ===================================================================== *)
(** ** [parseJsonFromMarkdown] and fenced text *)
(* ===================================================================== *)

Section Fence.

#[local] Arguments Ascii.eqb : simpl never.
#[local] Arguments JS.isWhiteSpace : simpl never.

(** A text with no fence in it has no fenced block to match. *)
Lemma match_fenced_none (s : string) :
  JS.includes Service.fence s = false -> Service.match_fenced s = None.
Proof.
  induction s as [|c s IH]; intro H.
  - reflexivity.
  - rewrite includes_cons in H. apply orb_false_iff in H as [Hs Hi].
    cbn [Service.match_fenced]. rewrite Hs. now apply IH.
Qed.

(** Before the white space that leads to the closing fence, the end of the
    pattern matches nowhere in a text that holds no fence, as long as some
    of that text is left. *)
Lemma closes_not_inside (q : string) :
  JS.includes Service.fence q = false -> blank q = false ->
  forall (c : ascii) (r : string),
    JS.isWhiteSpace c = true -> Service.closes (q ++ String c r) = false.
Proof.
  induction q as [|d q IH]; intros Hi Hb c r Hc; [discriminate Hb|].
  rewrite includes_cons in Hi. apply orb_false_iff in Hi as [Hs Hi].
  unfold Service.closes. cbn [append JS.trimStart].
  destruct (JS.isWhiteSpace d) eqn:Hd.
  - cbn [blank] in Hb. rewrite Hd in Hb. now apply IH.
  - destruct (JS.startsWith Service.fence (String d (q ++ String c r))) eqn:E;
      [|reflexivity].
    change (String d (q ++ String c r)) with (String d q ++ String c r) in E.
    apply (startsWith_fence_app _ c r Hc) in E. congruence.
Qed.

(** The lazy body stops at the end of the text, its trailing white space
    left out. *)
Lemma lazy_body_to_fence (s : string) :
  JS.includes Service.fence s = false -> blank s = false ->
  forall (c : ascii) (r : string),
    JS.isWhiteSpace c = true -> Service.closes (String c r) = true ->
    Service.lazy_body (s ++ String c r) = Some (JS.trimEnd s).
Proof.
  induction s as [|d s IH]; intros Hi Hb c r Hc Hclose; [discriminate Hb|].
  rewrite includes_cons in Hi. apply orb_false_iff in Hi as [Hs Hi].
  cbn [append Service.lazy_body].
  destruct (blank s) eqn:Hbs.
  - assert (Hd : JS.isWhiteSpace d = false).
    { cbn [blank] in Hb. rewrite Hbs, andb_true_r in Hb. exact Hb. }
    assert (E : Service.closes (s ++ String c r) = true).
    { unfold Service.closes in *. now rewrite (trimStart_blank_app s _ Hbs). }
    rewrite E. now rewrite (trimEnd_last d s Hd Hbs).
  - rewrite (closes_not_inside s Hi Hbs c r Hc).
    rewrite (IH Hi eq_refl c r Hc Hclose).
    now rewrite (trimEnd_cons d s Hbs).
Qed.

(** The greedy white space and the lazy body together keep the trimmed
    text. *)
Lemma greedy_space_to_fence (s : string) :
  JS.includes Service.fence s = false -> blank s = false ->
  forall (c : ascii) (r : string),
    JS.isWhiteSpace c = true -> Service.closes (String c r) = true ->
    Service.greedy_space (s ++ String c r) = Some (JS.trim s).
Proof.
  induction s as [|d s IH]; intros Hi Hb c r Hc Hclose; [discriminate Hb|].
  pose proof (lazy_body_to_fence (String d s) Hi Hb c r Hc Hclose) as Hlazy.
  rewrite includes_cons in Hi. apply orb_false_iff in Hi as [Hs Hi].
  cbn [append Service.greedy_space] in *.
  unfold JS.trim. cbn [JS.trimStart].
  destruct (JS.isWhiteSpace d) eqn:Hd.
  - cbn [blank] in Hb. rewrite Hd in Hb.
    now rewrite (IH Hi Hb c r Hc Hclose).
  - exact Hlazy.
Qed.

(** Between the fences of a block that holds white space only, the body is
    white space, and not empty. *)
Lemma greedy_space_blank (u : string) :
  blank u = true -> u <> EmptyString ->
  exists b, Service.greedy_space (u ++ Service.fence) = Some b /\
            blank b = true /\ JS.truthy b = true.
Proof.
  induction u as [|c u IH]; intros Hb Hne; [contradiction|].
  cbn [blank] in Hb. apply andb_true_iff in Hb as [Hc Hu].
  cbn [append Service.greedy_space]. rewrite Hc.
  destruct u as [|c' u'].
  - exists (String c EmptyString). cbn [append].
    replace (Service.greedy_space Service.fence) with (@None string) by reflexivity.
    replace (Service.lazy_body (String c Service.fence))
      with (Some (String c EmptyString)) by reflexivity.
    cbn [blank JS.truthy]. now rewrite Hc.
  - destruct (IH Hu ltac:(discriminate)) as (b & E & Hbb & Ht).
    exists b. now rewrite E.
Qed.

Lemma blank_trimStart (s : string) : blank (JS.trimStart s) = blank s.
Proof.
  induction s as [|c s IH]; [reflexivity|].
  cbn [JS.trimStart blank]. destruct (JS.isWhiteSpace c) eqn:Hc; [exact IH|].
  cbn [blank]. now rewrite Hc.
Qed.

Lemma trim_not_blank (s : string) : blank s = false -> JS.truthy (JS.trim s) = true.
Proof.
  intro H. unfold JS.trim.
  destruct (trimEnd_not_blank (JS.trimStart s)) as (c & r & E).
  - now rewrite blank_trimStart.
  - now rewrite E.
Qed.

(** What the pattern captures after the line feed that ends the opening
    fence. *)
Lemma greedy_space_block (s : string) :
  JS.includes Service.fence s = false ->
  exists b, Service.greedy_space (JS.nl ++ s ++ JS.nl ++ Service.fence) = Some b /\
            JS.truthy b = true /\ JS.trim b = JS.trim s.
Proof.
  intro Hi. destruct (blank s) eqn:Hb.
  - destruct (greedy_space_blank (JS.nl ++ s ++ JS.nl)) as (b & E & Hbb & Ht).
    + now rewrite !blank_app, Hb.
    + discriminate.
    + exists b. rewrite !app_assoc_string in E.
      split; [exact E|]. split; [exact Ht|].
      now rewrite (trim_blank b Hbb), (trim_blank s Hb).
  - exists (JS.trim s).
    assert (E : Service.greedy_space (s ++ JS.nl ++ Service.fence) = Some (JS.trim s)).
    { now apply greedy_space_to_fence. }
    split; [|split; [now apply trim_not_blank|apply trim_idempotent]].
    change (JS.nl ++ s ++ JS.nl ++ Service.fence)
      with (String (ascii_of_nat 10) (s ++ JS.nl ++ Service.fence)).
    cbn [Service.greedy_space].
    replace (JS.isWhiteSpace (ascii_of_nat 10)) with true by reflexivity.
    now rewrite E.
Qed.

Lemma match_fenced_unfold (text : string) :
  Service.match_fenced text =
  match (if JS.startsWith Service.fence text
         then Service.after_fence (JS.drop 3 text) else None) with
  | Some b => Some b
  | None =>
      match text with
      | String _ r => Service.match_fenced r
      | EmptyString => None
      end
  end.
Proof. destruct text; reflexivity. Qed.

(** The body that the pattern captures in a fenced block. *)
Lemma match_fenced_fenced (lang s : string) :
  lang = EmptyString \/ lang = "json" ->
  JS.includes Service.fence s = false ->
  exists b, Service.match_fenced (fenced lang s) = Some b /\
            JS.truthy b = true /\ JS.trim b = JS.trim s.
Proof.
  intros Hlang Hi.
  destruct (greedy_space_block s Hi) as (b & E & Ht & Htrim).
  exists b. split; [|now split].
  rewrite match_fenced_unfold. unfold fenced.
  replace (JS.startsWith Service.fence
             (Service.fence ++ lang ++ JS.nl ++ s ++ JS.nl ++ Service.fence))
    with true by reflexivity.
  replace (JS.drop 3 (Service.fence ++ lang ++ JS.nl ++ s ++ JS.nl ++ Service.fence))
    with (lang ++ JS.nl ++ s ++ JS.nl ++ Service.fence) by reflexivity.
  unfold Service.after_fence.
  destruct Hlang as [-> | ->].
  - replace (JS.startsWith "json" (EmptyString ++ JS.nl ++ s ++ JS.nl ++ Service.fence))
      with false by reflexivity.
    cbn [append]. change (String (ascii_of_nat 10) (s ++ JS.nl ++ Service.fence))
      with (JS.nl ++ s ++ JS.nl ++ Service.fence).
    now rewrite E.
  - replace (JS.startsWith "json" ("json" ++ JS.nl ++ s ++ JS.nl ++ Service.fence))
      with true by reflexivity.
    replace (JS.drop 4 ("json" ++ JS.nl ++ s ++ JS.nl ++ Service.fence))
      with (JS.nl ++ s ++ JS.nl ++ Service.fence) by reflexivity.
    now rewrite E.
Qed.

(** C4, as the specification states it, fails: the serialization of an
    object with three backquotes in a string parses to that object as it
    is, and to null once it is wrapped in a fenced block. *)
Lemma fenced_backquotes_parse_to_null :
  exists d,
    JSON.parse backquotedDetails = Some d /\
    Service.parseJsonFromMarkdown backquotedDetails = d /\
    Service.parseJsonFromMarkdown (fenced "json" backquotedDetails) = JSON.Null /\
    Service.parseJsonFromMarkdown (fenced EmptyString backquotedDetails) = JSON.Null /\
    d <> JSON.Null.
Proof.
  eexists. split; [vm_compute; reflexivity|].
  repeat split; try (vm_compute; reflexivity). discriminate.
Qed.

(** C4, amended.  For every text that holds no run of three backquotes,
    [parseJsonFromMarkdown] gives the same value for the text wrapped in a
    fenced code block, with the language tag [json] or with none, as for
    the text itself. *)
Theorem fenced_parses_as_raw (lang s : string) :
  lang = EmptyString \/ lang = "json" ->
  JS.includes Service.fence s = false ->
  Service.parseJsonFromMarkdown (fenced lang s) = Service.parseJsonFromMarkdown s.
Proof.
  intros Hlang Hi.
  destruct (match_fenced_fenced lang s Hlang Hi) as (b & E & Ht & Htrim).
  unfold Service.parseJsonFromMarkdown, Service.jsonString.
  now rewrite E, Ht, Htrim, (match_fenced_none s Hi).
Qed.

Lemma fenced_parses_as_raw_witness :
  Service.parseJsonFromMarkdown (fenced "json" chairDetails) =
  Service.parseJsonFromMarkdown chairDetails.
Proof.
  apply (fenced_parses_as_raw "json" chairDetails); [right|]; reflexivity.
Defined.

End Fence.

(* ===================================================================== *)
(** ** Properties of the gateway *)
(* ===================================================================== *)

Section Gateway.

#[local] Arguments JS.truthy : simpl never.

(** The data URL of a part is never empty. *)
Lemma dataUrl_truthy (b : Service.Blob) : JS.truthy (Service.dataUrl b) = true.
Proof. reflexivity. Qed.




(** For a part that carries one kind of content, the two kinds are read off
    the field that is set. *)
Lemma image_part_without_text (p : Service.Part) :
  Service.text p = None ->
  (isImagePart p = true <-> Service.inlineData p <> None).
Proof.
  intro Ht. unfold isImagePart, isTextPart. rewrite Ht. cbn [JS.truthy_opt negb andb].
  destruct (Service.inlineData p); split; congruence.
Qed.

Lemma text_part_without_data (p : Service.Part) :
  Service.inlineData p = None ->
  isImagePart p = false /\
  (isTextPart p = true <->
   exists t, Service.text p = Some t /\ t <> EmptyString).
Proof.
  intro Hd. unfold isImagePart, isTextPart. rewrite Hd, andb_false_r.
  split; [reflexivity|].
  destruct (Service.text p) as [[|c t]|]; cbn [JS.truthy_opt]; split;
    try discriminate.
  - intros (t & E & Hne). injection E as <-. contradiction.
  - intros _. exists (String c t). split; [reflexivity|discriminate].
  - reflexivity.
  - intros (t & E & _). discriminate E.
Qed.




Lemma lastImage_none (ps : list Service.Part) :
  lastImage ps = None <-> existsb isImagePart ps = false.
Proof.
  induction ps as [|p ps IH]; [easy|].
  cbn [lastImage existsb]. rewrite orb_false_iff.
  destruct (lastImage ps) as [u|].
  - split; [discriminate|]. intros [_ H]. now apply IH in H.
  - destruct (isImagePart p) eqn:Hi.
    + unfold isImagePart in Hi. apply andb_true_iff in Hi as [_ Hi].
      destruct (Service.inlineData p); [|discriminate Hi].
      split; [discriminate|]. now intros [H _].
    + split; [|reflexivity]. intros _. split; [reflexivity|now apply IH].
Qed.

Lemma lastImage_truthy (ps : list Service.Part) (u : string) :
  lastImage ps = Some u -> JS.truthy u = true.
Proof.
  induction ps as [|p ps IH]; [discriminate|].
  cbn [lastImage]. destruct (lastImage ps) as [u'|].
  - intro E. apply IH. exact E.
  - destruct (isImagePart p); [|discriminate].
    destruct (Service.inlineData p) as [b|]; [|discriminate].
    cbn [option_map]. intro E. injection E as <-. apply dataUrl_truthy.
Qed.



(** The loop of [getElementDetails] ends with the last image and with what
    [parseJsonFromMarkdown] makes of the last text. *)
Lemma fold_scanDetail (ps : list Service.Part) (acc : option string * JSON.value) :
  fold_left Service.scanDetail ps acc =
  (match lastImage ps with Some u => Some u | None => fst acc end,
   match lastText ps with
   | Some t => Service.parseJsonFromMarkdown t
   | None => snd acc
   end).
Proof.
  revert acc. induction ps as [|p ps IH]; intro acc.
  - now destruct acc.
  - cbn [fold_left lastImage lastText]. rewrite IH.
    destruct acc as [i det]. unfold Service.scanDetail, isImagePart, isTextPart.
    destruct (Service.text p) as [t'|]; cbn [JS.truthy_opt];
      [destruct (JS.truthy t')|];
      destruct (Service.inlineData p) as [b|];
      destruct (lastImage ps), (lastText ps); reflexivity.
Qed.

Lemma scanDetails_last (ps : list Service.Part) :
  Service.scanDetails ps =
  (lastImage ps,
   match lastText ps with
   | Some t => Service.parseJsonFromMarkdown t
   | None => JSON.Null
   end).
Proof.
  unfold Service.scanDetails. rewrite fold_scanDetail.
  now destruct (lastImage ps).
Qed.

Lemma take_exact (n : nat) (s : string) :
  n <= String.length s -> String.length (JS.take n s) = n.
Proof.
  revert s. induction n as [|n IH]; intros [|c s] H; cbn in *; try reflexivity; try lia.
  rewrite IH; [reflexivity|lia].
Qed.


Lemma substring_from_start (n : nat) (s : string) :
  JS.substring 0 n s = JS.take (Nat.min n (String.length s)) s.
Proof.
  unfold JS.substring. cbn [Nat.min Nat.max JS.drop].
  now rewrite Nat.sub_0_r.
Qed.

Lemma includes_app_r (p a b : string) :
  JS.includes p b = true -> JS.includes p (a ++ b) = true.
Proof.
  intro H. induction a as [|c a IH]; [exact H|].
  cbn [append]. rewrite includes_cons, IH. apply orb_true_r.
Qed.



(** C3, what the claim as written misses.  A reply with no candidate has no
    image part, and [getElementDetails] throws the message of a missing
    response, not that of a missing image; a reply that names a block
    reason, with an image part and a text that is no JSON, makes it throw
    the message of the block, not that of invalid JSON. *)
Lemma element_details_fails_otherwise :
  (existsb isImagePart (partsOf noCandidateReply) = false /\
   Service.settle (Service.getElementDetails "QUJD" "image/jpeg")
     (JS.Returned noCandidateReply) =
     JS.throwError
       ("Failed to get element details: " ++
        "The AI did not return a response. It may have been filtered for safety reasons.") /\
   Service.settle (Service.getElementDetails "QUJD" "image/jpeg")
     (JS.Returned noCandidateReply) <>
     JS.throwError
       ("Failed to get element details: " ++
        "The AI failed to generate an image for the selected element.")) /\
  (existsb isImagePart (partsOf (blockedWith proseParts)) = true /\
   (exists t, lastText (partsOf (blockedWith proseParts)) = Some t /\
              JSON.parse (Service.jsonString t) = None) /\
   Service.settle (Service.getElementDetails "QUJD" "image/jpeg")
     (JS.Returned (blockedWith proseParts)) =
     JS.throwError
       ("Failed to get element details: " ++ "Request was blocked due to: SAFETY") /\
   Service.settle (Service.getElementDetails "QUJD" "image/jpeg")
     (JS.Returned (blockedWith proseParts)) <>
     JS.throwError
       ("Failed to get element details: " ++
        "The AI failed to provide valid details for the selected element. " ++
        "The response was not valid JSON.")).
Proof.
  split; [split; [|split]|split; [|split; [|split]]].
  - reflexivity.
  - reflexivity.
  - intro H. vm_compute in H. discriminate H.
  - reflexivity.
  - eexists. split; [reflexivity|vm_compute; reflexivity].
  - reflexivity.
  - intro H. vm_compute in H. discriminate H.
Qed.

(** C3, amended.  For a reply that passes the checks of [callGeminiModel],
    so that the parts of its first candidate are handed over,
    [getElementDetails] throws the message of a missing image when no part
    is an image part, and the message of invalid JSON when there is an image
    part and the text of the reply, if any, does not parse after the fence
    is stripped; the two messages differ. *)
Theorem element_details_errors_are_distinct
  (base64 mime : string)
  (response : Service.GenerateContentResponse) (ps : list Service.Part) :
  Service.firstParts response = JS.Returned ps ->
  let result :=
    Service.settle (Service.getElementDetails base64 mime) (JS.Returned response) in
  (existsb isImagePart ps = false ->
     result = JS.throwError (Service.DETAILS_PREFIX ++ Service.NO_ELEMENT_IMAGE)) /\
  (existsb isImagePart ps = true ->
   (forall t, lastText ps = Some t -> JSON.parse (Service.jsonString t) = None) ->
     result = JS.throwError (Service.DETAILS_PREFIX ++ Service.INVALID_DETAILS)) /\
  Service.NO_ELEMENT_IMAGE <> Service.INVALID_DETAILS /\
  Service.DETAILS_PREFIX ++ Service.NO_ELEMENT_IMAGE <>
    Service.DETAILS_PREFIX ++ Service.INVALID_DETAILS /\
  Service.DETAILS_PREFIX ++ Service.NO_ELEMENT_IMAGE =
    "Failed to get element details: " ++
    "The AI failed to generate an image for the selected element." /\
  Service.DETAILS_PREFIX ++ Service.INVALID_DETAILS =
    "Failed to get element details: " ++
    "The AI failed to provide valid details for the selected element. " ++
    "The response was not valid JSON.".
Proof.
  intros Hps result. subst result.
  unfold Service.getElementDetails, Service.callGeminiModel.
  cbn [Service.settle Service.request JS.bind]. rewrite Hps. cbn [JS.bind].
  rewrite scanDetails_last.
  split; [|split; [|split; [|split; [|split]]]];
    try (intro H; vm_compute in H; discriminate H); try reflexivity.
  - intro Hi. apply lastImage_none in Hi. now rewrite Hi.
  - intros Hi Hparse.
    destruct (lastImage ps) as [u|] eqn:E;
      [|apply lastImage_none in E; congruence].
    cbv beta iota. rewrite (lastImage_truthy ps u E). cbn [negb].
    destruct (lastText ps) as [t|]; [|reflexivity].
    unfold Service.parseJsonFromMarkdown. now rewrite (Hparse t eq_refl).
Qed.

Lemma element_details_errors_are_distinct_witness :
  Service.settle (Service.getElementDetails "QUJD" "image/jpeg")
    (JS.Returned (replyOf refusalParts)) =
    JS.throwError (Service.DETAILS_PREFIX ++ Service.NO_ELEMENT_IMAGE) /\
  Service.settle (Service.getElementDetails "QUJD" "image/jpeg")
    (JS.Returned (replyOf proseParts)) =
    JS.throwError (Service.DETAILS_PREFIX ++ Service.INVALID_DETAILS).
Proof.
  split.
  - apply (element_details_errors_are_distinct "QUJD" "image/jpeg"
             (replyOf refusalParts) refusalParts eq_refl). reflexivity.
  - apply (element_details_errors_are_distinct "QUJD" "image/jpeg"
             (replyOf proseParts) proseParts eq_refl); [reflexivity|].
    intros t E. injection E as <-. reflexivity.
Defined.




(** C6. [findSimilarItems] asks the query of the element type of the
    details: shops for a product or a fashion item, the location on Google
    Maps for an architectural feature, recipes for a food item, art
    platforms for a design element, a generic query for any other type; and
    for a reply with no grounding chunks it returns the empty list. *)
Theorem similar_query_follows_element_type (d : Service.ElementDetails) :
  let query := Service.contents (Service.request (Service.findSimilarItems d)) in
  let t := Service.elementType d in
  let n := Service.elementName d in
  (t = "product" \/ t = "fashion_item" -> query = Service.OfText (Service.commerceQuery n)) /\
  (t = "architectural_feature" -> query = Service.OfText (Service.locationQuery n)) /\
  (t = "food_item" -> query = Service.OfText (Service.recipeQuery n)) /\
  (t = "design_element" -> query = Service.OfText (Service.artQuery n)) /\
  (t <> "product" -> t <> "fashion_item" -> t <> "architectural_feature" ->
   t <> "food_item" -> t <> "design_element" ->
     query = Service.OfText (Service.genericQuery n)) /\
  (JS.includes "on e-commerce websites" (Service.commerceQuery n) = true /\
   JS.includes "on Google Maps" (Service.locationQuery n) = true /\
   JS.includes "Find recipes for" (Service.recipeQuery n) = true /\
   JS.includes "on Pinterest, Behance, or Dribbble" (Service.artQuery n) = true) /\
  (forall response,
     Service.chunksOf response = None \/ Service.chunksOf response = Some [] ->
     Service.settle (Service.findSimilarItems d) (JS.Returned response) = JS.Returned []).
Proof.
  intros query t n. subst query t n.
  cbn [Service.findSimilarItems Service.request Service.contents Service.settle].
  unfold Service.similarPrompt.
  repeat split.
  - intros [E|E]; rewrite E; reflexivity.
  - intros E; rewrite E; reflexivity.
  - intros E; rewrite E; reflexivity.
  - intros E; rewrite E; reflexivity.
  - intros H1 H2 H3 H4 H5.
    apply String.eqb_neq in H1, H2, H3, H4, H5.
    now rewrite H1, H2, H3, H4, H5.
  - unfold Service.commerceQuery. now do 3 apply includes_app_r.
  - unfold Service.locationQuery. now do 3 apply includes_app_r.
  - unfold Service.artQuery. now do 3 apply includes_app_r.
  - intros response H. cbn [JS.bind Service.rethrow]. unfold Service.itemsOf.
    now destruct H as [-> | ->].
Qed.

Lemma similar_query_follows_element_type_witness :
  Service.contents (Service.request (Service.findSimilarItems towerDetails)) =
    Service.OfText (Service.locationQuery "Eiffel Tower") /\
  Service.settle (Service.findSimilarItems towerDetails) (JS.Returned (replyOf [])) =
    JS.Returned [].
Proof.
  destruct (similar_query_follows_element_type towerDetails)
    as (_ & Hloc & _ & _ & _ & _ & Hempty).
  split; [apply Hloc; reflexivity|apply Hempty; left; reflexivity].
Defined.

(** C10. Every item that [findSimilarItems] returns has a URI that is not
    empty and is the URI of a grounding chunk of the reply; a chunk with a
    URI and no title is kept, under the title [Untitled]. *)
Theorem similar_items_have_uri
  (d : Service.ElementDetails)
  (response : Service.GenerateContentResponse) (items : list Service.SimilarItem) :
  Service.settle (Service.findSimilarItems d) (JS.Returned response) = JS.Returned items ->
  itemsFollowChunks response items.
Proof.
  cbn [Service.findSimilarItems Service.settle JS.bind Service.rethrow].
  intro H. injection H as <-. unfold itemsFollowChunks, Service.itemsOf.
  split.
  - intros item Hin. destruct (Service.chunksOf response) as [[|c cs]|]; try contradiction.
    apply filter_In in Hin as [Hin Huri]. split.
    + intro E. rewrite E in Huri. discriminate Huri.
    + apply in_map_iff in Hin as (chunk & <- & Hc).
      exists (c :: cs), chunk. unfold Service.toItem in *.
      destruct (Service.web chunk) as [w|]; [|discriminate Huri].
      exists w. repeat split; try assumption.
      cbn [Service.itemUri] in *. unfold JS.or_else in *.
      destruct (Service.uri w) as [u|]; [|discriminate Huri].
      destruct (JS.truthy u); [reflexivity|discriminate Huri].
  - intros cs chunk w u Hcs Hin Hw Hu Hne. rewrite Hcs.
    destruct cs as [|c cs]; [contradiction|].
    assert (Htr : JS.truthy u = true) by (destruct u; [contradiction|reflexivity]).
    split.
    + intro Ht. apply filter_In. split.
      * apply in_map_iff. exists chunk. split; [|exact Hin].
        unfold Service.toItem. rewrite Hw. unfold JS.or_else.
        now rewrite Hu, Ht, Htr.
      * cbn [Service.itemUri]. exact Htr.
    + intros tl Ht Htl. apply filter_In. split.
      * apply in_map_iff. exists chunk. split; [|exact Hin].
        unfold Service.toItem. rewrite Hw. unfold JS.or_else.
        rewrite Hu, Ht, Htr.
        now destruct tl; [contradiction|].
      * cbn [Service.itemUri]. exact Htr.
Qed.

Lemma similar_items_have_uri_witness :
  itemsFollowChunks groundedReply
    [ {| Service.itemTitle := "Eames Lounge Chair";
         Service.itemUri := "https://shop.example/eames" |};
      {| Service.itemTitle := "Untitled";
         Service.itemUri := "https://shop.example/chair" |} ].
Proof.
  apply (similar_items_have_uri towerDetails). reflexivity.
Defined.

End Gateway.

(* ===================================================================== *)
(** ** More properties of the gateway *)
(* ===================================================================== *)

Section GatewayErrors.

#[local] Arguments JS.truthy : simpl never.

Lemma firstParts_blocked
  (response : Service.GenerateContentResponse)
  (feedback : Service.PromptFeedback) (reason : string) :
  Service.promptFeedback response = Some feedback ->
  Service.blockReason feedback = Some reason ->
  reason <> EmptyString ->
  Service.firstParts response =
    JS.throwError ("Request was blocked due to: " ++ reason).
Proof.
  intros Hf Hr Hne. unfold Service.firstParts, Service.blocked.
  rewrite Hf, Hr. destruct reason; [contradiction|reflexivity].
Qed.

(** X1. A reply that names a block reason is reported as blocked by the four
    functions that go through [callGeminiModel], each under its own prefix
    and whatever else the reply carries; [findSimilarItems] does not look at
    the block reason and returns its list. *)
Theorem blocked_reply_is_reported
  (response : Service.GenerateContentResponse)
  (feedback : Service.PromptFeedback) (reason : string)
  (b1 m1 b2 m2 prompt : string) (d : Service.ElementDetails) :
  Service.promptFeedback response = Some feedback ->
  Service.blockReason feedback = Some reason ->
  reason <> EmptyString ->
  let blockedMessage := "Request was blocked due to: " ++ reason in
  Service.settle (Service.generateMoodboard b1 m1 prompt) (JS.Returned response) =
    JS.throwError ("Failed to generate mood board: " ++ blockedMessage) /\
  Service.settle (Service.getElementDetails b1 m1) (JS.Returned response) =
    JS.throwError ("Failed to get element details: " ++ blockedMessage) /\
  Service.settle (Service.enhanceImageTo8K b1 m1) (JS.Returned response) =
    JS.throwError ("Failed to enhance image: " ++ blockedMessage) /\
  Service.settle (Service.generateCompositeImage b1 m1 b2 m2 prompt)
    (JS.Returned response) =
    JS.throwError ("Failed to generate composite image: " ++ blockedMessage) /\
  exists items,
    Service.settle (Service.findSimilarItems d) (JS.Returned response) =
      JS.Returned items.
Proof.
  intros Hf Hr Hne blockedMessage.
  pose proof (firstParts_blocked response feedback reason Hf Hr Hne) as E.
  unfold Service.generateMoodboard, Service.getElementDetails,
    Service.enhanceImageTo8K, Service.generateCompositeImage, Service.callGeminiModel.
  cbn [Service.settle Service.request JS.bind]. rewrite E.
  repeat split. now exists (Service.itemsOf response).
Qed.

Lemma blocked_reply_is_reported_witness :
  Service.settle (Service.generateMoodboard "QUJD" "image/jpeg" "Make a mood board.")
    (JS.Returned blockedReply) =
    JS.throwError "Failed to generate mood board: Request was blocked due to: SAFETY".
Proof.
  apply (blocked_reply_is_reported blockedReply {| Service.blockReason := Some "SAFETY" |}
           "SAFETY" "QUJD" "image/jpeg" "QUJD" "image/jpeg" "Make a mood board."
           towerDetails); [reflexivity|reflexivity|discriminate].
Defined.

(** X2. A reply with no block reason and no candidate makes each of the four
    functions throw the message of a missing response under its prefix. *)
Theorem reply_without_candidate_is_reported
  (response : Service.GenerateContentResponse) (b1 m1 b2 m2 prompt : string) :
  Service.blocked response = None ->
  Service.candidates response = None \/ Service.candidates response = Some [] ->
  Service.settle (Service.generateMoodboard b1 m1 prompt) (JS.Returned response) =
    JS.throwError ("Failed to generate mood board: " ++ Service.NO_RESPONSE) /\
  Service.settle (Service.getElementDetails b1 m1) (JS.Returned response) =
    JS.throwError ("Failed to get element details: " ++ Service.NO_RESPONSE) /\
  Service.settle (Service.enhanceImageTo8K b1 m1) (JS.Returned response) =
    JS.throwError ("Failed to enhance image: " ++ Service.NO_RESPONSE) /\
  Service.settle (Service.generateCompositeImage b1 m1 b2 m2 prompt)
    (JS.Returned response) =
    JS.throwError ("Failed to generate composite image: " ++ Service.NO_RESPONSE).
Proof.
  intros Hb Hc.
  assert (E : Service.firstParts response = JS.throwError Service.NO_RESPONSE).
  { unfold Service.firstParts. rewrite Hb. now destruct Hc as [-> | ->]. }
  unfold Service.generateMoodboard, Service.getElementDetails,
    Service.enhanceImageTo8K, Service.generateCompositeImage, Service.callGeminiModel.
  cbn [Service.settle Service.request JS.bind]. rewrite E.
  repeat split.
Qed.

Lemma reply_without_candidate_is_reported_witness :
  Service.settle (Service.enhanceImageTo8K "QUJD" "image/png")
    (JS.Returned {| Service.promptFeedback := None; Service.candidates := Some [] |}) =
    JS.throwError ("Failed to enhance image: " ++ Service.NO_RESPONSE).
Proof.
  apply (reply_without_candidate_is_reported
           {| Service.promptFeedback := None; Service.candidates := Some [] |}
           "QUJD" "image/png" "QUJD" "image/png" "p"); [reflexivity|right; reflexivity].
Defined.

(** X27. A reply with no block reason whose first candidate has no content
    makes each of the four functions throw, under its prefix, the message
    of the [TypeError] that reading [parts] of [undefined] throws; when the
    content is there and has no parts, the message is that of the
    [TypeError] of the loop over [undefined]. *)
Theorem candidate_without_parts_is_reported
  (response : Service.GenerateContentResponse)
  (c : Service.Candidate) (others : list Service.Candidate)
  (b1 m1 b2 m2 prompt : string) :
  Service.blocked response = None ->
  Service.candidates response = Some (c :: others) ->
  let reported (message : string) :=
    Service.settle (Service.generateMoodboard b1 m1 prompt) (JS.Returned response) =
      JS.throwError ("Failed to generate mood board: " ++ message) /\
    Service.settle (Service.getElementDetails b1 m1) (JS.Returned response) =
      JS.throwError ("Failed to get element details: " ++ message) /\
    Service.settle (Service.enhanceImageTo8K b1 m1) (JS.Returned response) =
      JS.throwError ("Failed to enhance image: " ++ message) /\
    Service.settle (Service.generateCompositeImage b1 m1 b2 m2 prompt)
      (JS.Returned response) =
      JS.throwError ("Failed to generate composite image: " ++ message) in
  (Service.content c = None -> reported (JS.cannotRead "parts")) /\
  (forall body, Service.content c = Some body -> Service.parts body = None ->
     reported (JS.notIterable "parts")).
Proof.
  intros Hb Hc reported. subst reported. cbv beta.
  unfold Service.generateMoodboard, Service.getElementDetails,
    Service.enhanceImageTo8K, Service.generateCompositeImage, Service.callGeminiModel.
  cbn [Service.settle Service.request JS.bind].
  split.
  - intro Hcontent.
    assert (E : Service.firstParts response = JS.throwError (JS.cannotRead "parts")).
    { unfold Service.firstParts. now rewrite Hb, Hc, Hcontent. }
    rewrite E. repeat split.
  - intros body Hcontent Hparts.
    assert (E : Service.firstParts response = JS.throwError (JS.notIterable "parts")).
    { unfold Service.firstParts. now rewrite Hb, Hc, Hcontent, Hparts. }
    rewrite E. repeat split.
Qed.

Lemma candidate_without_parts_is_reported_witness :
  Service.settle (Service.getElementDetails "QUJD" "image/jpeg")
    (JS.Returned bareCandidateReply) =
    JS.throwError ("Failed to get element details: " ++ JS.cannotRead "parts") /\
  Service.settle (Service.generateCompositeImage "QUJD" "image/png" "REVG" "image/png"
                    "Stage the product.") (JS.Returned bareContentReply) =
    JS.throwError ("Failed to generate composite image: " ++ JS.notIterable "parts").
Proof.
  split.
  - apply (proj1 (candidate_without_parts_is_reported bareCandidateReply
             {| Service.content := None; Service.groundingMetadata := None |} []
             "QUJD" "image/jpeg" "REVG" "image/png" "Stage the product."
             eq_refl eq_refl) eq_refl).
  - apply (proj2 (candidate_without_parts_is_reported bareContentReply
             {| Service.content := Some {| Service.parts := None |};
                Service.groundingMetadata := None |} []
             "QUJD" "image/png" "REVG" "image/png" "Stage the product."
             eq_refl eq_refl) {| Service.parts := None |} eq_refl eq_refl).
Defined.

(** X3. When the call to the model itself fails, each of the five functions
    throws an error of its own: the message of the failure under the prefix
    of the function when the failure is an [Error], and a fixed message of
    the function when anything else was thrown. *)
Theorem failed_call_is_wrapped
  (b1 m1 b2 m2 prompt : string) (d : Service.ElementDetails) (message : string) :
  let failed := @JS.Threw Service.GenerateContentResponse (JS.ErrorObject message) in
  let odd := @JS.Threw Service.GenerateContentResponse JS.OtherValue in
  (Service.settle (Service.generateMoodboard b1 m1 prompt) failed =
     JS.throwError ("Failed to generate mood board: " ++ message) /\
   Service.settle (Service.getElementDetails b1 m1) failed =
     JS.throwError ("Failed to get element details: " ++ message) /\
   Service.settle (Service.enhanceImageTo8K b1 m1) failed =
     JS.throwError ("Failed to enhance image: " ++ message) /\
   Service.settle (Service.findSimilarItems d) failed =
     JS.throwError ("Failed to find similar items: " ++ message) /\
   Service.settle (Service.generateCompositeImage b1 m1 b2 m2 prompt) failed =
     JS.throwError ("Failed to generate composite image: " ++ message)) /\
  (Service.settle (Service.generateMoodboard b1 m1 prompt) odd =
     JS.throwError "An unknown error occurred while communicating with the AI." /\
   Service.settle (Service.getElementDetails b1 m1) odd =
     JS.throwError "An unknown error occurred while getting element details." /\
   Service.settle (Service.enhanceImageTo8K b1 m1) odd =
     JS.throwError "An unknown error occurred while enhancing the image." /\
   Service.settle (Service.findSimilarItems d) odd =
     JS.throwError "An unknown error occurred while searching for similar items." /\
   Service.settle (Service.generateCompositeImage b1 m1 b2 m2 prompt) odd =
     JS.throwError "An unknown error occurred while generating the composite image.").
Proof.
  repeat split.
Qed.





End GatewayErrors.

Section GatewayParts.

#[local] Arguments JS.truthy : simpl never.




(** X6. A part that carries both a text and inline data is read as text by
    the loops that test the text first: a reply made of that one part has
    no image for [generateMoodboard], [getElementDetails] and
    [generateCompositeImage], while [enhanceImageTo8K], which tests the
    inline data only, returns its image. *)
Theorem captioned_image_is_read_as_text
  (b1 m1 b2 m2 prompt : string)
  (response : Service.GenerateContentResponse)
  (p : Service.Part) (t : string) (b : Service.Blob) :
  Service.firstParts response = JS.Returned [p] ->
  Service.text p = Some t -> t <> EmptyString ->
  Service.inlineData p = Some b ->
  Service.settle (Service.generateMoodboard b1 m1 prompt) (JS.Returned response) =
    JS.throwError (Service.MOODBOARD_PREFIX ++ Service.NO_IMAGE) /\
  Service.settle (Service.getElementDetails b1 m1) (JS.Returned response) =
    JS.throwError (Service.DETAILS_PREFIX ++ Service.NO_ELEMENT_IMAGE) /\
  Service.settle (Service.generateCompositeImage b1 m1 b2 m2 prompt)
    (JS.Returned response) =
    JS.throwError (Service.COMPOSITE_PREFIX ++ Service.TEXT_INSTEAD t) /\
  Service.settle (Service.enhanceImageTo8K b1 m1) (JS.Returned response) =
    JS.Returned (Service.dataUrl b).
Proof.
  intros Hps Ht Hne Hb.
  assert (Htruthy : JS.truthy t = true) by (destruct t; [contradiction|reflexivity]).
  unfold Service.generateMoodboard, Service.getElementDetails,
    Service.enhanceImageTo8K, Service.generateCompositeImage, Service.callGeminiModel.
  cbn [Service.settle Service.request JS.bind]. rewrite Hps. cbn [JS.bind].
  unfold Service.scanParts, Service.scanDetails.
  cbn [fold_left Service.scanPart Service.scanDetail Service.firstImage].
  rewrite Ht, Hb. cbn [JS.truthy_opt]. rewrite Htruthy.
  cbn [JS.truthy_opt negb Service.rethrow JS.throwError].
  now rewrite Htruthy.
Qed.

Lemma captioned_image_is_read_as_text_witness :
  Service.settle (Service.generateMoodboard "QUJD" "image/jpeg" "Make a mood board.")
    (JS.Returned (replyOf [captionedImage])) =
    JS.throwError (Service.MOODBOARD_PREFIX ++ Service.NO_IMAGE) /\
  Service.settle (Service.enhanceImageTo8K "QUJD" "image/jpeg")
    (JS.Returned (replyOf [captionedImage])) =
    JS.Returned "data:image/png;base64,QUJD".
Proof.
  destruct (captioned_image_is_read_as_text "QUJD" "image/jpeg" "QUJD" "image/jpeg"
              "Make a mood board." (replyOf [captionedImage]) captionedImage
              "A chair." pngBlob eq_refl eq_refl ltac:(discriminate) eq_refl)
    as (Hm & _ & _ & He).
  split; [exact Hm|exact He].
Defined.



Lemma take_all (n : nat) (s : string) : String.length s <= n -> JS.take n s = s.
Proof.
  revert s. induction n as [|n IH]; intros [|c s] H; cbn in *; try reflexivity; try lia.
  rewrite IH; [reflexivity|lia].
Qed.

(** X8. The message of [generateCompositeImage] for a reply in words quotes
    a text of 150 characters or fewer in full, and of a longer text its
    first 150 characters; the ellipsis follows in both cases. *)
Theorem text_excerpt_is_cut_at_150 (t : string) :
  (String.length t <= 150 ->
     Service.TEXT_INSTEAD t =
       "The AI returned text instead of an image. Response: " ++
       JS.dq ++ t ++ "..." ++ JS.dq) /\
  (150 < String.length t ->
     Service.TEXT_INSTEAD t =
       "The AI returned text instead of an image. Response: " ++
       JS.dq ++ JS.take 150 t ++ "..." ++ JS.dq /\
     String.length (JS.take 150 t) = 150).
Proof.
  unfold Service.TEXT_INSTEAD. rewrite substring_from_start. split; intro H.
  - rewrite Nat.min_r by exact H. now rewrite take_all.
  - rewrite Nat.min_l by lia. split; [reflexivity|]. apply take_exact. lia.
Qed.

Lemma text_excerpt_is_cut_at_150_witness :
  Service.TEXT_INSTEAD "I cannot combine these two images." =
    "The AI returned text instead of an image. Response: " ++
    JS.dq ++ "I cannot combine these two images." ++ "..." ++ JS.dq.
Proof.
  apply (proj1 (text_excerpt_is_cut_at_150 "I cannot combine these two images.")).
  simpl. lia.
Defined.

End GatewayParts.

Section FenceInProse.

#[local] Arguments Ascii.eqb : simpl never.
#[local] Arguments JS.isWhiteSpace : simpl never.

(** No fence starts in a text without a backquote. *)
Lemma match_fenced_skips (p rest : string) :
  absent "`" p = true ->
  Service.match_fenced (p ++ rest) = Service.match_fenced rest.
Proof.
  induction p as [|c p IH]; intro H; [reflexivity|].
  cbn [absent] in H. apply andb_true_iff in H as [Hc Hp].
  apply negb_true_iff in Hc.
  cbn [append]. rewrite match_fenced_unfold.
  unfold Service.fence at 1. rewrite startsWith_cons.
  rewrite Ascii.eqb_sym, Hc. cbn [andb]. now apply IH.
Qed.

(** The body of a fenced block that is followed by more text. *)
Lemma match_fenced_block (lang s rest : string) :
  lang = EmptyString \/ lang = "json" ->
  JS.includes Service.fence s = false -> blank s = false ->
  Service.match_fenced
    (Service.fence ++ lang ++ JS.nl ++ s ++ JS.nl ++ Service.fence ++ rest) =
  Some (JS.trim s).
Proof.
  intros Hlang Hi Hb.
  assert (E : Service.greedy_space (s ++ JS.nl ++ Service.fence ++ rest) =
              Some (JS.trim s)).
  { now apply greedy_space_to_fence. }
  assert (G : Service.greedy_space (JS.nl ++ s ++ JS.nl ++ Service.fence ++ rest) =
              Some (JS.trim s)).
  { change (JS.nl ++ s ++ JS.nl ++ Service.fence ++ rest)
      with (String (ascii_of_nat 10) (s ++ JS.nl ++ Service.fence ++ rest)).
    cbn [Service.greedy_space].
    replace (JS.isWhiteSpace (ascii_of_nat 10)) with true by reflexivity.
    now rewrite E. }
  rewrite match_fenced_unfold.
  replace (JS.startsWith Service.fence
             (Service.fence ++ lang ++ JS.nl ++ s ++ JS.nl ++ Service.fence ++ rest))
    with true by reflexivity.
  replace (JS.drop 3 (Service.fence ++ lang ++ JS.nl ++ s ++ JS.nl ++ Service.fence ++ rest))
    with (lang ++ JS.nl ++ s ++ JS.nl ++ Service.fence ++ rest) by reflexivity.
  unfold Service.after_fence.
  destruct Hlang as [-> | ->].
  - replace (JS.startsWith "json"
               (EmptyString ++ JS.nl ++ s ++ JS.nl ++ Service.fence ++ rest))
      with false by reflexivity.
    cbn [append]. change (String (ascii_of_nat 10) (s ++ JS.nl ++ Service.fence ++ rest))
      with (JS.nl ++ s ++ JS.nl ++ Service.fence ++ rest).
    now rewrite G.
  - replace (JS.startsWith "json"
               ("json" ++ JS.nl ++ s ++ JS.nl ++ Service.fence ++ rest))
      with true by reflexivity.
    replace (JS.drop 4 ("json" ++ JS.nl ++ s ++ JS.nl ++ Service.fence ++ rest))
      with (JS.nl ++ s ++ JS.nl ++ Service.fence ++ rest) by reflexivity.
    now rewrite G.
Qed.

(** X9. [parseJsonFromMarkdown] reads the first fenced block of a reply and
    nothing else: for a text with no fence in it and not blank, wrapped in a
    fenced block with the tag [json] or none, any prose without a backquote
    before the block and any text at all after it leave the parsed value
    what it is for the text alone. *)
Theorem fenced_block_in_prose (before lang s after : string) :
  lang = EmptyString \/ lang = "json" ->
  absent "`" before = true ->
  JS.includes Service.fence s = false ->
  blank s = false ->
  Service.parseJsonFromMarkdown (before ++ fenced lang s ++ after) =
  Service.parseJsonFromMarkdown s.
Proof.
  intros Hlang Hbefore Hi Hb.
  unfold Service.parseJsonFromMarkdown, Service.jsonString.
  rewrite (match_fenced_skips before _ Hbefore).
  unfold fenced. rewrite !app_assoc_string.
  rewrite (match_fenced_block lang s after Hlang Hi Hb).
  rewrite (trim_not_blank s Hb), trim_idempotent.
  now rewrite (match_fenced_none s Hi).
Qed.

Lemma fenced_block_in_prose_witness :
  Service.parseJsonFromMarkdown
    ("Here are the details:" ++ JS.nl ++ fenced "json" chairDetails ++ JS.nl ++
     "A second block:" ++ JS.nl ++ fenced "json" "[1, 2]") =
  Service.parseJsonFromMarkdown chairDetails.
Proof.
  apply (fenced_block_in_prose ("Here are the details:" ++ JS.nl) "json" chairDetails
           (JS.nl ++ "A second block:" ++ JS.nl ++ fenced "json" "[1, 2]"));
    [right| | |]; reflexivity.
Defined.

End FenceInProse.

(* ===================================================================== *)
(** ** More properties of the handlers of the page *)
(* ===================================================================== *)

Section PageHandlers.

Lemma exec_generate (env : Env) (req : Service.Request)
  (next : JS.outcome Service.GenerateContentResponse -> Task) (w : World) :
  exec env (GenerateContent req next) w =
  (fst (exec env (next (generateContent env req)) w),
   Sent req (app w) :: snd (exec env (next (generateContent env req)) w)).
Proof.
  cbn [exec]. now destruct (exec env (next (generateContent env req)) w).
Qed.

Lemma exec_draw (env : Env) (ops : list CanvasOp) (next : Task) (w : World) :
  exec env (Draw ops next) w =
  (fst (exec env next w), Drawn ops :: snd (exec env next w)).
Proof.
  cbn [exec]. now destruct (exec env next w).
Qed.

Lemma exec_encode (env : Env) (mime : string) (next : string -> Task) (w : World) :
  exec env (ToDataURL mime next) w = exec env (next (encode env mime)) w.
Proof. reflexivity. Qed.

(** X10. Without a primary image, [handleGenerateMoodboard] sends no request
    and only sets the error that asks for an upload: the loading flag, the
    shown result and every other cell stay as they are. *)
Theorem generate_without_image_only_reports (env : Env) (w : World) :
  primaryImageFile (app w) = None ->
  let w' := fst (fire env handleGenerateMoodboard w) in
  snd (fire env handleGenerateMoodboard w) = [] /\
  error (app w') = Some "Please upload the primary image first." /\
  generatedResult (app w') = generatedResult (app w) /\
  isLoading (app w') = isLoading (app w) /\
  uploadCells (app w') = uploadCells (app w) /\
  inputCells (app w') = inputCells (app w) /\
  elementCells (app w') = elementCells (app w) /\
  enhanceCells (app w') = enhanceCells (app w) /\
  similarCells (app w') = similarCells (app w) /\
  compositeCells (app w') = compositeCells (app w) /\
  objectURLs w' = objectURLs w.
Proof.
  intros H w'. subst w'. unfold fire, handleGenerateMoodboard. rewrite H.
  cbn [exec fst snd app objectURLs]. repeat split.
Qed.

Lemma generate_without_image_only_reports_witness :
  snd (fire quietEnv handleGenerateMoodboard {| app := initial; objectURLs := [] |}) = [] /\
  error (app (fst (fire quietEnv handleGenerateMoodboard
                     {| app := initial; objectURLs := [] |}))) =
    Some "Please upload the primary image first.".
Proof.
  destruct (generate_without_image_only_reports quietEnv
              {| app := initial; objectURLs := [] |} eq_refl) as (H1 & H2 & _).
  split; [exact H1|exact H2].
Defined.

(** X11. With a primary image, [handleGenerateMoodboard] always ends with
    the loading flag down and with either a result and no error, or an
    error and no result: the result of [generateMoodboard] when the file was
    read and the service returned, the message of the failure otherwise
    (a fixed message when what was thrown is no [Error]).  The element
    details, the click position and the similar items are gone; the
    uploads, the inputs and the cells of the composite are untouched. *)
Theorem generate_ends_with_result_or_error (env : Env) (w : World) (file : File) :
  primaryImageFile (app w) = Some file ->
  let final := app (fst (fire env handleGenerateMoodboard w)) in
  let outcome :=
    base64 <- readFile env file ;;
    Service.settle (Service.generateMoodboard base64 (fileType file) (finalPrompt (app w)))
      (generateContent env
         (moodboardRequest base64 (fileType file) (finalPrompt (app w)))) in
  isLoading final = false /\
  match outcome with
  | JS.Returned result => generatedResult final = Some result /\ error final = None
  | JS.Threw e =>
      generatedResult final = None /\
      error final = Some (messageOf e "Moodboard generation failed.")
  end /\
  elementDetailsResult final = None /\ clickPosition final = None /\
  similarItems final = None /\
  elementError final = None /\ enhancementError final = None /\
  findSimilarError final = None /\
  uploadCells final = uploadCells (app w) /\
  inputCells final = inputCells (app w) /\
  compositeCells final = compositeCells (app w).
Proof.
  intros H final outcome. subst final outcome.
  unfold fire, handleGenerateMoodboard. rewrite H. cbn [exec].
  destruct (readFile env file) as [base64|e]; cbn [JS.bind].
  - rewrite exec_generate. cbn [fst].
    change (Service.request (Service.generateMoodboard base64 (fileType file)
                               (finalPrompt (app w))))
      with (moodboardRequest base64 (fileType file) (finalPrompt (app w))).
    destruct (Service.settle _ _) as [result|e]; cbn [exec fst app]; repeat split.
  - repeat split.
Qed.

Lemma generate_ends_with_result_or_error_witness :
  isLoading (app (fst (fire quietEnv handleGenerateMoodboard foodPage))) = false /\
  generatedResult (app (fst (fire quietEnv handleGenerateMoodboard foodPage))) =
    Some {| Service.imageUrl := Some "data:image/png;base64,QUJD";
            Service.resultText := Some "A warm, rustic board.";
            Service.colors := [] |}.
Proof.
  destruct (generate_ends_with_result_or_error quietEnv foodPage dishFile eq_refl)
    as (H1 & H2 & _).
  split; [exact H1|]. exact (proj1 H2).
Defined.

Section Padding.

#[local] Arguments JS.isWhiteSpace : simpl never.

Lemma trimEnd_app_blank (s v : string) :
  blank v = true -> JS.trimEnd (s ++ v) = JS.trimEnd s.
Proof.
  intro Hv. induction s as [|c s IH]; cbn [append JS.trimEnd].
  - now apply trimEnd_blank.
  - now rewrite IH.
Qed.

Lemma trimStart_app_not_blank (s v : string) :
  blank s = false -> JS.trimStart (s ++ v) = JS.trimStart s ++ v.
Proof.
  induction s as [|c s IH]; intro H; [discriminate H|].
  cbn [append JS.trimStart blank] in *.
  destruct (JS.isWhiteSpace c); [now apply IH|reflexivity].
Qed.

Lemma trim_padded (u s v : string) :
  blank u = true -> blank v = true -> JS.trim (u ++ s ++ v) = JS.trim s.
Proof.
  intros Hu Hv. unfold JS.trim. rewrite (trimStart_blank_app u _ Hu).
  destruct (blank s) eqn:Hs.
  - rewrite (trimStart_blank s Hs), trimStart_blank; [reflexivity|].
    now rewrite blank_app, Hs, Hv.
  - rewrite (trimStart_app_not_blank s v Hs). now apply trimEnd_app_blank.
Qed.

End Padding.

(** X12. The prompt of a mood board does not depend on white space around
    the instructions of the user, nor on the custom type unless the image
    type is OTHER; with the type OTHER, a custom type that is not empty is
    the category that the header names. *)
Theorem prompt_ignores_padding_and_unused_type
  (st : AppState) (before after custom : string) :
  blank before = true -> blank after = true ->
  finalPrompt (setUserPrompt (before ++ userPrompt st ++ after) st) = finalPrompt st /\
  (imageType st <> "OTHER" ->
     finalPrompt (setCustomImageType custom st) = finalPrompt st) /\
  (imageType st = "OTHER" -> custom <> EmptyString ->
     JS.startsWith (categoryHeader custom)
       (finalPrompt (setCustomImageType custom st)) = true).
Proof.
  intros Hb Ha. split; [|split].
  - unfold finalPrompt, finalImageType.
    cbn [userPrompt imageType customImageType setUserPrompt].
    now rewrite (trim_padded before (userPrompt st) after Hb Ha).
  - intro H. apply String.eqb_neq in H.
    unfold finalPrompt, finalImageType.
    cbn [userPrompt imageType customImageType setCustomImageType].
    now rewrite H.
  - intros H Hc. unfold finalPrompt, finalImageType.
    cbn [userPrompt imageType customImageType setCustomImageType].
    rewrite H. replace ("OTHER" =? "OTHER") with true by reflexivity.
    assert (Ht : JS.truthy custom = true) by (destruct custom; [contradiction|reflexivity]).
    rewrite Ht. cbn [andb].
    assert (P : forall a b, JS.startsWith a (a ++ b) = true).
    { induction a as [|c a IH]; intro b; [reflexivity|].
      cbn [append]. rewrite startsWith_cons, Ascii.eqb_refl. apply IH. }
    destruct (JS.truthy (JS.trim (userPrompt st))); [|apply P].
    rewrite app_assoc_string. apply P.
Qed.

Lemma prompt_ignores_padding_and_unused_type_witness :
  finalPrompt (setUserPrompt ("  " ++ userPrompt (app pageWithBoard) ++ " ")
                 (app pageWithBoard)) =
  finalPrompt (app pageWithBoard).
Proof.
  apply (proj1 (prompt_ignores_padding_and_unused_type (app pageWithBoard)
                  "  " " " "Vintage car" eq_refl eq_refl)).
Defined.

(** X13. An upload in the second slot stores the file and a preview that is
    an object URL of it, and touches nothing else: the primary image, the
    mood board, the element details and an earlier composite all stay. *)
Theorem secondary_upload_keeps_results (env : Env) (file : File) (w : World) :
  let w' := fst (fire env (handleSecondaryImageUpload file) w) in
  secondaryImageFile (app w') = Some file /\
  (exists url, secondaryImagePreview (app w') = Some url /\
               resolve (objectURLs w') url = Some file) /\
  primaryImageFile (app w') = primaryImageFile (app w) /\
  primaryImagePreview (app w') = primaryImagePreview (app w) /\
  inputCells (app w') = inputCells (app w) /\
  moodboardCells (app w') = moodboardCells (app w) /\
  elementCells (app w') = elementCells (app w) /\
  enhanceCells (app w') = enhanceCells (app w) /\
  similarCells (app w') = similarCells (app w) /\
  compositeCells (app w') = compositeCells (app w).
Proof.
  unfold fire, handleSecondaryImageUpload. cbn [exec fst app objectURLs].
  repeat split.
  exists (freshUrl w). split; [reflexivity|].
  cbn [resolve]. now rewrite String.eqb_refl.
Qed.

(** X14. For the types of the selector, [handleImageTypeChange] sets the new
    type; it empties the second slot exactly when the current type has two
    slots and the new one has one; and it touches no result: an earlier
    mood board or composite stays as it is. *)
Theorem type_change_clears_second_slot (env : Env) (newType : string) (w : World) :
  In (imageType (app w)) imageTypeValues ->
  In newType imageTypeValues ->
  exists task,
    Page.handleImageTypeChange newType (app w) = Some task /\
    let final := app (fst (exec env task w)) in
    snd (exec env task w) = [] /\
    imageType final = newType /\
    (if twoImages (imageType (app w)) && negb (twoImages newType)
     then secondaryImageFile final = None /\ secondaryImagePreview final = None
     else secondaryImageFile final = secondaryImageFile (app w) /\
          secondaryImagePreview final = secondaryImagePreview (app w)) /\
    primaryImageFile final = primaryImageFile (app w) /\
    primaryImagePreview final = primaryImagePreview (app w) /\
    customImageType final = customImageType (app w) /\
    userPrompt final = userPrompt (app w) /\
    moodboardCells final = moodboardCells (app w) /\
    elementCells final = elementCells (app w) /\
    enhanceCells final = enhanceCells (app w) /\
    similarCells final = similarCells (app w) /\
    compositeCells final = compositeCells (app w).
Proof.
  intros Hcur Hnew. unfold Page.handleImageTypeChange.
  cbn in Hcur, Hnew.
  repeat (destruct Hcur as [Hcur|Hcur]; [|]); try contradiction;
    rewrite <- Hcur;
    repeat (destruct Hnew as [Hnew|Hnew]; [|]); try contradiction;
    rewrite <- Hnew;
    (eexists; split; [reflexivity|]);
    cbn [exec fst snd app]; repeat split.
Qed.

Lemma type_change_clears_second_slot_witness :
  exists task,
    Page.handleImageTypeChange "FOOD" (app pageWithComposite) = Some task /\
    secondaryImageFile (app (fst (exec quietEnv task pageWithComposite))) = None /\
    compositeResultUrl (app (fst (exec quietEnv task pageWithComposite))) =
      Some "data:image/png;base64,AAAA".
Proof.
  destruct (type_change_clears_second_slot quietEnv "FOOD" pageWithComposite)
    as (task & Htask & _ & _ & Hclear & _ & _ & _ & _ & _ & _ & _ & _ & Hcomposite).
  - left. reflexivity.
  - do 4 right. left. reflexivity.
  - exists task. split; [exact Htask|]. split.
    + exact (proj1 Hclear).
    + exact (f_equal (fun cells => fst (fst cells)) Hcomposite).
Defined.

(** X15. A new type that is no key of the table of the upload slots is
    accepted when the current type has one slot, because the entry of the
    new type is then not read.  When the current type has two slots the
    entry is read: under a name that every object inherits, such as
    [constructor], it has no [showSecondary], so that the second slot is
    emptied and the type set; under any other name it is undefined and the
    handler throws before any setter.  A current type that is no key of the
    table makes the handler throw likewise, unless it is an inherited name,
    under which the new type is simply set. *)
Theorem type_change_reads_the_table_lazily (newType : string) (st : AppState) :
  Page.configOf Page.uploaderConfig newType = None ->
  (In (imageType st) imageTypeValues -> twoImages (imageType st) = false ->
     Page.handleImageTypeChange newType st = Some (Update (setImageType newType) Done)) /\
  (twoImages (imageType st) = true ->
     Page.handleImageTypeChange newType st =
       if Page.inherited newType
       then Some (Update (run [ setSecondaryImageFile None;
                                setSecondaryImagePreview None ])
                    (Update (setImageType newType) Done))
       else None) /\
  (Page.configOf Page.uploaderConfig (imageType st) = None ->
     Page.handleImageTypeChange newType st =
       if Page.inherited (imageType st)
       then Some (Update (setImageType newType) Done)
       else None).
Proof.
  intro Hnew.
  assert (E : Page.showSecondaryAt newType =
              if Page.inherited newType then Some false else None).
  { unfold Page.showSecondaryAt. now rewrite Hnew. }
  unfold Page.handleImageTypeChange. rewrite E. split; [|split].
  - intros Hin Htwo. cbn in Hin.
    repeat (destruct Hin as [Hin|Hin]; [|]); try contradiction;
      rewrite <- Hin in *; try discriminate Htwo; reflexivity.
  - intro Htwo. unfold twoImages in Htwo. apply orb_true_iff in Htwo.
    destruct Htwo as [H|H]; apply String.eqb_eq in H; rewrite H;
      destruct (Page.inherited newType); reflexivity.
  - intros Hcur. unfold Page.showSecondaryAt. rewrite Hcur.
    now destruct (Page.inherited (imageType st)).
Qed.

Lemma type_change_reads_the_table_lazily_witness :
  Page.handleImageTypeChange "SKETCH" (app foodPage) =
    Some (Update (setImageType "SKETCH") Done) /\
  Page.handleImageTypeChange "SKETCH" (app pageWithComposite) = None /\
  Page.handleImageTypeChange "constructor" (app pageWithComposite) =
    Some (Update (run [ setSecondaryImageFile None; setSecondaryImagePreview None ])
            (Update (setImageType "constructor") Done)).
Proof.
  destruct (type_change_reads_the_table_lazily "SKETCH" (app foodPage) eq_refl)
    as (H1 & _ & _).
  destruct (type_change_reads_the_table_lazily "SKETCH" (app pageWithComposite) eq_refl)
    as (_ & H2 & _).
  destruct (type_change_reads_the_table_lazily "constructor" (app pageWithComposite)
              eq_refl) as (_ & H3 & _).
  split; [apply H1; [do 4 right; left|]; reflexivity|].
  split; [exact (H2 eq_refl)|exact (H3 eq_refl)].
Defined.

End PageHandlers.

Section CompositeAndClick.

(** The request of a composite: the primary image, the secondary image and
    the prompt, in this order. *)
Lemma two_images_types (t : string) :
  twoImages t = true -> t = "FASHION/OUTFIT" \/ t = "PRODUCT".
Proof.
  unfold twoImages. intro H. apply orb_true_iff in H.
  destruct H as [H|H]; apply String.eqb_eq in H; auto.
Qed.

(** X16. [handleGenerateComposite] does nothing for a type of the selector
    with one upload slot; for a type with two slots and an image missing it
    sends no request and only sets the error that asks for both images, so
    that an earlier composite stays on the page. *)
Theorem composite_is_guarded (env : Env) (w : World) :
  (In (imageType (app w)) imageTypeValues -> twoImages (imageType (app w)) = false ->
     Page.handleGenerateComposite (app w) = Some Done) /\
  (twoImages (imageType (app w)) = true ->
   primaryImageFile (app w) = None \/ secondaryImageFile (app w) = None ->
     exists task,
       Page.handleGenerateComposite (app w) = Some task /\
       snd (exec env task w) = [] /\
       let final := app (fst (exec env task w)) in
       compositeError final = Some "Please upload both images first." /\
       compositeResultUrl final = compositeResultUrl (app w) /\
       isGeneratingComposite final = isGeneratingComposite (app w) /\
       uploadCells final = uploadCells (app w) /\
       inputCells final = inputCells (app w) /\
       moodboardCells final = moodboardCells (app w) /\
       elementCells final = elementCells (app w) /\
       enhanceCells final = enhanceCells (app w) /\
       similarCells final = similarCells (app w)).
Proof.
  unfold Page.handleGenerateComposite. split.
  - intros Hin Htwo. cbn in Hin.
    repeat (destruct Hin as [Hin|Hin]; [|]); try contradiction;
      rewrite <- Hin in *; try discriminate Htwo; reflexivity.
  - intros Htwo Hmissing.
    exists (Update (setCompositeError (Some "Please upload both images first.")) Done).
    split.
    + destruct (two_images_types _ Htwo) as [E|E]; rewrite E;
        cbn [Page.configOf Page.uploaderConfig String.eqb Ascii.eqb Bool.eqb
             Page.showSecondary negb];
        destruct Hmissing as [-> | ->]; [reflexivity| |reflexivity|];
        now destruct (primaryImageFile (app w)).
    + cbn [exec fst snd app]. repeat split.
Qed.

Lemma composite_is_guarded_witness :
  Page.handleGenerateComposite (app foodPage) = Some Done /\
  exists task,
    Page.handleGenerateComposite (setSecondaryImageFile None (app pageWithComposite)) =
      Some task /\
    compositeResultUrl
      (app (fst (exec quietEnv task
                   {| app := setSecondaryImageFile None (app pageWithComposite);
                      objectURLs := [] |}))) =
      Some "data:image/png;base64,AAAA".
Proof.
  split.
  - apply (proj1 (composite_is_guarded quietEnv foodPage));
      [do 4 right; left|]; reflexivity.
  - destruct (proj2 (composite_is_guarded quietEnv
                       {| app := setSecondaryImageFile None (app pageWithComposite);
                          objectURLs := [] |}) eq_refl (or_intror eq_refl))
      as (task & Htask & _ & _ & Hurl & _).
    exists task. split; [exact Htask|exact Hurl].
Defined.

(** X26. After a new primary image, a composite cannot be generated until a
    second image is uploaded again: the upload empties the second slot, so
    that [handleGenerateComposite] sends no request and only asks for both
    images. *)
Theorem composite_after_new_primary_needs_second_image
  (env : Env) (file : File) (w : World) :
  twoImages (imageType (app w)) = true ->
  let uploaded := fst (fire env (handlePrimaryImageUpload file) w) in
  exists task,
    Page.handleGenerateComposite (app uploaded) = Some task /\
    snd (exec env task uploaded) = [] /\
    compositeError (app (fst (exec env task uploaded))) =
      Some "Please upload both images first." /\
    compositeResultUrl (app (fst (exec env task uploaded))) = None.
Proof.
  intros Htwo uploaded. subst uploaded.
  unfold fire, handlePrimaryImageUpload. cbn [exec fst app objectURLs].
  exists (Update (setCompositeError (Some "Please upload both images first.")) Done).
  split; [|repeat split].
  unfold Page.handleGenerateComposite, resetAllOutputs, run.
  cbn [fold_left imageType primaryImageFile secondaryImageFile
       setPrimaryImageFile setPrimaryImagePreview setSecondaryImageFile
       setSecondaryImagePreview setGeneratedResult setElementDetailsResult
       setClickPosition setError setElementError setEnhancementError
       setSimilarItems setFindSimilarError setCompositeResultUrl setCompositeError].
  destruct (two_images_types _ Htwo) as [E|E]; rewrite E; reflexivity.
Qed.

Lemma composite_after_new_primary_needs_second_image_witness :
  exists task,
    Page.handleGenerateComposite
      (app (fst (fire quietEnv (handlePrimaryImageUpload dishFile) pageWithComposite))) =
      Some task /\
    snd (exec quietEnv task
           (fst (fire quietEnv (handlePrimaryImageUpload dishFile) pageWithComposite))) = [].
Proof.
  destruct (composite_after_new_primary_needs_second_image quietEnv dishFile
              pageWithComposite eq_refl) as (task & Htask & Htrace & _).
  exists task. split; [exact Htask|exact Htrace].
Defined.

(** X17. With two upload slots, both images present and both files read,
    [handleGenerateComposite] sends one request: the primary image, then
    the secondary image, then the prompt of the image type.  When it is
    sent the page shows no composite and no composite error, and the flag
    of the composite is up; at the end the flag is down, with the URL that
    [generateCompositeImage] returned, or else its error and no URL.  The
    mood board and the element details are not touched. *)
Theorem composite_sends_both_images_in_order
  (env : Env) (w : World) (primary secondary : File) (b1 b2 : string) :
  twoImages (imageType (app w)) = true ->
  primaryImageFile (app w) = Some primary ->
  secondaryImageFile (app w) = Some secondary ->
  readFile env primary = JS.Returned b1 ->
  readFile env secondary = JS.Returned b2 ->
  let call :=
    Service.generateCompositeImage b1 (fileType primary) b2 (fileType secondary)
      (Page.compositePrompt (imageType (app w))) in
  let req :=
    {| Service.model := Service.IMAGE_MODEL;
       Service.contents :=
         Service.OfParts
           [ Service.imagePart b1 (fileType primary);
             Service.imagePart b2 (fileType secondary);
             Service.textPart (Page.compositePrompt (imageType (app w))) ];
       Service.config := Service.responseModalities [Service.IMAGE; Service.TEXT] |} in
  exists task shown,
    Page.handleGenerateComposite (app w) = Some task /\
    snd (exec env task w) = [Sent req shown] /\
    compositeCells shown = (None, true, None) /\
    moodboardCells shown = moodboardCells (app w) /\
    let final := app (fst (exec env task w)) in
    isGeneratingComposite final = false /\
    match Service.settle call (generateContent env req) with
    | JS.Returned url =>
        compositeResultUrl final = Some url /\ compositeError final = None
    | JS.Threw e =>
        compositeResultUrl final = None /\
        compositeError final = Some (messageOf e "Composite image generation failed.")
    end /\
    uploadCells final = uploadCells (app w) /\
    inputCells final = inputCells (app w) /\
    moodboardCells final = moodboardCells (app w) /\
    elementCells final = elementCells (app w) /\
    enhanceCells final = enhanceCells (app w) /\
    similarCells final = similarCells (app w).
Proof.
  intros Htwo Hp Hs Hr1 Hr2 call req.
  assert (Ereq : req = Service.request call) by reflexivity.
  clearbody req. subst req. subst call.
  unfold Page.handleGenerateComposite. rewrite Hp, Hs.
  assert (Hprompt : JS.truthy (Page.compositePrompt (imageType (app w))) = true).
  { destruct (two_images_types _ Htwo) as [E|E]; rewrite E; vm_compute; reflexivity. }
  assert (Hconfig : Page.showSecondaryAt (imageType (app w)) = Some true).
  { destruct (two_images_types _ Htwo) as [E|E]; rewrite E; reflexivity. }
  rewrite Hconfig. cbn [negb]. rewrite Hprompt.
  eexists. eexists. split; [reflexivity|].
  cbn [exec]. rewrite Hr1. cbn [exec]. rewrite Hr2.
  rewrite exec_generate. cbn [fst snd app].
  match goal with
  | |- context [Service.settle ?c ?r] => destruct (Service.settle c r) as [url|e]
  end; cbn [exec fst snd app]; (split; [reflexivity|]); repeat split.
Qed.

Lemma composite_sends_both_images_in_order_witness :
  exists task shown,
    Page.handleGenerateComposite (app pageWithComposite) = Some task /\
    snd (exec quietEnv task pageWithComposite) =
      [ Sent {| Service.model := Service.IMAGE_MODEL;
                Service.contents :=
                  Service.OfParts
                    [ Service.imagePart "QUJD" "image/jpeg";
                      Service.imagePart "QUJD" "image/jpeg";
                      Service.textPart Page.FASHION_PROMPT ];
                Service.config :=
                  Service.responseModalities [Service.IMAGE; Service.TEXT] |} shown ] /\
    compositeCells shown = (None, true, None).
Proof.
  destruct (composite_sends_both_images_in_order quietEnv pageWithComposite
              outfitFile portraitFile "QUJD" "QUJD"
              eq_refl eq_refl eq_refl eq_refl eq_refl)
    as (task & shown & Htask & Htrace & Hshown & _).
  exists task, shown. split; [exact Htask|]. split; [exact Htrace|exact Hshown].
Defined.

(** X18. A click does nothing when no mood board is shown.  When the canvas
    gives no context, or when the image of the mood board fails to load,
    the click sends no request and draws nothing: it leaves the error of
    that failure with the loading flag down, and the earlier element details
    and similar items are gone; the position of the click is kept in the
    first case and cleared in the second. *)
Theorem click_fails_without_board_or_canvas (env : Env) (w : World) (event : Click) :
  (ResultDisplay.hasMoodboardResult (app w) = None ->
     fire env (handleImageClick event) w = (w, [])) /\
  (forall url,
     ResultDisplay.hasMoodboardResult (app w) = Some url ->
     context2d env = false \/ loadImage env url = None ->
     let final := app (fst (fire env (handleImageClick event) w)) in
     snd (fire env (handleImageClick event) w) = [] /\
     isElementLoading final = false /\
     elementDetailsResult final = None /\
     similarItems final = None /\ findSimilarError final = None /\
     (context2d env = false ->
        elementError final = Some "Could not process image click." /\
        clickPosition final = Some (offsetX event, offsetY event)) /\
     (context2d env = true ->
        elementError final = Some "Could not load image to process click." /\
        clickPosition final = None) /\
     moodboardCells final = moodboardCells (app w) /\
     compositeCells final = compositeCells (app w)).
Proof.
  unfold ResultDisplay.hasMoodboardResult, fire, handleImageClick. split.
  - intro H. destruct w as [st urls]. cbn [app] in *.
    destruct (generatedResult st) as [shown|]; [|reflexivity].
    destruct (Service.imageUrl shown) as [url|]; [|reflexivity].
    destruct (JS.truthy url); [discriminate H|reflexivity].
  - intros url H Hfail.
    destruct (generatedResult (app w)) as [shown|]; [|discriminate H].
    destruct (Service.imageUrl shown) as [url'|]; [|discriminate H].
    destruct (JS.truthy url'); [|discriminate H].
    injection H as ->. cbn [negb exec].
    destruct (context2d env) eqn:Hctx; cbn [negb exec].
    + destruct Hfail as [Hfail|Hfail]; [discriminate Hfail|].
      rewrite Hfail. cbn [exec fst snd app]. repeat split; discriminate.
    + cbn [exec fst snd app]. repeat split; discriminate.
Qed.

Lemma click_fails_without_board_or_canvas_witness :
  fire quietEnv (handleImageClick sampleClick) foodPage = (foodPage, []) /\
  elementError
    (app (fst (fire {| readFile := readFile quietEnv;
                       generateContent := generateContent quietEnv;
                       context2d := false;
                       loadImage := loadImage quietEnv;
                       encode := encode quietEnv |}
                 (handleImageClick sampleClick) pageWithBoard))) =
    Some "Could not process image click.".
Proof.
  split.
  - apply (proj1 (click_fails_without_board_or_canvas quietEnv foodPage sampleClick)).
    reflexivity.
  - destruct (proj2 (click_fails_without_board_or_canvas
                       {| readFile := readFile quietEnv;
                          generateContent := generateContent quietEnv;
                          context2d := false;
                          loadImage := loadImage quietEnv;
                          encode := encode quietEnv |} pageWithBoard sampleClick)
                boardUrl eq_refl (or_introl eq_refl))
      as (_ & _ & _ & _ & _ & H & _).
    exact (proj1 (H eq_refl)).
Defined.

(** X19. A click on a shown mood board, with a canvas and a loaded image,
    draws the marker and then sends one request for the details of the
    marked copy, as a JPEG.  When the request is sent the page shows the
    position of the click with the loading flag up, and no element details,
    similar items or errors of an earlier click; at the end the flag is
    down, with the details that [getElementDetails] returned, or else its
    error.  The mood board itself and the composite are not touched. *)
Theorem click_ends_with_details_or_error
  (env : Env) (w : World) (event : Click) (url : string) (size : float * float) :
  ResultDisplay.hasMoodboardResult (app w) = Some url ->
  context2d env = true ->
  loadImage env url = Some size ->
  let call := Service.getElementDetails (encode env MARKER_MIME) MARKER_MIME in
  exists shown,
    snd (fire env (handleImageClick event) w) =
      [ Drawn (markerDrawing (fst size) (snd size)
                 (fst (scaledCoordinate event)) (snd (scaledCoordinate event)));
        Sent (Service.request call) shown ] /\
    elementCells shown = (None, true, None, Some (offsetX event, offsetY event)) /\
    similarItems shown = None /\ findSimilarError shown = None /\
    let final := app (fst (fire env (handleImageClick event) w)) in
    isElementLoading final = false /\
    match Service.settle call (generateContent env (Service.request call)) with
    | JS.Returned result =>
        elementDetailsResult final = Some result /\ elementError final = None
    | JS.Threw e =>
        elementDetailsResult final = None /\
        elementError final = Some (messageOf e "Failed to get details.")
    end /\
    clickPosition final = Some (offsetX event, offsetY event) /\
    moodboardCells final = moodboardCells (app w) /\
    compositeCells final = compositeCells (app w) /\
    uploadCells final = uploadCells (app w).
Proof.
  intros H Hctx Hload call. subst call.
  unfold ResultDisplay.hasMoodboardResult in H. unfold fire, handleImageClick.
  destruct (generatedResult (app w)) as [board|]; [|discriminate H].
  destruct (Service.imageUrl board) as [url'|]; [|discriminate H].
  destruct (JS.truthy url'); [|discriminate H].
  injection H as ->. cbn [negb exec]. rewrite Hctx. cbn [negb exec]. rewrite Hload.
  destruct size as [imgWidth imgHeight].
  cbv beta iota. rewrite exec_draw, exec_encode, exec_generate.
  cbn [fst snd app].
  match goal with
  | |- context [Service.settle ?c ?r] => destruct (Service.settle c r) as [result|e]
  end; cbn [exec fst snd app]; (eexists; split; [reflexivity|]); repeat split.
Qed.

Lemma click_ends_with_details_or_error_witness :
  exists shown,
    snd (fire quietEnv (handleImageClick sampleClick) pageWithBoard) =
      [ Drawn (markerDrawing 1024%float 1024%float
                 (fst (scaledCoordinate sampleClick)) (snd (scaledCoordinate sampleClick)));
        Sent (Service.request (Service.getElementDetails "QUJD" MARKER_MIME)) shown ] /\
    elementCells shown =
      (None, true, None, Some (offsetX sampleClick, offsetY sampleClick)).
Proof.
  destruct (click_ends_with_details_or_error quietEnv pageWithBoard sampleClick boardUrl
              (1024%float, 1024%float) eq_refl eq_refl eq_refl)
    as (shown & Htrace & Hcells & _).
  exists shown. split; [exact Htrace|exact Hcells].
Defined.

(** X20. The disc of the marker has a radius of five pixels at least: it is
    five, or one hundredth of the width of the image when that is more. *)
Theorem marker_radius_is_five_or_more (imgWidth imgHeight x y : float) :
  PrimFloat.is_nan (PrimFloat.mul imgWidth 0.01%float) = false ->
  exists radius,
    In (Arc x y radius 0%float TWO_PI false) (markerDrawing imgWidth imgHeight x y) /\
    (radius = 5%float \/
     radius = PrimFloat.mul imgWidth 0.01%float /\ PrimFloat.ltb 5%float radius = true).
Proof.
  intro Hnan. exists (Math_max 5%float (PrimFloat.mul imgWidth 0.01%float)).
  split.
  - unfold markerDrawing. do 3 right. left. reflexivity.
  - unfold Math_max. rewrite Hnan.
    replace (PrimFloat.is_nan 5%float) with false by reflexivity. cbn [orb].
    destruct (PrimFloat.ltb 5%float (PrimFloat.mul imgWidth 0.01%float)) eqn:E;
      [right; now split|].
    destruct (PrimFloat.ltb (PrimFloat.mul imgWidth 0.01%float) 5%float);
      [now left|].
    replace (PrimFloat.get_sign 5%float) with false by reflexivity. now left.
Qed.

Lemma marker_radius_is_five_or_more_witness :
  exists radius,
    In (Arc 1%float 2%float radius 0%float TWO_PI false)
       (markerDrawing 1024%float 768%float 1%float 2%float) /\
    (radius = 5%float \/
     radius = PrimFloat.mul 1024%float 0.01%float /\ PrimFloat.ltb 5%float radius = true).
Proof.
  apply (marker_radius_is_five_or_more 1024%float 768%float 1%float 2%float).
  reflexivity.
Defined.

End CompositeAndClick.

(* ===================================================================== *)
(** ** Data URLs, downloads and what the page shows *)
(* ===================================================================== *)

Section DataUrls.

#[local] Arguments Ascii.eqb : simpl never.

Lemma absent_app (c : ascii) (a b : string) :
  absent c (a ++ b) = absent c a && absent c b.
Proof.
  induction a as [|d a IH]; cbn [append absent]; [reflexivity|].
  now rewrite IH, andb_assoc.
Qed.

Lemma split_absent (sep : ascii) (a : string) :
  absent sep a = true -> Text.split sep a = [a].
Proof.
  induction a as [|d a IH]; intro H; [reflexivity|].
  cbn [absent] in H. apply andb_true_iff in H as [Hd Ha].
  apply negb_true_iff in Hd. cbn [Text.split]. now rewrite Hd, (IH Ha).
Qed.

Lemma split_at_first (sep : ascii) (a r : string) :
  absent sep a = true ->
  Text.split sep (a ++ String sep r) = a :: Text.split sep r.
Proof.
  induction a as [|d a IH]; intro H.
  - cbn [append Text.split]. now rewrite Ascii.eqb_refl.
  - cbn [absent] in H. apply andb_true_iff in H as [Hd Ha].
    apply negb_true_iff in Hd. cbn [append Text.split]. now rewrite Hd, (IH Ha).
Qed.

(** The media type and the payload that [handleEnhanceImage] reads off a
    data URL are those the URL was built from. *)
Lemma dataUrl_decoded (b : Service.Blob) :
  absent "," (Service.mimeType b) = true ->
  absent ":" (Service.mimeType b) = true ->
  absent ";" (Service.mimeType b) = true ->
  absent "," (Service.data b) = true ->
  Page.mimeTypeOf (Service.dataUrl b) = Some (Service.mimeType b) /\
  Page.base64DataOf (Service.dataUrl b) = Some (Service.data b).
Proof.
  intros Hcomma Hcolon Hsemi Hdata.
  assert (E : Text.split "," (Service.dataUrl b) =
              [ "data:" ++ Service.mimeType b ++ ";base64"; Service.data b ]).
  { unfold Service.dataUrl.
    replace ("data:" ++ Service.mimeType b ++ ";base64," ++ Service.data b)
      with (("data:" ++ Service.mimeType b ++ ";base64") ++ String "," (Service.data b)).
    - rewrite split_at_first, (split_absent _ _ Hdata); [reflexivity|].
      now rewrite !absent_app, Hcomma.
    - now rewrite !app_assoc_string. }
  unfold Page.mimeTypeOf, Page.base64DataOf. rewrite E.
  split; [|reflexivity].
  cbn [Text.first].
  change ("data:" ++ Service.mimeType b ++ ";base64")
    with ("data" ++ String ":" (Service.mimeType b ++ ";base64")).
  rewrite split_at_first by reflexivity.
  rewrite split_absent by (now rewrite absent_app, Hcolon).
  cbn [Text.second nth_error].
  change (Service.mimeType b ++ ";base64")
    with (Service.mimeType b ++ String ";" "base64").
  now rewrite (split_at_first _ _ _ Hsemi).
Qed.

(** The extension that [Text.fileType] reads off a data URL. *)
Lemma fileType_dataUrl (b : Service.Blob) (kind subtype : string) :
  Service.mimeType b = kind ++ "/" ++ subtype ->
  absent ";" kind = true -> absent "/" kind = true ->
  absent ";" subtype = true -> absent "/" subtype = true ->
  subtype <> EmptyString ->
  Text.fileType (Service.dataUrl b) = subtype.
Proof.
  intros Hm Hk1 Hk2 Hs1 Hs2 Hne.
  unfold Text.fileType, Service.dataUrl. rewrite Hm.
  replace ("data:" ++ (kind ++ "/" ++ subtype) ++ ";base64," ++ Service.data b)
    with (("data:" ++ kind ++ "/" ++ subtype) ++ String ";" ("base64," ++ Service.data b))
    by (now rewrite !app_assoc_string).
  rewrite split_at_first by (now rewrite !absent_app, Hk1, Hs1).
  cbn [Text.first].
  replace ("data:" ++ kind ++ "/" ++ subtype)
    with (("data:" ++ kind) ++ String "/" subtype)
    by (now rewrite !app_assoc_string).
  rewrite split_at_first by (now rewrite absent_app, Hk2).
  rewrite (split_absent _ _ Hs2). cbn [Text.second nth_error JS.or_else].
  now destruct subtype; [contradiction|].
Qed.

(** X21. On a mood board whose image is a data URL as the service builds
    them, [handleEnhanceImage] sends for enhancement the very media type
    and payload that the URL was built from.  It ends with its flag down;
    the enhanced image is downloaded under a name with the time and the
    extension of its URL, and is never stored: the mood board that is shown
    stays the same.  A failure leaves its message and downloads nothing. *)
Theorem enhance_sends_the_shown_image
  (env : Env) (now : N) (typeError : string) (st : AppState)
  (shown : Service.GeneratedResult) (b : Service.Blob) :
  generatedResult st = Some shown ->
  Service.imageUrl shown = Some (Service.dataUrl b) ->
  absent "," (Service.mimeType b) = true ->
  absent ":" (Service.mimeType b) = true ->
  absent ";" (Service.mimeType b) = true ->
  absent "," (Service.data b) = true ->
  let call := Service.enhanceImageTo8K (Service.data b) (Service.mimeType b) in
  exists final effects,
    Page.handleEnhanceImage env now typeError st = Some (final, effects) /\
    match Service.settle call (generateContent env (Service.request call)) with
    | JS.Returned enhanced =>
        effects =
          [ Page.Requested (Service.request call);
            Page.Downloaded enhanced
              ("creative-collage-8k-" ++ Text.decimal now ++ "." ++
               Text.fileType enhanced) ] /\
        enhancementError final = None
    | JS.Threw e =>
        effects = [ Page.Requested (Service.request call) ] /\
        enhancementError final = Some (messageOf e "Failed to enhance image.")
    end /\
    isEnhancing final = false /\
    moodboardCells final = moodboardCells st /\
    uploadCells final = uploadCells st /\
    inputCells final = inputCells st /\
    elementCells final = elementCells st /\
    similarCells final = similarCells st /\
    compositeCells final = compositeCells st.
Proof.
  intros Hres Hurl Hcomma Hcolon Hsemi Hdata call. subst call.
  destruct (dataUrl_decoded b Hcomma Hcolon Hsemi Hdata) as [Hmime Hbase].
  unfold Page.handleEnhanceImage. rewrite Hres, Hurl.
  cbn [JS.truthy_opt]. rewrite dataUrl_truthy. cbn [negb].
  rewrite Hmime, Hbase.
  match goal with
  | |- context [Service.settle ?c ?r] => destruct (Service.settle c r) as [enhanced|e]
  end; eexists; eexists; (split; [reflexivity|]); repeat split.
Qed.

Lemma enhance_sends_the_shown_image_witness :
  exists final,
    Page.handleEnhanceImage quietEnv 1700000000000%N "undefined has no split"
      (app pageWithBoard) =
    Some (final,
          [ Page.Requested
              (Service.request (Service.enhanceImageTo8K "QUJD" "image/png"));
            Page.Downloaded "data:image/png;base64,QUJD"
              "creative-collage-8k-1700000000000.png" ]).
Proof.
  destruct (enhance_sends_the_shown_image quietEnv 1700000000000%N
              "undefined has no split" (app pageWithBoard) boardResult pngBlob
              eq_refl eq_refl eq_refl eq_refl eq_refl eq_refl)
    as (final & effects & Hrun & Hmatch & _).
  exists final. rewrite Hrun. f_equal. f_equal. exact (proj1 Hmatch).
Defined.

(** X22. The name of a download ends with the subtype of the media type of
    the data URL: a click on the download link of the mood board saves the
    shown image under [creative-collage-], the time, a point and that
    subtype, and the link of the composite panel does the same under
    [composite-result-]. *)
Theorem download_is_named_after_the_media_type
  (now : N) (st : AppState) (b : Service.Blob) (kind subtype : string) :
  Service.mimeType b = kind ++ "/" ++ subtype ->
  absent ";" kind = true -> absent "/" kind = true ->
  absent ";" subtype = true -> absent "/" subtype = true ->
  subtype <> EmptyString ->
  (forall shown,
     generatedResult st = Some shown ->
     Service.imageUrl shown = Some (Service.dataUrl b) ->
     ResultDisplay.handleDownload now st =
       [ Page.Downloaded (Service.dataUrl b)
           ("creative-collage-" ++ Text.decimal now ++ "." ++ subtype) ]) /\
  (compositeResultUrl st = Some (Service.dataUrl b) ->
     ResultDisplay.handleCompositeDownload now st =
       [ Page.Downloaded (Service.dataUrl b)
           ("composite-result-" ++ Text.decimal now ++ "." ++ subtype) ]).
Proof.
  intros Hm Hk1 Hk2 Hs1 Hs2 Hne.
  pose proof (fileType_dataUrl b kind subtype Hm Hk1 Hk2 Hs1 Hs2 Hne) as E.
  split.
  - intros shown Hres Hurl.
    unfold ResultDisplay.handleDownload, ResultDisplay.hasMoodboardResult.
    now rewrite Hres, Hurl, dataUrl_truthy, E.
  - intro Hurl. unfold ResultDisplay.handleCompositeDownload.
    now rewrite Hurl, dataUrl_truthy, E.
Qed.

Lemma download_is_named_after_the_media_type_witness :
  ResultDisplay.handleDownload 1700000000000%N (app pageWithBoard) =
    [ Page.Downloaded "data:image/png;base64,QUJD" "creative-collage-1700000000000.png" ].
Proof.
  apply (proj1 (download_is_named_after_the_media_type 1700000000000%N
                  (app pageWithBoard) pngBlob "image" "png"
                  eq_refl eq_refl eq_refl eq_refl eq_refl ltac:(discriminate))
           boardResult); reflexivity.
Defined.

(** X25. The extension of a download falls back to png when the part of the
    URL before its first semicolon has no slash, and when nothing stands
    between its first slash and the next one, as in a URL with a scheme and
    a double slash. *)
Theorem download_defaults_to_png (head rest : string) :
  absent ";" head = true ->
  (absent "/" head = true ->
     Text.fileType (head ++ String ";" rest) = "png" /\ Text.fileType head = "png") /\
  (forall scheme path,
     head = scheme ++ "//" ++ path -> absent "/" scheme = true ->
     Text.fileType (head ++ String ";" rest) = "png" /\ Text.fileType head = "png").
Proof.
  intro Hsemi. unfold Text.fileType.
  rewrite (split_at_first _ _ _ Hsemi), (split_absent _ _ Hsemi). cbn [Text.first].
  split.
  - intro Hslash. now rewrite (split_absent _ _ Hslash).
  - intros scheme path -> Hscheme.
    change (scheme ++ "//" ++ path) with (scheme ++ String "/" (String "/" path)).
    rewrite (split_at_first _ _ _ Hscheme). cbn [Text.split].
    replace (Ascii.eqb "/" "/") with true by reflexivity.
    now split.
Qed.

Lemma download_defaults_to_png_witness :
  Text.fileType "blob:https://app.example/3f2a" = "png" /\
  Text.fileType "data:text;base64,QUJD" = "png".
Proof.
  split.
  - apply (proj2 (download_defaults_to_png "blob:https://app.example/3f2a" EmptyString
                    eq_refl) "blob:https:" "app.example/3f2a"); reflexivity.
  - apply (proj1 (download_defaults_to_png "data:text" "base64,QUJD" eq_refl)).
    reflexivity.
Defined.

End DataUrls.

Section Views.

(** The state that [handleGenerateMoodboard] leaves on a page with a primary
    image: the loading flag is put down last, and the cells of the composite
    are never written. *)
Lemma handleGenerateMoodboard_final (env : Env) (w : World) (file : File) :
  primaryImageFile (app w) = Some file ->
  exists st,
    app (fst (fire env handleGenerateMoodboard w)) = setIsLoading false st /\
    compositeCells st = compositeCells (app w).
Proof.
  intro H. unfold fire, handleGenerateMoodboard. rewrite H. cbn [exec].
  destruct (readFile env file) as [base64|e].
  - rewrite exec_generate. cbn [fst].
    destruct (Service.settle _ _) as [result|e]; cbn [exec fst app];
      eexists; split; reflexivity.
  - cbn [exec fst app]. eexists. split; reflexivity.
Qed.

(** X23. While a mood board is being generated the page shows the spinner
    and nothing else.  Once the generation has ended the spinner is gone,
    and a composite that was on the page before is on the page again, next
    to the new mood board or alone. *)
Theorem spinner_covers_generation (env : Env) (w : World) (file : File) :
  primaryImageFile (app w) = Some file ->
  (forall req shown,
     In (Sent req shown) (snd (fire env handleGenerateMoodboard w)) ->
     ResultDisplay.ResultDisplay shown = ResultDisplay.Spinner) /\
  let final := app (fst (fire env handleGenerateMoodboard w)) in
  ResultDisplay.ResultDisplay final <> ResultDisplay.Spinner /\
  (ResultDisplay.hasCompositeState (app w) = true ->
     exists panels,
       ResultDisplay.ResultDisplay final = ResultDisplay.Shown panels /\
       ResultDisplay.compositePanel panels = true).
Proof.
  intro H. split.
  - intros req shown. rewrite handleGenerateMoodboard_trace, H.
    destruct (readFile env file); [|intros []].
    intros [E|[]]. now injection E as _ <-.
  - destruct (handleGenerateMoodboard_final env w file H) as (st & -> & Hc).
    assert (Hcs : ResultDisplay.hasCompositeState (setIsLoading false st) =
                  ResultDisplay.hasCompositeState (app w)).
    { unfold ResultDisplay.hasCompositeState. unfold compositeCells in Hc.
      cbn [compositeResultUrl isGeneratingComposite compositeError setIsLoading].
      injection Hc as -> -> ->. reflexivity. }
    unfold ResultDisplay.ResultDisplay. cbn [isLoading setIsLoading].
    unfold ResultDisplay.hasMoodboardResult. cbn [generatedResult setIsLoading].
    rewrite Hcs. split.
    + destruct (generatedResult st) as [r|]; [destruct (Service.imageUrl r) as [u|];
        [destruct (JS.truthy u)|]|];
        destruct (ResultDisplay.hasCompositeState (app w)); discriminate.
    + intros ->. cbn [negb].
      destruct (generatedResult st) as [r|]; [destruct (Service.imageUrl r) as [u|];
        [destruct (JS.truthy u)|]|]; eexists; split; reflexivity.
Qed.

Lemma spinner_covers_generation_witness :
  exists panels,
    ResultDisplay.ResultDisplay
      (app (fst (fire quietEnv handleGenerateMoodboard pageWithComposite))) =
      ResultDisplay.Shown panels /\
    ResultDisplay.compositePanel panels = true.
Proof.
  apply (proj2 (proj2 (spinner_covers_generation quietEnv pageWithComposite outfitFile
                         eq_refl))).
  reflexivity.
Defined.

(** X24. The button of the element details and the query of the search
    always belong to the same of five kinds: shopping, map, recipe, art, or
    the generic one for every other element type. *)
Theorem button_matches_query (d : Service.ElementDetails) :
  let button := fst (ResultDisplay.getSearchContext (Some d)) in
  let query := Service.contents (Service.request (Service.findSimilarItems d)) in
  let n := Service.elementName d in
  (button = "Shop This Item" /\ query = Service.OfText (Service.commerceQuery n)) \/
  (button = "Locate on Map" /\ query = Service.OfText (Service.locationQuery n)) \/
  (button = "Find Recipe" /\ query = Service.OfText (Service.recipeQuery n)) \/
  (button = "Find Similar Art" /\ query = Service.OfText (Service.artQuery n)) \/
  (button = "Find Out More" /\ query = Service.OfText (Service.genericQuery n)).
Proof.
  cbn [ResultDisplay.getSearchContext Service.findSimilarItems Service.request
       Service.contents].
  unfold Service.similarPrompt.
  destruct (Service.elementType d =? "fashion_item"); [now left|].
  destruct (Service.elementType d =? "product"); [now left|].
  destruct (Service.elementType d =? "architectural_feature"); [now right; left|].
  destruct (Service.elementType d =? "food_item"); [now right; right; left|].
  destruct (Service.elementType d =? "design_element"); [now right; right; right; left|].
  now right; right; right; right.
Qed.

End Views.
